(** * Reflection scripts: [gather_history.py], [gather_permissions.py]
      and [gather_session.py]

    A shallow embedding of the section parser, the keyword extractor and the
    theme aggregator of [scripts/gather_history.py], of the permission
    parser of [scripts/gather_permissions.py] and of the git readers of
    [scripts/gather_session.py], and the properties the specification states
    about them.

    Text is a [str]: a sequence of Unicode code points, as in Python.  What
    Python fixes is written out: the white space of [strip], the letters and
    digits of the character classes written in the patterns, and everything
    on ASCII text.  What Python takes from the Unicode character database
    for characters beyond ASCII (the letters and digits of [\w], [\d] and
    [isalnum], the case mapping of [lower]) is a parameter, [UnicodeData]:
    every statement holds whatever the database says. *)

From Stdlib Require Import List Arith Bool Lia NArith ZArith.
From Stdlib Require Import Sorting.Sorted Sorting.Permutation.
From Stdlib Require Strings.Byte Decimal.
From stdpp Require Import base option list sorting gmap.
Import ListNotations.

(* ===================================================================== *)
(** ** Text *)
(* ===================================================================== *)

(** A character is a Unicode code point. *)
Definition char := N.

(** A Python [str]. *)
Inductive str :=
| EmptyString
| String (c : char) (s : str).

(** Literals: ["a"] is the code point of an ASCII character, ["010"] the
    code point with that decimal number (as for [Ascii]); a text literal
    holds ASCII characters only. *)
Module Literal.

Definition digit (b : Byte.byte) : option N :=
  let n := Byte.to_N b in
  if ((48 <=? n) && (n <=? 57))%N then Some (n - 48)%N else None.

Definition char_of_bytes (bs : list Byte.byte) : option N :=
  match bs with
  | [b] => if (Byte.to_N b <? 128)%N then Some (Byte.to_N b) else None
  | [a; b; c] =>
      match digit a, digit b, digit c with
      | Some x, Some y, Some z => Some (100 * x + 10 * y + z)%N
      | _, _, _ => None
      end
  | _ => None
  end.

Definition bytes_of_char (n : N) : option (list Byte.byte) :=
  if (n <? 128)%N then option_map (fun b => [b]) (Byte.of_N n) else None.

Fixpoint str_of_bytes (bs : list Byte.byte) : option str :=
  match bs with
  | [] => Some EmptyString
  | b :: bs' =>
      if (Byte.to_N b <? 128)%N
      then option_map (String (Byte.to_N b)) (str_of_bytes bs')
      else None
  end.

Fixpoint bytes_of_str (s : str) : option (list Byte.byte) :=
  match s with
  | EmptyString => Some []
  | String c s' =>
      match bytes_of_char c, bytes_of_str s' with
      | Some [b], Some bs => Some (b :: bs)
      | _, _ => None
      end
  end.

End Literal.

Declare Scope chr_scope.
Delimit Scope chr_scope with chr.
Bind Scope chr_scope with char.
String Notation N Literal.char_of_bytes Literal.bytes_of_char : chr_scope.

Declare Scope str_scope.
Delimit Scope str_scope with str.
Bind Scope str_scope with str.
String Notation str Literal.str_of_bytes Literal.bytes_of_str : str_scope.
Open Scope str_scope.

Module Char.

Definition eqb (a b : char) : bool := N.eqb a b.

(** [a <= c <= b] *)
Definition between (a b c : char) : bool := N.leb a c && N.leb c b.

(** An ASCII character: a code point below 128. *)
Definition is_ascii (c : char) : bool := N.ltb c 128.

End Char.

Module Str.

(** [len(s)] *)
Fixpoint length (s : str) : nat :=
  match s with
  | EmptyString => 0
  | String _ s' => S (length s')
  end.

(** [a + b] *)
Fixpoint append (a b : str) : str :=
  match a with
  | EmptyString => b
  | String c a' => String c (append a' b)
  end.

(** [a == b] *)
Fixpoint eqb (a b : str) : bool :=
  match a, b with
  | EmptyString, EmptyString => true
  | String c a', String d b' => Char.eqb c d && eqb a' b'
  | _, _ => false
  end.

(** Python's order on [str]: code point by code point, a proper prefix
    first. *)
Fixpoint compare (a b : str) : comparison :=
  match a, b with
  | EmptyString, EmptyString => Eq
  | EmptyString, String _ _ => Lt
  | String _ _, EmptyString => Gt
  | String c a', String d b' =>
      match N.compare c d with
      | Eq => compare a' b'
      | o => o
      end
  end.

(** [a < b] *)
Definition ltb (a b : str) : bool :=
  match compare a b with Lt => true | _ => false end.

(** [a <= b] *)
Definition leb (a b : str) : bool :=
  match compare a b with Gt => false | _ => true end.

Definition le (a b : str) : Prop := leb a b = true.

(** [list(s)], as code points, and back. *)
Fixpoint to_list (s : str) : list char :=
  match s with
  | EmptyString => []
  | String c s' => c :: to_list s'
  end.

Fixpoint of_list (l : list char) : str :=
  match l with
  | [] => EmptyString
  | c :: l' => String c (of_list l')
  end.

End Str.

Infix "+:+" := Str.append (at level 60, right associativity) : str_scope.
Arguments Str.append : simpl never.

#[global] Instance str_eq_dec : EqDecision str.
Proof. solve_decision. Defined.

#[global] Instance str_countable : Countable str.
Proof.
  apply (inj_countable' Str.to_list Str.of_list).
  intros s. induction s as [|c s IH]; simpl; [reflexivity|]. now rewrite IH.
Defined.

#[global] Instance str_le_dec : RelDecision Str.le.
Proof. intros a b. unfold Str.le. apply _. Defined.

(** What the program takes from the Unicode character database, for the
    characters beyond ASCII: whether a character is alphanumeric
    ([str.isalnum], and with the underscore the [\w] of [re]), whether it is
    a decimal digit (the [\d] of [re]), and the lowercase of a text that is
    not all ASCII ([str.lower]; the mapping looks at the context and may
    change the length). *)
Class UnicodeData := {
  isalnum_beyond_ascii : char -> bool;
  isdecimal_beyond_ascii : char -> bool;
  lower_beyond_ascii : str -> str
}.

(* ===================================================================== *)
(** ** Python [str] primitives *)
(* ===================================================================== *)

Module PyStr.

(** [c.isspace()], the characters [strip] removes: tab to carriage return,
    the four separators 28..31, the blank, next line, the no-break space
    and the Unicode spaces and line separators. *)
Definition is_space (c : char) : bool :=
  Char.between "009" "013" c || Char.between "028" " " c
  || Char.eqb c 0x85%N || Char.eqb c 0xA0%N || Char.eqb c 0x1680%N
  || Char.between 0x2000%N 0x200A%N c
  || Char.eqb c 0x2028%N || Char.eqb c 0x2029%N || Char.eqb c 0x202F%N
  || Char.eqb c 0x205F%N || Char.eqb c 0x3000%N.

(** [[A-Z]] *)
Definition is_upper (c : char) : bool := Char.between "A" "Z" c.

(** [[a-z]] *)
Definition is_lower (c : char) : bool := Char.between "a" "z" c.

(** [[0-9]] *)
Definition is_digit (c : char) : bool := Char.between "0" "9" c.

(** [[a-zA-Z]] *)
Definition is_letter (c : char) : bool := is_upper c || is_lower c.

(** Every character passes the test. *)
Fixpoint all_chars (test : char -> bool) (s : str) : bool :=
  match s with
  | EmptyString => true
  | String c s' => test c && all_chars test s'
  end.

(** Truth value of a text: [if s:]. *)
Definition nonempty (s : str) : bool :=
  match s with EmptyString => false | String _ _ => true end.

(** [s.isascii()] *)
Definition isascii (s : str) : bool := all_chars Char.is_ascii s.

(** [s.lower()] on ASCII text: the letters A to Z become a to z. *)
Definition lower_char (c : char) : char :=
  if is_upper c then (c + 32)%N else c.

Fixpoint lower_ascii (s : str) : str :=
  match s with
  | EmptyString => EmptyString
  | String c s' => String (lower_char c) (lower_ascii s')
  end.

Section Unicode.

Context {unicode : UnicodeData}.

(** An alphanumeric character: the test of [str.isalnum]. *)
Definition is_alnum (c : char) : bool :=
  if Char.is_ascii c then is_letter c || is_digit c else isalnum_beyond_ascii c.

(** [\d]: a decimal digit. *)
Definition is_decimal (c : char) : bool :=
  if Char.is_ascii c then is_digit c else isdecimal_beyond_ascii c.

(** [\w]: an alphanumeric character or the underscore. *)
Definition is_word (c : char) : bool := is_alnum c || Char.eqb c "_".

(** [s.lower()]: letter by letter on ASCII text, by the database on any
    other text. *)
Definition lower (s : str) : str :=
  if isascii s then lower_ascii s else lower_beyond_ascii s.

(** [s.isalnum()]: not empty, alphanumeric characters only. *)
Definition isalnum (s : str) : bool := nonempty s && all_chars is_alnum s.

End Unicode.

(** [s.startswith(p)] *)
Fixpoint startswith (p s : str) : bool :=
  match p, s with
  | EmptyString, _ => true
  | String _ _, EmptyString => false
  | String a p', String b s' => Char.eqb a b && startswith p' s'
  end.

(** [s[n:]] *)
Fixpoint slice_from (n : nat) (s : str) : str :=
  match n, s with
  | O, _ => s
  | S _, EmptyString => EmptyString
  | S k, String _ s' => slice_from k s'
  end.

(** [needle in hay] *)
Fixpoint contains (needle hay : str) : bool :=
  startswith needle hay ||
  match hay with
  | EmptyString => false
  | String _ hay' => contains needle hay'
  end.

Fixpoint lstrip (s : str) : str :=
  match s with
  | EmptyString => EmptyString
  | String c s' => if is_space c then lstrip s' else s
  end.

Fixpoint rstrip (s : str) : str :=
  match s with
  | EmptyString => EmptyString
  | String c s' =>
      let r := rstrip s' in
      if is_space c && negb (nonempty r) then EmptyString else String c r
  end.

(** [s.strip()] *)
Definition strip (s : str) : str := rstrip (lstrip s).

(** [s.split("\n")]: never empty, one more piece than there are line feeds. *)
Fixpoint split_lines (s : str) : list str :=
  match s with
  | EmptyString => [EmptyString]
  | String c s' =>
      if Char.eqb c "010" then EmptyString :: split_lines s'
      else match split_lines s' with
           | l :: ls => String c l :: ls
           | [] => [String c EmptyString]
           end
  end.

(** [s.replace(a, b)] for one-character [a] and [b]. *)
Fixpoint replace_char (a b : char) (s : str) : str :=
  match s with
  | EmptyString => EmptyString
  | String c s' => String (if Char.eqb c a then b else c) (replace_char a b s')
  end.

(** [s[:n]] *)
Fixpoint slice_to (n : nat) (s : str) : str :=
  match n, s with
  | O, _ => EmptyString
  | S _, EmptyString => EmptyString
  | S k, String c s' => String c (slice_to k s')
  end.

(** [s.split(sep)] for a nonempty [sep]: the text is cut at each occurrence
    of [sep], found from the left and not overlapping.  [skip] counts the
    characters of the separator just found that are still to pass over. *)
Fixpoint split_from (sep : str) (skip : nat) (s : str) : list str :=
  match s with
  | EmptyString => [EmptyString]
  | String c s' =>
      match skip with
      | S k => split_from sep k s'
      | O =>
          if startswith sep s
          then EmptyString :: split_from sep (Str.length sep - 1) s'
          else match split_from sep 0 s' with
               | piece :: pieces => String c piece :: pieces
               | [] => [String c EmptyString]
               end
      end
  end.

Definition split (sep s : str) : list str := split_from sep 0 s.

(** [sep.join(pieces)] *)
Fixpoint join (sep : str) (pieces : list str) : str :=
  match pieces with
  | [] => EmptyString
  | [piece] => piece
  | piece :: pieces' => piece +:+ sep +:+ join sep pieces'
  end.

(** [s.replace(a, "")] for a one-character [a]. *)
Fixpoint remove_char (a : char) (s : str) : str :=
  match s with
  | EmptyString => EmptyString
  | String c s' => if Char.eqb c a then remove_char a s' else String c (remove_char a s')
  end.

(** [str(n)] for an integer: its decimal digits, a minus sign first when it
    is negative. *)
Fixpoint of_uint (d : Decimal.uint) : str :=
  match d with
  | Decimal.Nil => EmptyString
  | Decimal.D0 d' => String "0" (of_uint d')
  | Decimal.D1 d' => String "1" (of_uint d')
  | Decimal.D2 d' => String "2" (of_uint d')
  | Decimal.D3 d' => String "3" (of_uint d')
  | Decimal.D4 d' => String "4" (of_uint d')
  | Decimal.D5 d' => String "5" (of_uint d')
  | Decimal.D6 d' => String "6" (of_uint d')
  | Decimal.D7 d' => String "7" (of_uint d')
  | Decimal.D8 d' => String "8" (of_uint d')
  | Decimal.D9 d' => String "9" (of_uint d')
  end.

Definition of_Z (n : Z) : str :=
  match Z.to_int n with
  | Decimal.Pos d => of_uint d
  | Decimal.Neg d => String "-" (of_uint d)
  end.

(** [c * n] for a one-character [c]. *)
Fixpoint repeat_char (c : char) (n : nat) : str :=
  match n with
  | O => EmptyString
  | S k => String c (repeat_char c k)
  end.

End PyStr.

(** A fragment of the database, for the examples: Latin-1 (code points
    below 256) with its letters, its numbers and the lowercase of its
    capitals, and the Arabic-Indic digits. *)
Definition fragment_isdecimal (c : char) : bool :=
  Char.between 0x660%N 0x669%N c.

Definition fragment_isalnum (c : char) : bool :=
  Char.eqb c 0xAA%N || Char.eqb c 0xB2%N || Char.eqb c 0xB3%N || Char.eqb c 0xB5%N
  || Char.eqb c 0xB9%N || Char.eqb c 0xBA%N || Char.between 0xBC%N 0xBE%N c
  || Char.between 0xC0%N 0xD6%N c || Char.between 0xD8%N 0xF6%N c
  || Char.between 0xF8%N 0xFF%N c || fragment_isdecimal c.

Definition fragment_lower_char (c : char) : char :=
  if PyStr.is_upper c
     || (Char.between 0xC0%N 0xDE%N c && negb (Char.eqb c 0xD7%N))
  then (c + 32)%N else c.

Fixpoint fragment_lower (s : str) : str :=
  match s with
  | EmptyString => EmptyString
  | String c s' => String (fragment_lower_char c) (fragment_lower s')
  end.

Definition unicode_fragment : UnicodeData :=
  {| isalnum_beyond_ascii := fragment_isalnum;
     isdecimal_beyond_ascii := fragment_isdecimal;
     lower_beyond_ascii := fragment_lower |}.

(* ===================================================================== *)
(** ** Section parser: [parse_reflection_file] and [_save_section] *)
(* ===================================================================== *)

(** The dict built by [parse_reflection_file]; its ten keys are fixed. *)
Record reflection := mkReflection {
  file : str;
  date : str;
  topic : str;
  summary : str;
  discoveries : list str;
  improvements_made : list str;
  issues_created : list str;
  open_questions : list str;
  patterns_to_watch : list str;
  anti_patterns : list str
}.

(** The six list-valued keys. *)
Inductive category :=
| Discoveries | ImprovementsMade | IssuesCreated
| OpenQuestions | PatternsToWatch | AntiPatterns.

#[global] Instance category_eq_dec : EqDecision category.
Proof. solve_decision. Defined.

Definition category_items (c : category) (r : reflection) : list str :=
  match c with
  | Discoveries => discoveries r
  | ImprovementsMade => improvements_made r
  | IssuesCreated => issues_created r
  | OpenQuestions => open_questions r
  | PatternsToWatch => patterns_to_watch r
  | AntiPatterns => anti_patterns r
  end.

(** [reflection[key].extend(items)] *)
Definition extend (c : category) (items : list str) (r : reflection) : reflection :=
  match c with
  | Discoveries =>
      mkReflection (file r) (date r) (topic r) (summary r)
        (discoveries r ++ items) (improvements_made r) (issues_created r)
        (open_questions r) (patterns_to_watch r) (anti_patterns r)
  | ImprovementsMade =>
      mkReflection (file r) (date r) (topic r) (summary r)
        (discoveries r) (improvements_made r ++ items) (issues_created r)
        (open_questions r) (patterns_to_watch r) (anti_patterns r)
  | IssuesCreated =>
      mkReflection (file r) (date r) (topic r) (summary r)
        (discoveries r) (improvements_made r) (issues_created r ++ items)
        (open_questions r) (patterns_to_watch r) (anti_patterns r)
  | OpenQuestions =>
      mkReflection (file r) (date r) (topic r) (summary r)
        (discoveries r) (improvements_made r) (issues_created r)
        (open_questions r ++ items) (patterns_to_watch r) (anti_patterns r)
  | PatternsToWatch =>
      mkReflection (file r) (date r) (topic r) (summary r)
        (discoveries r) (improvements_made r) (issues_created r)
        (open_questions r) (patterns_to_watch r ++ items) (anti_patterns r)
  | AntiPatterns =>
      mkReflection (file r) (date r) (topic r) (summary r)
        (discoveries r) (improvements_made r) (issues_created r)
        (open_questions r) (patterns_to_watch r) (anti_patterns r ++ items)
  end.

(** [reflection["summary"] = line] *)
Definition set_summary (line : str) (r : reflection) : reflection :=
  mkReflection (file r) (date r) (topic r) line
    (discoveries r) (improvements_made r) (issues_created r)
    (open_questions r) (patterns_to_watch r) (anti_patterns r).

Section Parser.

Context {unicode : UnicodeData}.

(** The [if]/[elif] chain of [_save_section]: the key the items go to, or
    [None] when no branch is taken.  Python reads [a or b and not c] as
    [a or (b and not c)]. *)
Definition section_category (section : str) : option category :=
  let section_lower := PyStr.lower section in
  let has w := PyStr.contains w section_lower in
  if has "discover" || has "pattern" && negb (has "watch") then Some Discoveries
  else if has "improvement" && has "made" then Some ImprovementsMade
  else if has "issue" || has "created" then Some IssuesCreated
  else if has "question" then Some OpenQuestions
  else if has "watch" || has "pattern" then Some PatternsToWatch
  else if has "anti" then Some AntiPatterns
  else None.

Definition _save_section (r : reflection) (section : str) (items : list str)
  : reflection :=
  match section_category section with
  | Some c => extend c items r
  | None => r
  end.

(** The loop state of [parse_reflection_file]: the dict under construction,
    [current_section] ([None] before the first heading) and [current_items]. *)
Record parse_state := mkState {
  refl : reflection;
  current_section : option str;
  current_items : list str
}.

(** [current_section and current_items]: both must be truthy. *)
Definition pending (st : parse_state) : bool :=
  match current_section st, current_items st with
  | Some s, _ :: _ => PyStr.nonempty s
  | _, _ => false
  end.

(** [if current_section and current_items: _save_section(...)] *)
Definition flush (st : parse_state) : reflection :=
  match current_section st with
  | Some s => if pending st then _save_section (refl st) s (current_items st)
              else refl st
  | None => refl st
  end.

(** The text kept for a list-item line (the line is already stripped and
    starts with the marker): marker dropped, stripped, one checkbox token
    dropped. *)
Definition item_text (line : str) : str :=
  let item := PyStr.strip (PyStr.slice_from 2 line) in
  if PyStr.startswith "[x] " item then PyStr.slice_from 4 item
  else if PyStr.startswith "[ ] " item then PyStr.slice_from 4 item
  else item.

(** One iteration of the [for line in content.split("\n")] loop. *)
Definition parse_line (st : parse_state) (raw : str) : parse_state :=
  let line := PyStr.strip raw in
  if PyStr.startswith "## " line then
    mkState (flush st) (Some (PyStr.lower (PyStr.slice_from 3 line))) []
  else if PyStr.startswith "### " line then st
  else if PyStr.startswith "- " line then
    let item := item_text line in
    if PyStr.nonempty item
    then mkState (refl st) (current_section st) (current_items st ++ [item])
    else st
  else if PyStr.nonempty line
          && bool_decide (current_section st = Some "session summary") then
    mkState (set_summary line (refl st)) (current_section st) (current_items st)
  else st.

(** [re.match(r"(\d{4}-\d{2}-\d{2})-(.+)", filename)]: the two groups, when
    the name starts with four decimal digits, a hyphen, two digits, a
    hyphen, two digits, a hyphen and at least one character other than a
    line feed; the second group is greedy and runs to the first line feed or
    the end. *)
Fixpoint until_newline (s : str) : str :=
  match s with
  | EmptyString => EmptyString
  | String c s' => if Char.eqb c "010" then EmptyString else String c (until_newline s')
  end.

Definition match_date_topic (filename : str) : option (str * str) :=
  match filename with
  | String y1 (String y2 (String y3 (String y4 (String h1
      (String m1 (String m2 (String h2 (String d1 (String d2 (String h3 rest)))))))))) =>
      if PyStr.is_decimal y1 && PyStr.is_decimal y2 && PyStr.is_decimal y3
         && PyStr.is_decimal y4
         && Char.eqb h1 "-" && PyStr.is_decimal m1 && PyStr.is_decimal m2
         && Char.eqb h2 "-" && PyStr.is_decimal d1 && PyStr.is_decimal d2
         && Char.eqb h3 "-" && PyStr.nonempty (until_newline rest)
      then Some (String y1 (String y2 (String y3 (String y4 (String h1
                  (String m1 (String m2 (String h2 (String d1 (String d2 ""))))))))),
                 until_newline rest)
      else None
  | _ => None
  end.

(** A [Path], by the two observations the parser makes of it:
    [str(filepath)] and [filepath.stem]. *)
Record path := mkPath { path_str : str; stem : str }.

(** The dict as first built: date and topic from the file name, the rest empty. *)
Definition initial_reflection (filepath : path) : reflection :=
  let filename := stem filepath in
  let '(d, t) :=
    match match_date_topic filename with
    | Some (d, slug) => (d, PyStr.replace_char "-" " " slug)
    | None => (EmptyString, filename)
    end in
  mkReflection (path_str filepath) d t "" [] [] [] [] [] [].

(** The parse of a text that was read. *)
Definition parse_content (filepath : path) (content : str) : reflection :=
  flush (fold_left parse_line (PyStr.split_lines content)
           (mkState (initial_reflection filepath) None [])).

(** [parse_reflection_file]: [read_text] either yields the content or raises
    ([None] here), and an exception there makes the function return [None]. *)
Definition parse_reflection_file (read_text : path -> option str) (filepath : path)
  : option reflection :=
  match read_text filepath with
  | None => None
  | Some content => Some (parse_content filepath content)
  end.

(** The loop of [main] over the files found: a file whose parse is [None] is
    skipped; a parsed dict always has its ten keys, so it is truthy. *)
Definition parse_all (read_text : path -> option str) (files : list path)
  : list reflection :=
  fold_left
    (fun reflections filepath =>
       match parse_reflection_file read_text filepath with
       | Some parsed => reflections ++ [parsed]
       | None => reflections
       end)
    files [].

End Parser.

(* ===================================================================== *)
(** ** Keyword extractor: [extract_keywords] *)
(* ===================================================================== *)

Definition stop_words : list str :=
  [ "the"; "a"; "an"; "is"; "are"; "was"; "were"; "be"; "been"; "being";
    "have"; "has"; "had"; "do"; "does"; "did"; "will"; "would"; "could";
    "should"; "may"; "might"; "must"; "shall"; "can"; "to"; "of"; "in";
    "for"; "on"; "with"; "at"; "by"; "from"; "as"; "into"; "through";
    "during"; "before"; "after"; "above"; "below"; "between"; "under";
    "again"; "further"; "then"; "once"; "here"; "there"; "when"; "where";
    "why"; "how"; "all"; "each"; "few"; "more"; "most"; "other"; "some";
    "such"; "no"; "nor"; "not"; "only"; "own"; "same"; "so"; "than";
    "too"; "very"; "just"; "but"; "and"; "or"; "if"; "this"; "that";
    "these"; "those"; "it"; "its"; "i"; "we"; "you"; "he"; "she"; "they";
    "added"; "updated"; "created"; "fixed"; "issue"; "bd"; "see"; "also" ].

Module Regex.

Section Unicode.

Context {unicode : UnicodeData}.

(** [[a-zA-Z0-9_-]] *)
Definition in_class (c : char) : bool :=
  PyStr.is_letter c || PyStr.is_digit c || Char.eqb c "_" || Char.eqb c "-".

(** [\b] between a character (word character or not) and the text after it. *)
Definition boundary (prev_word : bool) (next : str) : bool :=
  xorb prev_word
    (match next with String c _ => PyStr.is_word c | EmptyString => false end).

(** [[a-zA-Z0-9_-]+\b] at the front of [s]: the longest nonempty run of
    class characters that ends at a word boundary (greedy, giving
    characters back until [\b] holds). *)
Fixpoint body_match (s : str) : option str :=
  match s with
  | EmptyString => None
  | String c s' =>
      if in_class c then
        match body_match s' with
        | Some p => Some (String c p)
        | None => if boundary (PyStr.is_word c) s' then Some (String c EmptyString)
                  else None
        end
      else None
  end.

(** [re.findall(r"\b[a-zA-Z][a-zA-Z0-9_-]+\b", s)], scanning left to right.
    [skip] counts the characters of the last match still to pass over;
    [prev_word] tells whether the character before was a word character. *)
Fixpoint findall_words (skip : nat) (prev_word : bool) (s : str) : list str :=
  match s with
  | EmptyString => []
  | String c s' =>
      match skip with
      | S k => findall_words k (PyStr.is_word c) s'
      | O =>
          if xorb prev_word (PyStr.is_word c) && PyStr.is_letter c then
            match body_match s' with
            | Some p => String c p :: findall_words (Str.length p) (PyStr.is_word c) s'
            | None => findall_words 0 (PyStr.is_word c) s'
            end
          else findall_words 0 (PyStr.is_word c) s'
      end
  end.

End Unicode.

End Regex.

Section Aggregator.

Context {unicode : UnicodeData}.

Definition extract_keywords (text : str) : list str :=
  let words := Regex.findall_words 0 false (PyStr.lower text) in
  List.filter
    (fun w => negb (existsb (Str.eqb w) stop_words) && (2 <? Str.length w))
    words.

(* ===================================================================== *)
(** ** Theme aggregator: [analyze_recurring_themes] *)
(* ===================================================================== *)

(** A [Counter] (and any dict whose order is observed): keys in insertion
    order, each once. *)
Definition counter := list (str * nat).

(** [c[kw] += 1]: a known key is updated in place, a new one goes last. *)
Fixpoint counter_incr (kw : str) (c : counter) : counter :=
  match c with
  | [] => [(kw, 1)]
  | (k, n) :: c' =>
      if Str.eqb k kw then (k, S n) :: c' else (k, n) :: counter_incr kw c'
  end.

(** [sorted(c.items(), key=itemgetter(1), reverse=True)]: a stable sort, so
    items of equal count keep their order. *)
Fixpoint insert_by_count (x : str * nat) (l : list (str * nat))
  : list (str * nat) :=
  match l with
  | [] => [x]
  | y :: l' => if snd x <? snd y then y :: insert_by_count x l' else x :: y :: l'
  end.

Definition sorted_by_count (c : counter) : list (str * nat) :=
  foldr insert_by_count [] c.

(** [c.most_common(n)] *)
Definition most_common (n : nat) (c : counter) : list (str * nat) :=
  take n (sorted_by_count c).

(** [d[k] = v] on an insertion-ordered dict. *)
Fixpoint dict_set {V} (k : str) (v : V) (d : list (str * V)) : list (str * V) :=
  match d with
  | [] => [(k, v)]
  | (k', v') :: d' =>
      if Str.eqb k' k then (k', v) :: d' else (k', v') :: dict_set k v d'
  end.

(** [dict(pairs)] and a dict comprehension: the pairs are set in order. *)
Definition dict_of {V} (pairs : list (str * V)) : list (str * V) :=
  fold_left (fun d kv => dict_set (fst kv) (snd kv) d) pairs [].

(** The locals of [analyze_recurring_themes]: the four counters
    [discovery_keywords], [improvement_keywords], [question_keywords],
    [pattern_keywords], and [keyword_dates]. *)
Record tally := mkTally {
  cnt_discovery : counter;
  cnt_improvement : counter;
  cnt_question : counter;
  cnt_pattern : counter;
  keyword_dates : gmap str (gset str)
}.

(** [keyword_dates.get(kw, [])], read as a set: the dates held for a
    keyword, none when the key is absent. *)
Definition dates_of (kd : gmap str (gset str)) (kw : str) : gset str :=
  default ∅ (kd !! kw).

(** [keyword_dates.setdefault(kw, set()).add(date)] *)
Definition add_date (kw d : str) (kd : gmap str (gset str))
  : gmap str (gset str) :=
  <[kw := dates_of kd kw ∪ {[d]}]> kd.

Definition see_discovery (d : str) (t : tally) (kw : str) : tally :=
  mkTally (counter_incr kw (cnt_discovery t)) (cnt_improvement t) (cnt_question t)
    (cnt_pattern t) (add_date kw d (keyword_dates t)).

Definition see_improvement (t : tally) (kw : str) : tally :=
  mkTally (cnt_discovery t) (counter_incr kw (cnt_improvement t)) (cnt_question t)
    (cnt_pattern t) (keyword_dates t).

Definition see_question (d : str) (t : tally) (kw : str) : tally :=
  mkTally (cnt_discovery t) (cnt_improvement t) (counter_incr kw (cnt_question t))
    (cnt_pattern t) (add_date kw d (keyword_dates t)).

Definition see_pattern (t : tally) (kw : str) : tally :=
  mkTally (cnt_discovery t) (cnt_improvement t) (cnt_question t)
    (counter_incr kw (cnt_pattern t)) (keyword_dates t).

(** [for item in items: for kw in extract_keywords(item): body] *)
Definition for_keywords (body : tally -> str -> tally) (items : list str)
  (t : tally) : tally :=
  fold_left (fun t item => fold_left body (extract_keywords item) t) items t.

(** The body of [for r in reflections]. *)
Definition tally_reflection (t : tally) (r : reflection) : tally :=
  let d := date r in
  let t := for_keywords (see_discovery d) (discoveries r) t in
  let t := for_keywords see_improvement (improvements_made r) t in
  let t := for_keywords (see_question d) (open_questions r) t in
  for_keywords see_pattern (patterns_to_watch r) t.

Definition tally_all (reflections : list reflection) : tally :=
  fold_left tally_reflection reflections (mkTally [] [] [] [] ∅).

(** One value of [recurring_across_sessions]. *)
Record recurrence := mkRecurrence { count : nat; dates : list str }.

(** [sorted(keyword_dates.get(kw, []))]: the dates of the set in ascending
    order of Python's string comparison. *)
Definition sorted_dates (kd : gmap str (gset str)) (kw : str) : list str :=
  merge_sort Str.le (elements (dates_of kd kw)).

(** The dict comprehension that builds [recurring]. *)
Definition recurring (t : tally) : list (str * recurrence) :=
  dict_of
    (map (fun kc => (fst kc, mkRecurrence (snd kc) (sorted_dates (keyword_dates t) (fst kc))))
       (List.filter (fun kc => 2 <=? snd kc) (most_common 20 (cnt_discovery t)))).

(** The dict returned by [analyze_recurring_themes]. *)
Record themes := mkThemes {
  discovery_keywords : list (str * nat);
  improvement_keywords : list (str * nat);
  question_keywords : list (str * nat);
  pattern_keywords : list (str * nat);
  recurring_across_sessions : list (str * recurrence)
}.

Definition analyze_recurring_themes (reflections : list reflection) : themes :=
  let t := tally_all reflections in
  mkThemes
    (dict_of (most_common 15 (cnt_discovery t)))
    (dict_of (most_common 15 (cnt_improvement t)))
    (dict_of (most_common 10 (cnt_question t)))
    (dict_of (most_common 10 (cnt_pattern t)))
    (recurring t).

(** [l[-n:]]: the last [n] elements. *)
Definition last_n {A} (n : nat) (l : list A) : list A := drop (length l - n) l.

(** The plain-text report of [main] (the branch without [--json]), one
    string per call of [print]. *)
Definition report_reflection (r : reflection) : list str :=
  ("  - " +:+ date r +:+ ": " +:+ topic r)
  :: (if PyStr.nonempty (summary r)
      then ["    " +:+ PyStr.slice_to 60 (summary r) +:+ "..."]
      else []).

Definition report_theme (item : str * recurrence) : str :=
  "  - " +:+ fst item +:+ ": " +:+ PyStr.of_Z (Z.of_nat (count (snd item)))
  +:+ " mentions (" +:+ PyStr.join ", " (last_n 3 (dates (snd item))) +:+ ")".

Definition report_count (item : str * nat) : str :=
  "  - " +:+ fst item +:+ ": " +:+ PyStr.of_Z (Z.of_nat (snd item)).

Definition report (reflections_dir : str) (reflections : list reflection)
  (t : themes) : list str :=
  [ PyStr.repeat_char "=" 60;
    "REFLECTION HISTORY SUMMARY";
    PyStr.repeat_char "=" 60;
    "Directory: " +:+ reflections_dir;
    "Total Reflections: " +:+ PyStr.of_Z (Z.of_nat (length reflections));
    "";
    "Recent Reflections:" ]
  ++ flat_map report_reflection (take 5 reflections)
  ++ [ ""; "Recurring Themes (mentioned 2+ times across sessions):" ]
  ++ map report_theme (take 10 (recurring_across_sessions t))
  ++ [ ""; "Top Discovery Keywords:" ]
  ++ map report_count (take 8 (discovery_keywords t))
  ++ [ ""; "Open Question Keywords (potential recurring issues):" ]
  ++ map report_count (take 5 (question_keywords t))
  ++ [ ""; "Run with --json for full structured output" ].

End Aggregator.

(* ===================================================================== *)
(** ** Permission settings: [gather_permissions.py] *)
(* ===================================================================== *)

(** A decoded JSON value, as [json.loads] returns it.  Of a number the code
    only ever observes whether it is zero. *)
#[warnings="-register-all"]
Inductive json :=
| JNull
| JBool (b : bool)
| JNumber (nonzero : bool)
| JString (s : str)
| JArray (items : list json)
| JObject (members : list (str * json)).

(** The exceptions the code can run into and does not catch. *)
Inductive exn := AttributeError | TypeError.

Inductive outcome (A : Type) :=
| Returns (a : A)
| Raises (e : exn).
Arguments Returns {A} a.
Arguments Raises {A} e.

(** [d.get(key)] on an insertion-ordered dict: [None] for a missing key. *)
Fixpoint dict_get {V} (key : str) (d : list (str * V)) : option V :=
  match d with
  | [] => None
  | (k, v) :: d' => if Str.eqb k key then Some v else dict_get key d'
  end.

Module Permissions.

Section Unicode.

Context {unicode : UnicodeData}.

(** The dict built by [parse_permission_pattern]. *)
Record parsed := mkParsed {
  raw : str;
  type : str;
  tool : str;
  pattern : str;
  has_wildcard : bool
}.

(** [\w+] at the front: the longest run of word characters. *)
Fixpoint word_run (s : str) : str :=
  match s with
  | EmptyString => EmptyString
  | String c s' => if PyStr.is_word c then String c (word_run s') else EmptyString
  end.

(** Any text and then a closing parenthesis, at the front of [s]: the
    longest text without a line feed that a closing parenthesis follows
    (greedy, giving characters back until the parenthesis matches). *)
Fixpoint upto_last_paren (s : str) : option str :=
  match s with
  | EmptyString => None
  | String c s' =>
      if Char.eqb c "010" then None
      else match upto_last_paren s' with
           | Some q => Some (String c q)
           | None => if Char.eqb c ")" then Some EmptyString else None
           end
  end.

(** [re.match(r"(\w+)\((.+)\)", permission)]: the two groups. *)
Definition match_tool_pattern (permission : str) : option (str * str) :=
  let name := word_run permission in
  if PyStr.nonempty name then
    match PyStr.slice_from (Str.length name) permission with
    | String c rest =>
        if Char.eqb c "(" then
          match upto_last_paren rest with
          | Some q => if PyStr.nonempty q then Some (name, q) else None
          | None => None
          end
        else None
    | EmptyString => None
    end
  else None.

Definition parse_permission_pattern (permission : str) : parsed :=
  let wild := PyStr.contains "*" permission in
  if PyStr.startswith "mcp__" permission then
    match PyStr.split "__" permission with
    | _ :: server :: name :: _ =>
        mkParsed permission "mcp" (server +:+ "/" +:+ name) "" wild
    | _ => mkParsed permission "mcp" "" "" wild
    end
  else
    match match_tool_pattern permission with
    | Some (name, pat) => mkParsed permission "tool" name pat wild
    | None =>
        if PyStr.isalnum permission
           || PyStr.isalnum (PyStr.remove_char "_" permission)
        then mkParsed permission "tool" permission "" wild
        else mkParsed permission "unknown" "" "" wild
    end.

(** The settings file as [load_settings] finds it: missing, present but
    unreadable or not JSON, or decoded. *)
Inductive settings_file :=
| Missing
| Unusable
| Decoded (settings : json).

(** [settings_path.exists()] *)
Definition file_exists (f : settings_file) : bool :=
  match f with Missing => false | _ => true end.

Definition load_settings (f : settings_file) : option json :=
  match f with
  | Decoded settings => Some settings
  | _ => None
  end.

(** Truth value of a decoded value: [if not settings]. *)
Definition truthy (j : json) : bool :=
  match j with
  | JNull => false
  | JBool b => b
  | JNumber nonzero => nonzero
  | JString s => PyStr.nonempty s
  | JArray items => match items with [] => false | _ => true end
  | JObject members => match members with [] => false | _ => true end
  end.

(** [j.get(key, default)]: only a dict has [get]. *)
Definition get (j : json) (key : str) (default : json) : outcome json :=
  match j with
  | JObject members => Returns (from_option id default (dict_get key members))
  | _ => Raises AttributeError
  end.

(** [for perm in j]: the elements of a list, the characters of a string,
    the keys of a dict; nothing else can be iterated. *)
Definition iterate (j : json) : outcome (list json) :=
  match j with
  | JArray items => Returns items
  | JString s =>
      Returns (map (fun c => JString (String c EmptyString)) (Str.to_list s))
  | JObject members => Returns (map (fun kv => JString (fst kv)) members)
  | _ => Raises TypeError
  end.

(** The dict returned by [gather_permissions]. *)
Record gathered := mkGathered {
  settings_path : str;
  exists_ : bool;
  current_permissions : json;
  permission_patterns : list parsed;
  denied_patterns : json;
  by_tool : list (str * list str);
  mcp_permissions : list str;
  bash_patterns : list str
}.

(** [if tool not in by_tool: by_tool[tool] = []] and then
    [by_tool[tool].append(perm)]. *)
Fixpoint group_add (name perm : str) (groups : list (str * list str))
  : list (str * list str) :=
  match groups with
  | [] => [(name, [perm])]
  | (k, perms) :: groups' =>
      if Str.eqb k name then (k, perms ++ [perm]) :: groups'
      else (k, perms) :: group_add name perm groups'
  end.

(** The body of [for perm in allow_list] for a string. *)
Definition add_permission (perm : str) (output : gathered) : gathered :=
  let parsed := parse_permission_pattern perm in
  mkGathered (settings_path output) (exists_ output) (current_permissions output)
    (permission_patterns output ++ [parsed])
    (denied_patterns output)
    (group_add (tool parsed) perm (by_tool output))
    (if Str.eqb (type parsed) "mcp" then mcp_permissions output ++ [perm]
     else mcp_permissions output)
    (if Str.eqb (type parsed) "mcp" then bash_patterns output
     else if Str.eqb (tool parsed) "Bash"
          then bash_patterns output ++ [pattern parsed]
          else bash_patterns output).

(** The loop.  [parse_permission_pattern] of a value that is no string fails
    at ["*" in permission] (null, booleans, numbers) or at
    [permission.startswith] (lists, dicts). *)
Fixpoint add_permissions (perms : list json) (output : gathered)
  : outcome gathered :=
  match perms with
  | [] => Returns output
  | JString perm :: perms' => add_permissions perms' (add_permission perm output)
  | (JArray _ | JObject _) :: _ => Raises AttributeError
  | _ :: _ => Raises TypeError
  end.

Definition gather_permissions (path : str) (f : settings_file)
  : outcome gathered :=
  let output :=
    mkGathered path (file_exists f) (JArray []) [] (JArray []) [] [] [] in
  match load_settings f with
  | None => Returns output
  | Some settings =>
      if negb (truthy settings) then Returns output
      else
        match get settings "permissions" (JObject []) with
        | Raises e => Raises e
        | Returns perms =>
            match get perms "allow" (JArray []) with
            | Raises e => Raises e
            | Returns allow_list =>
                match get perms "deny" (JArray []) with
                | Raises e => Raises e
                | Returns deny_list =>
                    match iterate allow_list with
                    | Raises e => Raises e
                    | Returns perms =>
                        add_permissions perms
                          (mkGathered path (file_exists f) allow_list []
                             deny_list [] [] [])
                    end
                end
            end
        end
  end.

End Unicode.

End Permissions.

(* ===================================================================== *)
(** ** Session data: [gather_session.py] *)
(* ===================================================================== *)

Module Session.

(** What [subprocess.run] does with a command: the process ends with a
    return code and its decoded output, runs out of time, cannot be found,
    or the call fails with any other exception (the program may not be
    executable, the output may not decode). *)
Inductive process :=
| Exited (returncode : Z) (stdout : str)
| TimeoutExpired
| FileNotFound
| OtherError.

(** [run_command]: the two exceptions named are caught, any other one is
    raised to the caller ([None]).  The callers pass a literal command,
    never an empty one. *)
Definition run_command (run : list str -> process) (cmd : list str)
  : option (bool * str) :=
  match run cmd with
  | Exited returncode stdout => Some (Z.eqb returncode 0, PyStr.strip stdout)
  | TimeoutExpired => Some (false, "Command timed out")
  | FileNotFound => Some (false, "Command not found: " +:+ hd EmptyString cmd)
  | OtherError => None
  end.

Record commit := mkCommit {
  hash : str;
  message : str;
  author : str;
  when : str;
  files : list str
}.

(** [current_commit["files"].append(f)]: [current_commit] is the dict last
    appended to [commits], so the append shows in the last commit. *)
Fixpoint add_file (f : str) (commits : list commit) : list commit :=
  match commits with
  | [] => []
  | [c] => [mkCommit (hash c) (message c) (author c) (when c) (files c ++ [f])]
  | c :: commits' => c :: add_file f commits'
  end.

(** One line of the log: [current_commit] is [None] exactly while [commits]
    is empty. *)
Definition log_line (commits : list commit) (line : str) : list commit :=
  if PyStr.contains "|" line then
    match PyStr.split "|" line with
    | p0 :: p1 :: p2 :: p3 :: _ =>
        commits ++ [mkCommit (PyStr.slice_to 8 p0) p1 p2 p3 []]
    | _ => commits
    end
  else if PyStr.nonempty (PyStr.strip line)
          && match commits with [] => false | _ => true end
  then add_file (PyStr.strip line) commits
  else commits.

Definition parse_log (log_output : str) : list commit :=
  fold_left log_line (PyStr.split_lines log_output) [].

(** The [stats] dict. *)
Record stats := mkStats {
  total_files : nat;
  by_extension : list (str * nat)
}.

(** One line of the diff summary; [suffix] is [Path(filename).suffix]. *)
Definition diff_line (suffix : str -> str) (st : stats) (line : str) : stats :=
  if PyStr.contains "|" line then
    let filename := PyStr.strip (hd EmptyString (PyStr.split "|" line)) in
    let ext := if PyStr.nonempty (suffix filename) then suffix filename
               else "(no ext)" in
    mkStats (total_files st + 1)
      (dict_set ext (from_option id 0 (dict_get ext (by_extension st)) + 1)
         (by_extension st))
  else st.

Definition parse_diff (suffix : str -> str) (diff_output : str) : stats :=
  fold_left (diff_line suffix) (PyStr.split_lines diff_output) (mkStats 0 []).

Record status_entry := mkStatus { state : str; file : str }.

Definition parse_status (status_output : str) : list status_entry :=
  map (fun line => mkStatus (PyStr.strip (PyStr.slice_to 2 line))
                     (PyStr.slice_from 3 line))
    (List.filter (fun line => PyStr.nonempty (PyStr.strip line))
       (PyStr.split_lines status_output)).

(** The dict returned by [get_git_data]; [diff_stats] is [None] for the
    empty dict it starts as. *)
Record git_data := mkGitData {
  branch : str;
  commits : list commit;
  diff_stats : option stats;
  status : list status_entry;
  available : bool
}.

(** [get_git_data]: [None] when a call of [run_command] raises. *)
Definition get_git_data (suffix : str -> str) (run : list str -> process)
  (num_commits : Z) : option git_data :=
  match run_command run ["git"; "rev-parse"; "--git-dir"] with
  | None => None
  | Some r =>
      if negb (fst r) then Some (mkGitData "" [] None [] false)
      else
        match run_command run ["git"; "branch"; "--show-current"] with
        | None => None
        | Some b =>
            match run_command run
                    ["git"; "log"; "-" +:+ PyStr.of_Z num_commits;
                     "--pretty=format:%H|%s|%an|%ar"; "--name-only"] with
            | None => None
            | Some l =>
                match run_command run
                        ["git"; "diff"; "--stat";
                         "HEAD~" +:+ PyStr.of_Z (Z.min num_commits 5) +:+ "..HEAD"] with
                | None => None
                | Some d =>
                    match run_command run ["git"; "status"; "--porcelain"] with
                    | None => None
                    | Some s =>
                        Some
                          (mkGitData
                             (if fst b then snd b else "")
                             (if fst l && PyStr.nonempty (snd l)
                              then parse_log (snd l) else [])
                             (if fst d && PyStr.nonempty (snd d)
                              then Some (parse_diff suffix (snd d)) else None)
                             (if fst s && PyStr.nonempty (snd s)
                              then parse_status (snd s) else [])
                             true)
                    end
                end
            end
        end
  end.

(** The name kept for one line of [git status --porcelain]. *)
Definition edited_file (line : str) : str :=
  let filename := PyStr.strip (PyStr.slice_from 3 line) in
  if PyStr.contains " -> " filename then
    match PyStr.split " -> " filename with
    | _ :: new_name :: _ => new_name
    | _ => filename
    end
  else filename.

(** [get_files_edited]: [None] when [run_command] raises. *)
Definition get_files_edited (run : list str -> process) : option (list str) :=
  match run_command run ["git"; "status"; "--porcelain"] with
  | None => None
  | Some r =>
      if negb (fst r) then Some []
      else Some (map edited_file
                   (List.filter (fun line => PyStr.nonempty (PyStr.strip line))
                      (PyStr.split_lines (snd r))))
  end.

End Session.

(* ===================================================================== *)
(** ** The specification's side *)
(* ===================================================================== *)

Section Specification.

Context {unicode : UnicodeData}.

(** The six ordered classification rules of section 4.1 of the
    specification, as a rule list: a condition on the lowercased heading
    and the category it names. *)
Definition spec_rules : list ((str -> bool) * category) :=
  [ (fun n => PyStr.contains "discover" n
              || (PyStr.contains "pattern" n && negb (PyStr.contains "watch" n)),
     Discoveries);
    (fun n => PyStr.contains "improvement" n && PyStr.contains "made" n,
     ImprovementsMade);
    (fun n => PyStr.contains "issue" n || PyStr.contains "created" n,
     IssuesCreated);
    (fun n => PyStr.contains "question" n, OpenQuestions);
    (fun n => PyStr.contains "watch" n || PyStr.contains "pattern" n,
     PatternsToWatch);
    (fun n => PyStr.contains "anti" n, AntiPatterns) ].

(** First match wins. *)
Fixpoint first_match (rules : list ((str -> bool) * category)) (n : str)
  : option category :=
  match rules with
  | [] => None
  | (cond, c) :: rules' => if cond n then Some c else first_match rules' n
  end.

(** Case-insensitive: the rules read the lowercased heading. *)
Definition spec_classify (heading : str) : option category :=
  first_match spec_rules (PyStr.lower heading).

(** The date component [YYYY-MM-DD]: ten characters, decimal digits around
    two hyphens. *)
Definition is_iso_date (d : str) : bool :=
  match Str.to_list d with
  | [y1; y2; y3; y4; h1; m1; m2; h2; d1; d2] =>
      forallb PyStr.is_decimal [y1; y2; y3; y4; m1; m2; d1; d2]
      && Char.eqb h1 "-" && Char.eqb h2 "-"
  | _ => false
  end.

(** No line feed in the text. *)
Fixpoint line_free (s : str) : bool :=
  match s with
  | EmptyString => true
  | String c s' => negb (Char.eqb c "010") && line_free s'
  end.

(** Number of items a record holds over its six categories. *)
Definition total_items (r : reflection) : nat :=
  length (discoveries r) + length (improvements_made r) + length (issues_created r)
  + length (open_questions r) + length (patterns_to_watch r) + length (anti_patterns r).

(** A list-item line: after stripping it starts with the marker. *)
Definition is_list_item_line (raw : str) : bool :=
  PyStr.startswith "- " (PyStr.strip raw).

(** A level-2 heading line, and the heading text it carries. *)
Definition is_heading_line (raw : str) : bool :=
  PyStr.startswith "## " (PyStr.strip raw).

Definition heading_text (raw : str) : str :=
  PyStr.slice_from 3 (PyStr.strip raw).

(** The name a heading line gives its section: the heading text in lower
    case. *)
Definition section_name (raw : str) : str := PyStr.lower (heading_text raw).

(** The sections of a document, as the specification reads it: a level-2
    heading opens a section, which holds the item texts of the list-item
    lines up to the next heading; the lines before the first heading form a
    section without a name. *)
Fixpoint sections_from (name : option str) (items : list str) (lines : list str)
  : list (option str * list str) :=
  match lines with
  | [] => [(name, items)]
  | raw :: lines' =>
      if is_heading_line raw
      then (name, items) :: sections_from (Some (section_name raw)) [] lines'
      else if is_list_item_line raw
           then sections_from name (items ++ [item_text (PyStr.strip raw)]) lines'
           else sections_from name items lines'
  end.

Definition sections (content : str) : list (option str * list str) :=
  sections_from None [] (PyStr.split_lines content).

(** A section is stored under a category: it has a name, and the rules
    classify the name to that category. *)
Definition stored_under (c : category) (section : option str * list str) : bool :=
  match fst section with
  | Some name => bool_decide (spec_classify name = Some c)
  | None => false
  end.

Definition list_item_lines (content : str) : nat :=
  length (List.filter is_list_item_line (PyStr.split_lines content)).

(** The state after one more item went into the buffer. *)
Definition with_item (st : parse_state) (item : str) : parse_state :=
  mkState (refl st) (current_section st) (current_items st ++ [item]).

(** The keyword streams the four counters read, in loop order. *)
Definition keywords_of (field : reflection -> list str) (reflections : list reflection)
  : list str :=
  flat_map (fun r => flat_map extract_keywords (field r)) reflections.

(** Occurrences of a keyword in a stream. *)
Definition occurrences (kw : str) (stream : list str) : nat :=
  length (List.filter (Str.eqb kw) stream).

(** Position at which a keyword is first met in a stream. *)
Fixpoint first_index (kw : str) (stream : list str) : nat :=
  match stream with
  | [] => 0
  | k :: stream' => if Str.eqb k kw then 0 else S (first_index kw stream')
  end.

(** The documented order of a frequency table over a stream: higher count
    first, and among equal counts the keyword met first. *)
Definition table_order (stream : list str) (x y : str * nat) : Prop :=
  snd y < snd x
  \/ (snd x = snd y /\ first_index (fst x) stream < first_index (fst y) stream).

(** Strictly ascending in Python's string order. *)
Definition str_lt (a b : str) : Prop := Str.ltb a b = true.

(** The counter a stream of keywords leaves behind. *)
Definition count_all (stream : list str) (c : counter) : counter :=
  fold_left (fun c kw => counter_incr kw c) stream c.

(** What the file name alone decides in a record. *)
Definition header (r : reflection) : str * str * str :=
  (file r, date r, topic r).

(** Items a parse in progress holds: stored ones and buffered ones. *)
Definition load (st : parse_state) : nat :=
  total_items (refl st) + length (current_items st).

(** [c[kw]]: the count of a keyword, 0 when it is absent. *)
Fixpoint counter_get (kw : str) (c : counter) : nat :=
  match c with
  | [] => 0
  | (k, n) :: c' => if Str.eqb k kw then n else counter_get kw c'
  end.

(** A frequency table over a stream, as the specification describes it: at
    most [n] entries, each with the number of occurrences of its keyword,
    in the documented order, and the top ones: a keyword of the stream is
    left out only by a full table whose entries all come before it. *)
Definition frequency_table (n : nat) (stream : list str)
  (table : list (str * nat)) : Prop :=
  length table <= n
  /\ Forall (fun kc => snd kc = occurrences (fst kc) stream) table
  /\ StronglySorted (table_order stream) table
  /\ (forall k, k ∈ stream ->
        k ∈ map fst table
        \/ (length table = n
            /\ Forall (fun x => table_order stream x (k, occurrences k stream)) table)).

(** The keywords of a record that put its date into the date index: those
    of its discoveries and of its open questions. *)
Definition dated_keywords (r : reflection) : list str :=
  flat_map extract_keywords (discoveries r)
  ++ flat_map extract_keywords (open_questions r).

(** The characters a keyword is made of: the letters a to z in either
    case, the digits 0 to 9, the underscore and the hyphen. *)
Definition keyword_char (c : char) : bool :=
  PyStr.is_lower c || PyStr.is_upper c || PyStr.is_digit c
  || Char.eqb c "_" || Char.eqb c "-".

(** The first character is one of the letters a to z, in either case. *)
Definition starts_with_letter (s : str) : bool :=
  match s with
  | EmptyString => false
  | String c _ => PyStr.is_lower c || PyStr.is_upper c
  end.

(** The item texts of the list-item lines of a text, in document order. *)
Definition item_texts (content : str) : list str :=
  map (fun raw => item_text (PyStr.strip raw))
    (List.filter is_list_item_line (PyStr.split_lines content)).

(** Where a summary can come from: it is empty, or the lines hold a heading
    that reads "session summary" in any case and a line, neither heading
    nor list item, whose stripped text it is. *)
Definition summary_from (lines : list str) (s : str) : Prop :=
  s = EmptyString
  \/ ((exists h, In h lines /\ is_heading_line h = true
                 /\ PyStr.lower (heading_text h) = "session summary")
      /\ (exists raw, In raw lines /\ s = PyStr.strip raw /\ s <> EmptyString
                      /\ is_heading_line raw = false
                      /\ is_list_item_line raw = false)).

(** The open section was named by a heading among the lines. *)
Definition section_from (lines : list str) (section : option str) : Prop :=
  forall s, section = Some s ->
            exists h, In h lines /\ is_heading_line h = true
                      /\ s = PyStr.lower (heading_text h).

(** A separator without its last character. *)
Definition init (sep : str) : str :=
  PyStr.slice_to (Str.length sep - 1) sep.

(** [sep] is found in [s] no earlier than at its end: no occurrence starts
    inside [s] when [sep] follows it. *)
Definition free_of (sep s : str) : Prop :=
  PyStr.contains sep (s +:+ init sep) = false.

(** A decoded value is a string. *)
Definition is_jstring (j : json) : bool :=
  match j with JString _ => true | _ => false end.

(** The shape of settings that [gather_permissions] gets through: a dict
    whose "permissions", if present, is a dict whose "allow", if present, is
    a list of strings, a string or a dict. *)
Definition well_shaped (settings : json) : bool :=
  match settings with
  | JObject members =>
      match dict_get "permissions" members with
      | None => true
      | Some (JObject perms) =>
          match dict_get "allow" perms with
          | None => true
          | Some (JArray items) => forallb is_jstring items
          | Some (JString _) => true
          | Some (JObject _) => true
          | Some _ => false
          end
      | Some _ => false
      end
  | _ => false
  end.

(** An outcome is an exception. *)
Definition raises {A} (o : outcome A) : bool :=
  match o with Raises _ => true | Returns _ => false end.

(** The lines of a text once [rstrip] has removed the blank lines at its end
    and the white space at the end of the line before them. *)
Fixpoint rstrip_lines (lines : list str) : list str :=
  match lines with
  | [] => []
  | l :: lines' =>
      match rstrip_lines lines' with
      | [] => if PyStr.nonempty (PyStr.rstrip l) then [PyStr.rstrip l] else []
      | kept => l :: kept
      end
  end.

(** A line is not blank. *)
Definition nonblank (line : str) : bool := PyStr.nonempty (PyStr.strip line).




(** A field or a file name that can stand in the log: no pipe, no line feed. *)
Definition plain (s : str) : bool :=
  negb (PyStr.contains "|" s) && line_free s.



(** What holds of a commit read from a log: a hash of at most 8 characters,
    fields without a pipe, and file names that are not empty, have no white
    space at either end and hold no pipe. *)
Definition well_formed_commit (c : Session.commit) : Prop :=
  Str.length (Session.hash c) <= 8
  /\ PyStr.contains "|" (Session.hash c) = false
  /\ PyStr.contains "|" (Session.message c) = false
  /\ PyStr.contains "|" (Session.author c) = false
  /\ PyStr.contains "|" (Session.when c) = false
  /\ Forall (fun f => f <> EmptyString /\ PyStr.strip f = f
                      /\ PyStr.contains "|" f = false) (Session.files c).

(** Statistics that add up: the total is the sum of the counts, the
    extensions are distinct and not empty, the counts at least 1. *)
Definition stats_add_up (st : Session.stats) : Prop :=
  Session.total_files st = list_sum (map snd (Session.by_extension st))
  /\ NoDup (map fst (Session.by_extension st))
  /\ Forall (fun kv => fst kv <> EmptyString /\ 1 <= snd kv)
       (Session.by_extension st).

(** Two states of the parser that differ at most in what is buffered
    before any heading was met. *)
Definition same_but_preamble (st1 st2 : parse_state) : Prop :=
  refl st1 = refl st2
  /\ current_section st1 = current_section st2
  /\ (current_section st1 = None \/ current_items st1 = current_items st2).

(** The counts of a table, added up. *)
Definition sum_counts (d : list (str * nat)) : nat := list_sum (map snd d).

End Specification.

(* ===================================================================== *)
(** ** Facts about characters and text *)
(* ===================================================================== *)

Section TextFacts.

Lemma char_eqb_eq (a b : char) : Char.eqb a b = true <-> a = b.
Proof. apply N.eqb_eq. Qed.

Lemma char_eqb_refl (a : char) : Char.eqb a a = true.
Proof. apply N.eqb_refl. Qed.

Lemma char_eqb_sym (a b : char) : Char.eqb a b = Char.eqb b a.
Proof. apply N.eqb_sym. Qed.

Lemma char_eqb_spec (a b : char) : reflect (a = b) (Char.eqb a b).
Proof. apply N.eqb_spec. Qed.

Lemma char_eqb_neq (a b : char) : Char.eqb a b = false <-> a <> b.
Proof. apply N.eqb_neq. Qed.

Lemma str_eqb_eq (a b : str) : Str.eqb a b = true <-> a = b.
Proof.
  revert b. induction a as [|c a IH]; intros [|d b]; simpl;
    try (split; [discriminate|congruence]); [tauto|].
  rewrite andb_true_iff, char_eqb_eq, IH. split; [intros [-> ->]|intros [= -> ->]]; auto.
Qed.

Lemma str_eqb_refl (a : str) : Str.eqb a a = true.
Proof. now apply str_eqb_eq. Qed.

Lemma str_eqb_neq (a b : str) : Str.eqb a b = false <-> a <> b.
Proof.
  rewrite <- str_eqb_eq. destruct (Str.eqb a b); split; congruence.
Qed.

Lemma str_eqb_spec (a b : str) : reflect (a = b) (Str.eqb a b).
Proof. apply iff_reflect. symmetry. apply str_eqb_eq. Qed.

Lemma str_eqb_sym (a b : str) : Str.eqb a b = Str.eqb b a.
Proof.
  destruct (str_eqb_spec a b) as [->|Hne]; [now rewrite str_eqb_refl|].
  symmetry. apply str_eqb_neq. congruence.
Qed.

Lemma str_compare_eq_iff (a b : str) : Str.compare a b = Eq <-> a = b.
Proof.
  revert b. induction a as [|c a IH]; intros [|d b]; simpl;
    try (split; [discriminate|congruence]); [tauto|].
  destruct (N.compare_spec c d) as [->|Hlt|Hgt].
  - rewrite IH. split; [now intros ->|now intros [= ->]].
  - split; [discriminate|]. intros [= -> _]. lia.
  - split; [discriminate|]. intros [= -> _]. lia.
Qed.

Lemma str_compare_antisym (a b : str) :
  Str.compare b a = CompOpp (Str.compare a b).
Proof.
  revert b. induction a as [|c a IH]; intros [|d b]; simpl; try reflexivity.
  rewrite (N.compare_antisym c d).
  destruct (N.compare c d); simpl; [apply IH|reflexivity..].
Qed.

Lemma str_compare_lt_trans (a b c : str) :
  Str.compare a b = Lt -> Str.compare b c = Lt -> Str.compare a c = Lt.
Proof.
  revert b c. induction a as [|x a IH]; intros [|y b] [|z c]; simpl;
    try discriminate; try reflexivity.
  destruct (N.compare_spec x y) as [->|Hxy|Hxy]; try discriminate.
  - destruct (N.compare y z); [apply IH|reflexivity|discriminate].
  - intros _. destruct (N.compare_spec y z) as [->|Hyz|Hyz]; try discriminate.
    + intros _. destruct (N.compare_spec x z); [lia|reflexivity|lia].
    + intros _. destruct (N.compare_spec x z); [lia|reflexivity|lia].
Qed.

#[global] Instance str_le_trans : Transitive Str.le.
Proof.
  intros a b c. unfold Str.le, Str.leb. intros Hab Hbc.
  destruct (Str.compare a b) eqn:Eab; [| |discriminate].
  - apply str_compare_eq_iff in Eab as ->. exact Hbc.
  - destruct (Str.compare b c) eqn:Ebc; [| |discriminate].
    + apply str_compare_eq_iff in Ebc as ->. now rewrite Eab.
    + now rewrite (str_compare_lt_trans a b c Eab Ebc).
Qed.

#[global] Instance str_le_total : Total Str.le.
Proof.
  intros a b. unfold Str.le, Str.leb. rewrite (str_compare_antisym a b).
  destruct (Str.compare a b); simpl; auto.
Qed.

End TextFacts.

(* ===================================================================== *)
(** ** Facts about the string primitives *)
(* ===================================================================== *)

(** Case analysis on every test of an [if] chain. *)
Ltac case_ifs :=
  repeat match goal with
         | |- context [if ?b then _ else _] => destruct b
         end.

(** Split the conjunctions of a boolean condition that holds. *)
Ltac split_andb :=
  repeat match goal with
         | H : _ && _ = true |- _ => apply andb_true_iff in H as [? ?]
         end.

(** Turn the character tests that hold into equations and use them. *)
Ltac subst_chars :=
  repeat match goal with
         | H : Char.eqb _ _ = true |- _ => apply char_eqb_eq in H; subst
         end.

(** Rewrite with the digit tests that hold. *)
Ltac rewrite_digits :=
  repeat match goal with
         | H : PyStr.is_decimal _ = true |- _ => rewrite H; clear H
         end.

Section PyStrFacts.

Lemma nonempty_true (s : str) : PyStr.nonempty s = true <-> s <> EmptyString.
Proof. destruct s; simpl; split; congruence. Qed.

Lemma length_lstrip (s : str) : Str.length (PyStr.lstrip s) <= Str.length s.
Proof.
  induction s as [|c s IH]; simpl; [lia|].
  destruct (PyStr.is_space c); simpl; lia.
Qed.

Lemma length_rstrip (s : str) : Str.length (PyStr.rstrip s) <= Str.length s.
Proof.
  induction s as [|c s IH]; simpl; [lia|].
  destruct (PyStr.is_space c && negb (PyStr.nonempty (PyStr.rstrip s))); simpl; lia.
Qed.

(** A text that [strip] leaves alone has no white space at either end. *)
Lemma strip_fixed (t : str) :
  PyStr.strip t = t -> PyStr.lstrip t = t /\ PyStr.rstrip t = t.
Proof.
  unfold PyStr.strip. intros H.
  assert (Hl : PyStr.lstrip t = t).
  { destruct t as [|c t]; [reflexivity|]. simpl in *.
    destruct (PyStr.is_space c); [|reflexivity].
    exfalso.
    pose proof (length_rstrip (PyStr.lstrip t)) as H1.
    pose proof (length_lstrip t) as H2.
    rewrite H in H1. simpl in H1. lia. }
  split; [exact Hl|]. now rewrite Hl in H.
Qed.

Lemma startswith_cons (a b : char) (p s : str) :
  PyStr.startswith (String a p) (String b s) = Char.eqb a b && PyStr.startswith p s.
Proof. reflexivity. Qed.

Lemma app_cons (c : char) (a t : str) : String c a +:+ t = String c (a +:+ t).
Proof. reflexivity. Qed.

Lemma app_empty (t : str) : EmptyString +:+ t = t.
Proof. reflexivity. Qed.

Lemma app_nonempty (a t : str) : t <> EmptyString -> a +:+ t <> EmptyString.
Proof. destruct a; [now rewrite app_empty|rewrite app_cons; discriminate]. Qed.

(** [rstrip] keeps a prefix in front of a text it leaves alone. *)
Lemma rstrip_app (a t : str) :
  t <> EmptyString -> PyStr.rstrip t = t -> PyStr.rstrip (a +:+ t) = a +:+ t.
Proof.
  intros Hne Ht. induction a as [|c a IH]; [now rewrite app_empty|].
  rewrite app_cons. simpl. rewrite IH.
  apply (app_nonempty a) in Hne. apply nonempty_true in Hne.
  now rewrite Hne, andb_false_r.
Qed.

Lemma until_newline_line_free (s : str) :
  line_free s = true -> until_newline s = s.
Proof.
  induction s as [|c s IH]; simpl; [reflexivity|].
  destruct (Char.eqb c "010"); simpl; [discriminate|].
  intros H. now rewrite IH.
Qed.

End PyStrFacts.

(* ===================================================================== *)
(** ** The section parser *)
(* ===================================================================== *)

Section Classification.

Context {unicode : UnicodeData}.

Lemma section_category_spec (section : str) :
  section_category section = spec_classify section.
Proof.
  unfold section_category, spec_classify, spec_rules, first_match.
  set (n := PyStr.lower section).
  destruct (PyStr.contains "discover" n), (PyStr.contains "pattern" n),
    (PyStr.contains "watch" n), (PyStr.contains "improvement" n),
    (PyStr.contains "made" n), (PyStr.contains "issue" n),
    (PyStr.contains "created" n), (PyStr.contains "question" n),
    (PyStr.contains "anti" n); reflexivity.
Qed.

(** What [_save_section] does to each list, by the category it picks. *)
Lemma save_section_category_items
  (r : reflection) (section : str) (items : list str) (c : category) :
  category_items c (_save_section r section items)
  = category_items c r
    ++ (if bool_decide (section_category section = Some c) then items else []).
Proof.
  unfold _save_section. destruct (section_category section) as [c'|].
  - destruct c, c'; simpl; rewrite ?app_nil_r; reflexivity.
  - simpl. now rewrite app_nil_r.
Qed.

(** C1. [_save_section] classifies a heading by the six ordered rules of the
    specification, first match winning, on the lowercased heading: the items
    are appended to the list of the category the rules name and to no other
    list, and nothing else in the record changes.  In particular a heading
    whose lowercased name holds both "pattern" and "watch" and triggers none
    of rules 1 to 4 has its items appended to [patterns_to_watch] (rule 5),
    and [discoveries] stays as it was. *)
Theorem save_section_follows_rules
  (r : reflection) (section : str) (items : list str) :
  (forall c : category,
      category_items c (_save_section r section items)
      = category_items c r
        ++ (if bool_decide (spec_classify section = Some c) then items else []))
  /\ file (_save_section r section items) = file r
  /\ date (_save_section r section items) = date r
  /\ topic (_save_section r section items) = topic r
  /\ summary (_save_section r section items) = summary r
  /\ (PyStr.contains "pattern" (PyStr.lower section) = true ->
      PyStr.contains "watch" (PyStr.lower section) = true ->
      PyStr.contains "discover" (PyStr.lower section) = false ->
      PyStr.contains "improvement" (PyStr.lower section)
        && PyStr.contains "made" (PyStr.lower section) = false ->
      PyStr.contains "issue" (PyStr.lower section) = false ->
      PyStr.contains "created" (PyStr.lower section) = false ->
      PyStr.contains "question" (PyStr.lower section) = false ->
      patterns_to_watch (_save_section r section items)
      = patterns_to_watch r ++ items
      /\ discoveries (_save_section r section items) = discoveries r
      /\ improvements_made (_save_section r section items) = improvements_made r
      /\ issues_created (_save_section r section items) = issues_created r
      /\ open_questions (_save_section r section items) = open_questions r
      /\ anti_patterns (_save_section r section items) = anti_patterns r).
Proof.
  split; [|split; [|split; [|split; [|split]]]].
  - intros c. rewrite <- section_category_spec. apply save_section_category_items.
  - unfold _save_section. destruct (section_category section) as [[]|]; reflexivity.
  - unfold _save_section. destruct (section_category section) as [[]|]; reflexivity.
  - unfold _save_section. destruct (section_category section) as [[]|]; reflexivity.
  - unfold _save_section. destruct (section_category section) as [[]|]; reflexivity.
  - intros Hp Hw Hd Him Hi Hc Hq.
    unfold _save_section, section_category.
    rewrite Hp, Hw, Hd, Him, Hi, Hc, Hq. simpl. now repeat split.
Qed.

End Classification.

Section ClassificationExamples.

#[local] Existing Instance unicode_fragment.

Lemma save_section_follows_rules_witness :
  patterns_to_watch
    (_save_section (mkReflection "notes.md" "" "notes" "" ["seen"] [] [] [] ["old"] [])
       "Patterns to Watch" ["flaky tests"])
  = ["old"; "flaky tests"]
  /\ discoveries
       (_save_section (mkReflection "notes.md" "" "notes" "" ["seen"] [] [] [] ["old"] [])
          "Patterns to Watch" ["flaky tests"])
     = ["seen"].
Proof.
  destruct (proj2 (proj2 (proj2 (proj2 (proj2
              (save_section_follows_rules
                 (mkReflection "notes.md" "" "notes" "" ["seen"] [] [] [] ["old"] [])
                 "Patterns to Watch" ["flaky tests"]))))))
    as (H1 & H2 & _); try reflexivity.
  split; [exact H1|exact H2].
Defined.

End ClassificationExamples.

Section FileName.

Context {unicode : UnicodeData}.

Lemma header_extend (c : category) (items : list str) (r : reflection) :
  header (extend c items r) = header r.
Proof. now destruct c. Qed.

Lemma header_save_section (r : reflection) (section : str) (items : list str) :
  header (_save_section r section items) = header r.
Proof.
  unfold _save_section. destruct (section_category section); [apply header_extend|reflexivity].
Qed.

Lemma header_flush (st : parse_state) : header (flush st) = header (refl st).
Proof.
  unfold flush. destruct (current_section st); [|reflexivity].
  destruct (pending st); [apply header_save_section|reflexivity].
Qed.

Lemma header_parse_line (st : parse_state) (raw : str) :
  header (refl (parse_line st raw)) = header (refl st).
Proof.
  unfold parse_line.
  case_ifs; simpl; auto using header_flush.
Qed.

Lemma header_parse_lines (lines : list str) (st : parse_state) :
  header (refl (fold_left parse_line lines st)) = header (refl st).
Proof.
  revert st. induction lines as [|l lines IH]; intros st; simpl; [reflexivity|].
  now rewrite IH, header_parse_line.
Qed.

Lemma header_parse_content (filepath : path) (content : str) :
  header (parse_content filepath content) = header (initial_reflection filepath).
Proof. unfold parse_content. now rewrite header_flush, header_parse_lines. Qed.

(** The pattern matches a date, a hyphen and a tail whose first line is not
    empty, and captures the date and that first line. *)
Lemma match_date_topic_app (d tail : str) :
  is_iso_date d = true -> until_newline tail <> EmptyString ->
  match_date_topic (d +:+ "-" +:+ tail) = Some (d, until_newline tail).
Proof.
  intros Hd Hne. unfold is_iso_date in Hd.
  do 10 (destruct d as [|? d]; [discriminate|]).
  destruct d; [|discriminate].
  cbn [Str.to_list forallb] in Hd.
  split_andb. subst_chars.
  apply nonempty_true in Hne.
  rewrite !app_cons, !app_empty. unfold match_date_topic.
  rewrite_digits.
  rewrite Hne. reflexivity.
Qed.

(** Conversely, a match decomposes the name that way. *)
Lemma match_date_topic_inv (filename d s : str) :
  match_date_topic filename = Some (d, s) ->
  exists tail, filename = d +:+ "-" +:+ tail /\ is_iso_date d = true
               /\ s = until_newline tail /\ s <> EmptyString.
Proof.
  unfold match_date_topic.
  do 11 (destruct filename as [|? filename]; [discriminate|]).
  match goal with |- context [if ?b then _ else _] => destruct b eqn:E end;
    [|discriminate].
  intros [= <- <-].
  split_andb. subst_chars.
  exists filename. rewrite !app_cons, !app_empty.
  split; [reflexivity|]. split; [|split; [reflexivity|now apply nonempty_true]].
  unfold is_iso_date. cbn [Str.to_list forallb].
  rewrite_digits.
  reflexivity.
Qed.

(** C2. [date] and [topic] come from the file name (the stem).  A name made
    of a date [YYYY-MM-DD] (its digits any decimal digits, as the pattern
    reads them), a hyphen and a slug gives that date and the slug with every
    hyphen replaced by a space; the slug is what the pattern's last group
    captures, the rest of the name up to a line feed (all of it when the
    name has no line feed).  Any other name gives the empty date and the
    whole name as topic. *)
Theorem date_and_topic_from_filename (filepath : path) (content : str) :
  (forall d slug : str,
      is_iso_date d = true -> slug <> EmptyString -> line_free slug = true ->
      stem filepath = d +:+ "-" +:+ slug ->
      date (parse_content filepath content) = d
      /\ topic (parse_content filepath content) = PyStr.replace_char "-" " " slug)
  /\ (forall d tail : str,
      is_iso_date d = true -> until_newline tail <> EmptyString ->
      stem filepath = d +:+ "-" +:+ tail ->
      date (parse_content filepath content) = d
      /\ topic (parse_content filepath content)
         = PyStr.replace_char "-" " " (until_newline tail))
  /\ ((forall d tail : str,
        is_iso_date d = true -> until_newline tail <> EmptyString ->
        stem filepath <> d +:+ "-" +:+ tail) ->
      date (parse_content filepath content) = EmptyString
      /\ topic (parse_content filepath content) = stem filepath).
Proof.
  pose proof (header_parse_content filepath content) as Hh.
  unfold header, initial_reflection in Hh.
  assert (Hgen : forall d tail : str,
             is_iso_date d = true -> until_newline tail <> EmptyString ->
             stem filepath = d +:+ "-" +:+ tail ->
             date (parse_content filepath content) = d
             /\ topic (parse_content filepath content)
                = PyStr.replace_char "-" " " (until_newline tail)).
  { intros d tail Hd Hne Hstem.
    rewrite Hstem, (match_date_topic_app d tail Hd Hne) in Hh.
    simpl in Hh. now inversion Hh. }
  split; [|split].
  - intros d slug Hd Hne Hfree Hstem.
    pose proof (until_newline_line_free slug Hfree) as Hu.
    destruct (Hgen d slug Hd) as [H1 H2]; [now rewrite Hu|exact Hstem|].
    rewrite Hu in H2. now split.
  - exact Hgen.
  - intros Hno.
    destruct (match_date_topic (stem filepath)) as [[d s]|] eqn:E.
    + apply match_date_topic_inv in E as (tail & Hstem & Hd & -> & Hne).
      now destruct (Hno d tail Hd Hne).
    + simpl in Hh. now inversion Hh.
Qed.

End FileName.

Section FileNameExamples.

#[local] Existing Instance unicode_fragment.

Lemma date_and_topic_from_filename_witness :
  (date (parse_content (mkPath "history/reflections/2025-01-01-cache-layer.md"
                          "2025-01-01-cache-layer") "# Reflection")
     = "2025-01-01"
   /\ topic (parse_content (mkPath "history/reflections/2025-01-01-cache-layer.md"
                             "2025-01-01-cache-layer") "# Reflection")
      = "cache layer")
  /\ (date (parse_content
              (mkPath "notes.md"
                 ((Str.of_list [0x662; 0x660; 0x662; 0x665]%N +:+ "-"
                   +:+ Str.of_list [0x660; 0x661]%N +:+ "-"
                   +:+ Str.of_list [0x660; 0x661]%N) +:+ "-" +:+ "cache-layer"))
              "# Reflection")
      = Str.of_list [0x662; 0x660; 0x662; 0x665]%N +:+ "-"
        +:+ Str.of_list [0x660; 0x661]%N +:+ "-" +:+ Str.of_list [0x660; 0x661]%N
      /\ topic (parse_content
                  (mkPath "notes.md"
                     ((Str.of_list [0x662; 0x660; 0x662; 0x665]%N +:+ "-"
                       +:+ Str.of_list [0x660; 0x661]%N +:+ "-"
                       +:+ Str.of_list [0x660; 0x661]%N) +:+ "-" +:+ "cache-layer"))
                  "# Reflection")
         = "cache layer").
Proof.
  split.
  - apply (proj1 (date_and_topic_from_filename
                    (mkPath "history/reflections/2025-01-01-cache-layer.md"
                       "2025-01-01-cache-layer") "# Reflection")
             "2025-01-01" "cache-layer"); [reflexivity|discriminate|reflexivity..].
  - apply (proj1 (date_and_topic_from_filename (mkPath "notes.md" _) "# Reflection")
             (Str.of_list [0x662; 0x660; 0x662; 0x665]%N +:+ "-"
              +:+ Str.of_list [0x660; 0x661]%N +:+ "-"
              +:+ Str.of_list [0x660; 0x661]%N)
             "cache-layer"); [reflexivity|discriminate|reflexivity..].
Defined.

End FileNameExamples.

Section Lines.

Context {unicode : UnicodeData}.

(** A text with no white space at either end keeps a prefix through [strip]
    when the prefix starts with a character that is no white space. *)
Lemma strip_marker_app (c : char) (a t : str) :
  PyStr.is_space c = false -> t <> EmptyString -> PyStr.rstrip t = t ->
  PyStr.strip (String c a +:+ t) = String c a +:+ t.
Proof.
  intros Hc Hne Ht. unfold PyStr.strip.
  rewrite app_cons. cbn [PyStr.lstrip]. rewrite Hc.
  rewrite <- app_cons. now apply rstrip_app.
Qed.

(** What each marked line leaves in the buffer, for a text [t] that carries
    no checkbox token of its own. *)
Lemma parse_line_plain_item (st : parse_state) (t : str) :
  PyStr.strip t = t -> t <> EmptyString ->
  PyStr.startswith "[x] " t = false -> PyStr.startswith "[ ] " t = false ->
  parse_line st ("- " +:+ t) = with_item st t.
Proof.
  intros Hs Hne Hx Ho. destruct (strip_fixed t Hs) as [_ Hr].
  unfold parse_line, item_text.
  rewrite (strip_marker_app "-" " " t eq_refl Hne Hr).
  change (PyStr.startswith "## " ("- " +:+ t)) with false.
  change (PyStr.startswith "### " ("- " +:+ t)) with false.
  change (PyStr.startswith "- " ("- " +:+ t)) with true.
  change (PyStr.slice_from 2 ("- " +:+ t)) with t.
  cbv iota. rewrite Hs, Hx, Ho.
  apply nonempty_true in Hne. now rewrite Hne.
Qed.

Lemma parse_line_checked_item (st : parse_state) (t : str) :
  PyStr.strip t = t -> t <> EmptyString ->
  parse_line st ("- [x] " +:+ t) = with_item st t.
Proof.
  intros Hs Hne. destruct (strip_fixed t Hs) as [_ Hr].
  unfold parse_line, item_text.
  rewrite (strip_marker_app "-" " [x] " t eq_refl Hne Hr).
  change (PyStr.startswith "## " ("- [x] " +:+ t)) with false.
  change (PyStr.startswith "### " ("- [x] " +:+ t)) with false.
  change (PyStr.startswith "- " ("- [x] " +:+ t)) with true.
  change (PyStr.slice_from 2 ("- [x] " +:+ t)) with ("[x] " +:+ t).
  cbv iota. rewrite (strip_marker_app "[" "x] " t eq_refl Hne Hr).
  change (PyStr.startswith "[x] " ("[x] " +:+ t)) with true.
  change (PyStr.slice_from 4 ("[x] " +:+ t)) with t.
  cbv iota. apply nonempty_true in Hne. now rewrite Hne.
Qed.

Lemma parse_line_unchecked_item (st : parse_state) (t : str) :
  PyStr.strip t = t -> t <> EmptyString ->
  parse_line st ("- [ ] " +:+ t) = with_item st t.
Proof.
  intros Hs Hne. destruct (strip_fixed t Hs) as [_ Hr].
  unfold parse_line, item_text.
  rewrite (strip_marker_app "-" " [ ] " t eq_refl Hne Hr).
  change (PyStr.startswith "## " ("- [ ] " +:+ t)) with false.
  change (PyStr.startswith "### " ("- [ ] " +:+ t)) with false.
  change (PyStr.startswith "- " ("- [ ] " +:+ t)) with true.
  change (PyStr.slice_from 2 ("- [ ] " +:+ t)) with ("[ ] " +:+ t).
  cbv iota. rewrite (strip_marker_app "[" " ] " t eq_refl Hne Hr).
  change (PyStr.startswith "[x] " ("[ ] " +:+ t)) with false.
  change (PyStr.startswith "[ ] " ("[ ] " +:+ t)) with true.
  change (PyStr.slice_from 4 ("[ ] " +:+ t)) with t.
  cbv iota. apply nonempty_true in Hne. now rewrite Hne.
Qed.

(** C8. For an item text with no white space at either end (and no
    checkbox token of its own), the lines "- [x] text", "- [ ] text" and
    "- text" all put the same item, the text itself, into the buffer: the
    checkbox token is dropped before the item is kept.  At "Fix bug":
    "- [x] Fix bug" and "- Fix bug" both yield "Fix bug". *)
Theorem checkbox_token_is_stripped (st : parse_state) (t : str) :
  PyStr.strip t = t -> t <> EmptyString ->
  PyStr.startswith "[x] " t = false -> PyStr.startswith "[ ] " t = false ->
  parse_line st ("- [x] " +:+ t) = with_item st t
  /\ parse_line st ("- [ ] " +:+ t) = with_item st t
  /\ parse_line st ("- " +:+ t) = with_item st t.
Proof.
  intros Hs Hne Hx Ho. split; [|split].
  - now apply parse_line_checked_item.
  - now apply parse_line_unchecked_item.
  - now apply parse_line_plain_item.
Qed.

End Lines.

Section LinesExamples.

#[local] Existing Instance unicode_fragment.

Lemma checkbox_token_is_stripped_witness :
  parse_line (mkState (mkReflection "n.md" "" "n" "" [] [] [] [] [] [])
                (Some "discoveries") []) "- [x] Fix bug"
    = mkState (mkReflection "n.md" "" "n" "" [] [] [] [] [] [])
        (Some "discoveries") ["Fix bug"]
  /\ parse_line (mkState (mkReflection "n.md" "" "n" "" [] [] [] [] [] [])
                   (Some "discoveries") []) "- [ ] Fix bug"
    = mkState (mkReflection "n.md" "" "n" "" [] [] [] [] [] [])
        (Some "discoveries") ["Fix bug"]
  /\ parse_line (mkState (mkReflection "n.md" "" "n" "" [] [] [] [] [] [])
                   (Some "discoveries") []) "- Fix bug"
    = mkState (mkReflection "n.md" "" "n" "" [] [] [] [] [] [])
        (Some "discoveries") ["Fix bug"].
Proof.
  apply (checkbox_token_is_stripped
           (mkState (mkReflection "n.md" "" "n" "" [] [] [] [] [] [])
              (Some "discoveries") []) "Fix bug");
    [reflexivity|discriminate|reflexivity|reflexivity].
Defined.

End LinesExamples.

Section EmptyItems.

Context {unicode : UnicodeData}.

Lemma app_empty_r (a : str) : a +:+ EmptyString = a.
Proof. induction a as [|c a IH]; [reflexivity|]. now rewrite app_cons, IH. Qed.

Lemma rstrip_idem (s : str) : PyStr.rstrip (PyStr.rstrip s) = PyStr.rstrip s.
Proof.
  induction s as [|c s IH]; [reflexivity|]. cbn [PyStr.rstrip].
  destruct (PyStr.is_space c && negb (PyStr.nonempty (PyStr.rstrip s))) eqn:E;
    [reflexivity|].
  cbn [PyStr.rstrip]. now rewrite IH, E.
Qed.

Lemma rstrip_fixed_tail (c : char) (s : str) :
  PyStr.rstrip (String c s) = String c s -> PyStr.rstrip s = s.
Proof.
  cbn [PyStr.rstrip].
  destruct (PyStr.is_space c && negb (PyStr.nonempty (PyStr.rstrip s)));
    [discriminate|]. now intros [= ->].
Qed.

Lemma rstrip_fixed_lstrip (s : str) :
  PyStr.rstrip s = s -> PyStr.rstrip (PyStr.lstrip s) = PyStr.lstrip s.
Proof.
  induction s as [|c s IH]; [reflexivity|]. intros H.
  cbn [PyStr.lstrip]. destruct (PyStr.is_space c); [|exact H].
  apply IH. now apply rstrip_fixed_tail in H.
Qed.

Lemma lstrip_nonempty (s : str) :
  PyStr.rstrip s = s -> s <> EmptyString -> PyStr.lstrip s <> EmptyString.
Proof.
  induction s as [|c s IH]; [congruence|]. intros H _.
  cbn [PyStr.lstrip]. destruct (PyStr.is_space c) eqn:Ec; [|discriminate].
  pose proof (rstrip_fixed_tail c s H) as Hs.
  apply IH; [exact Hs|].
  cbn [PyStr.rstrip] in H. rewrite Ec, Hs in H.
  destruct s; [discriminate|discriminate].
Qed.

Lemma startswith_app (p s : str) :
  PyStr.startswith p s = true -> s = p +:+ PyStr.slice_from (Str.length p) s.
Proof.
  revert s. induction p as [|a p IH]; intros s H; [reflexivity|].
  destruct s as [|b s]; [discriminate|].
  rewrite startswith_cons in H. apply andb_true_iff in H as [Hab H].
  apply char_eqb_eq in Hab as ->.
  rewrite app_cons. cbn [Str.length PyStr.slice_from]. now rewrite <- IH.
Qed.

(** After a prefix that [rstrip] would shorten, a text [rstrip] leaves alone
    goes on. *)
Lemma rstrip_fixed_goes_on (a u : str) :
  PyStr.rstrip a <> a -> PyStr.rstrip (a +:+ u) = a +:+ u -> u <> EmptyString.
Proof. intros Ha H ->. now rewrite app_empty_r in H. Qed.

(** The guard [if item:] never discards: the text kept for a list-item line
    is never empty. *)
Lemma item_text_nonempty (raw : str) :
  is_list_item_line raw = true -> item_text (PyStr.strip raw) <> EmptyString.
Proof.
  unfold is_list_item_line. set (line := PyStr.strip raw).
  assert (Hline : PyStr.rstrip line = line) by apply rstrip_idem.
  intros Hstart. pose proof (startswith_app _ _ Hstart) as Hdec.
  cbn [Str.length] in Hdec.
  unfold item_text. set (u := PyStr.slice_from 2 line) in *.
  rewrite Hdec in Hline.
  assert (Hu : u <> EmptyString).
  { apply (rstrip_fixed_goes_on "- "); [discriminate|exact Hline]. }
  assert (Hru : PyStr.rstrip u = u).
  { rewrite !app_cons, app_empty in Hline.
    now do 2 apply rstrip_fixed_tail in Hline. }
  assert (Hstrip : PyStr.strip u = PyStr.lstrip u)
    by (unfold PyStr.strip; now apply rstrip_fixed_lstrip).
  assert (Hitem : PyStr.strip u <> EmptyString)
    by (rewrite Hstrip; now apply lstrip_nonempty).
  assert (Hritem : PyStr.rstrip (PyStr.strip u) = PyStr.strip u) by apply rstrip_idem.
  destruct (PyStr.startswith "[x] " (PyStr.strip u)) eqn:Ex.
  { apply startswith_app in Ex. cbn [Str.length] in Ex. rewrite Ex in Hritem.
    apply (rstrip_fixed_goes_on "[x] "); [discriminate|exact Hritem]. }
  destruct (PyStr.startswith "[ ] " (PyStr.strip u)) eqn:Eo; [|exact Hitem].
  apply startswith_app in Eo. cbn [Str.length] in Eo. rewrite Eo in Hritem.
  apply (rstrip_fixed_goes_on "[ ] "); [discriminate|exact Hritem].
Qed.

(** So every list-item line puts an item into the buffer. *)
Lemma list_item_line_appends (st : parse_state) (raw : str) :
  is_list_item_line raw = true ->
  parse_line st raw = with_item st (item_text (PyStr.strip raw)).
Proof.
  intros H. pose proof (item_text_nonempty raw H) as Hne.
  apply nonempty_true in Hne. unfold is_list_item_line in H.
  unfold parse_line. rewrite H, Hne.
  destruct (PyStr.strip raw) as [|b line]; [discriminate|].
  rewrite startswith_cons in H. apply andb_true_iff in H as [Hb _].
  apply char_eqb_eq in Hb as <-. reflexivity.
Qed.

(** C9. A list-item line that carries a checkbox token and nothing else is
    not discarded: the line is stripped before the token is looked for, so
    "- [x] " is read as "- [x]" and the item "[x]" is kept and reaches the
    category list.  (The line "- " strips to "-", which is no list-item line
    and leaves the buffer alone.) *)
Theorem bare_checkbox_line_is_kept (st : parse_state) (filepath : path) :
  parse_line st "- [x] " = with_item st "[x]"
  /\ parse_line st "- [ ] " = with_item st "[ ]"
  /\ discoveries (parse_content filepath
                   ("## Discoveries" +:+ String "010" "- [x] ")) = ["[x]"]
  /\ current_items (parse_line st "- ") = current_items st.
Proof.
  split; [reflexivity|]. split; [reflexivity|]. split.
  - unfold parse_content, initial_reflection.
    destruct (match_date_topic (stem filepath)) as [[? ?]|]; reflexivity.
  - unfold parse_line. change (PyStr.strip "- ") with "-".
    cbn [PyStr.startswith Char.eqb Bool.eqb andb].
    now destruct (PyStr.nonempty "-" && bool_decide (current_section st = Some "session summary")).
Qed.

End EmptyItems.

Section ItemCount.

Context {unicode : UnicodeData}.

Lemma total_items_extend (c : category) (items : list str) (r : reflection) :
  total_items (extend c items r) = total_items r + length items.
Proof. destruct c; unfold total_items; simpl; rewrite length_app; lia. Qed.

Lemma total_items_save_section (r : reflection) (section : str) (items : list str) :
  total_items (_save_section r section items) <= total_items r + length items.
Proof.
  unfold _save_section. destruct (section_category section).
  - rewrite total_items_extend. lia.
  - lia.
Qed.

Lemma total_items_flush (st : parse_state) : total_items (flush st) <= load st.
Proof.
  unfold flush, load. destruct (current_section st); [|lia].
  destruct (pending st); [apply total_items_save_section|lia].
Qed.

(** A line adds at most one item, and only a list-item line adds one. *)
Lemma load_parse_line (st : parse_state) (raw : str) :
  load (parse_line st raw) <= load st + (if is_list_item_line raw then 1 else 0).
Proof.
  unfold parse_line, is_list_item_line.
  pose proof (total_items_flush st) as Hf.
  case_ifs; unfold load, total_items in *; simpl; rewrite ?length_app; simpl; lia.
Qed.

Lemma load_parse_lines (lines : list str) (st : parse_state) :
  load (fold_left parse_line lines st)
  <= load st + length (List.filter is_list_item_line lines).
Proof.
  revert st. induction lines as [|l lines IH]; intros st; simpl; [lia|].
  specialize (IH (parse_line st l)). pose proof (load_parse_line st l).
  destruct (is_list_item_line l); simpl; lia.
Qed.

(** The [if]/[elif] chain touches at most one category. *)
Lemma save_section_one_category
  (r : reflection) (section : str) (items : list str) (c1 c2 : category) :
  c1 <> c2 ->
  category_items c1 (_save_section r section items) = category_items c1 r
  \/ category_items c2 (_save_section r section items) = category_items c2 r.
Proof.
  intros Hne. unfold _save_section.
  destruct (section_category section) as [c|]; [|now left].
  destruct c, c1, c2; simpl; auto; congruence.
Qed.

(** The empty name matches no rule. *)
Lemma section_category_empty : section_category EmptyString = None.
Proof. reflexivity. Qed.

(** What the pending section adds when it is stored. *)
Lemma category_items_flush_exact (c : category) (st : parse_state) :
  category_items c (flush st)
  = category_items c (refl st)
    ++ (if stored_under c (current_section st, current_items st)
        then current_items st else []).
Proof.
  unfold flush, stored_under, pending. cbn [fst].
  destruct (current_section st) as [s|]; [|now rewrite app_nil_r].
  rewrite <- section_category_spec.
  destruct (current_items st) as [|item items] eqn:Ei.
  { destruct (bool_decide _); now rewrite app_nil_r. }
  destruct s as [|a s]; cbn [PyStr.nonempty].
  - rewrite section_category_empty. simpl. now rewrite app_nil_r.
  - apply save_section_category_items.
Qed.

(** The lists of a record hold the items of the sections closed so far;
    the section that is open is stored at the next heading or at the end. *)
Lemma parse_lines_sections (c : category) (lines : list str) (st : parse_state) :
  category_items c (flush (fold_left parse_line lines st))
  = category_items c (refl st)
    ++ flat_map snd
         (List.filter (stored_under c)
            (sections_from (current_section st) (current_items st) lines)).
Proof.
  revert st. induction lines as [|raw lines IH]; intros st.
  - cbn [fold_left sections_from List.filter]. rewrite category_items_flush_exact.
    destruct (stored_under c _); simpl; now rewrite ?app_nil_r.
  - cbn [fold_left sections_from]. rewrite IH. clear IH.
    destruct (is_heading_line raw) eqn:Eh.
    + unfold parse_line. unfold is_heading_line in Eh. rewrite Eh.
      cbn [refl current_section current_items List.filter].
      rewrite category_items_flush_exact. unfold section_name, heading_text.
      destruct (stored_under c (current_section st, current_items st));
        cbn [flat_map snd]; now rewrite <- ?app_assoc.
    + destruct (is_list_item_line raw) eqn:El.
      * now rewrite (list_item_line_appends st raw El).
      * unfold parse_line. unfold is_heading_line in Eh.
        unfold is_list_item_line in El. rewrite Eh, El.
        case_ifs; reflexivity.
Qed.

(** C3. The six category lists of a parsed record hold, together, at most
    as many items as the text has list-item lines.  Each list holds exactly
    the items of the sections whose name the rules classify to its category,
    in document order: the items of a section go to one list at most, and
    the items of a section whose name matches no rule (and those before the
    first heading) go to none.  So when no heading of the text names a
    category, as in a text whose only heading is "## Random Notes", every
    list of the record is empty. *)
Theorem classified_items_bounded (filepath : path) (content : str) :
  total_items (parse_content filepath content) <= list_item_lines content
  /\ (forall c : category,
        category_items c (parse_content filepath content)
        = flat_map snd (List.filter (stored_under c) (sections content)))
  /\ (forall (section : option str * list str) (c1 c2 : category),
        stored_under c1 section = true -> stored_under c2 section = true ->
        c1 = c2)
  /\ (forall (r : reflection) (section : str) (items : list str)
             (c1 c2 : category),
        c1 <> c2 ->
        category_items c1 (_save_section r section items) = category_items c1 r
        \/ category_items c2 (_save_section r section items) = category_items c2 r)
  /\ (forall (r : reflection) (section : str) (items : list str),
        spec_classify section = None -> _save_section r section items = r)
  /\ (Forall (fun raw => is_heading_line raw = true
                         -> spec_classify (section_name raw) = None)
        (PyStr.split_lines content) ->
      forall c, category_items c (parse_content filepath content) = []).
Proof.
  assert (Hexact : forall c : category,
             category_items c (parse_content filepath content)
             = flat_map snd (List.filter (stored_under c) (sections content))).
  { intros c. unfold parse_content, sections. rewrite parse_lines_sections.
    cbn [refl current_section current_items]. unfold initial_reflection.
    destruct (match_date_topic (stem filepath)) as [[? ?]|]; now destruct c. }
  split; [|split; [exact Hexact|split; [|split; [|split]]]].
  - unfold parse_content, list_item_lines.
    etransitivity; [apply total_items_flush|].
    etransitivity; [apply load_parse_lines|].
    unfold load, total_items, initial_reflection. simpl.
    destruct (match_date_topic (stem filepath)) as [[? ?]|]; simpl; lia.
  - intros [[name|] items] c1 c2; unfold stored_under; cbn [fst]; [|discriminate].
    intros H1%bool_decide_eq_true H2%bool_decide_eq_true. congruence.
  - intros. now apply save_section_one_category.
  - intros r section items H. unfold _save_section.
    now rewrite section_category_spec, H.
  - intros Hall c. rewrite Hexact. unfold sections.
    assert (Hnone : forall name items lines,
               match name with Some n => spec_classify n = None | None => True end ->
               Forall (fun raw => is_heading_line raw = true
                                  -> spec_classify (section_name raw) = None) lines ->
               List.filter (stored_under c) (sections_from name items lines) = []).
    { intros name items lines. revert name items.
      induction lines as [|raw lines IH]; intros name items Hname Hlines.
      - cbn [sections_from List.filter]. unfold stored_under. cbn [fst].
        destruct name as [n|]; [|reflexivity]. now rewrite Hname.
      - apply Forall_cons in Hlines as [Hraw Hlines]. cbn [sections_from].
        destruct (is_heading_line raw).
        + cbn [List.filter]. rewrite IH by (auto; now apply Hraw).
          unfold stored_under. cbn [fst].
          destruct name as [n|]; [|reflexivity]. now rewrite Hname.
        + destruct (is_list_item_line raw); now apply IH. }
    now rewrite Hnone.
Qed.

End ItemCount.

Section ItemCountExamples.

#[local] Existing Instance unicode_fragment.

Lemma classified_items_bounded_witness :
  map (fun c =>
         category_items c
           (parse_content (mkPath "notes.md" "notes")
              ("## Random Notes" +:+ String "010" "- alpha" +:+ String "010" "- beta")))
    [Discoveries; ImprovementsMade; IssuesCreated;
     OpenQuestions; PatternsToWatch; AntiPatterns]
  = [[]; []; []; []; []; []]
  /\ category_items Discoveries
       (parse_content (mkPath "notes.md" "notes")
          ("## Notes" +:+ String "010"
           ("- dropped" +:+ String "010"
            (String 0x2003%N
               ("## Discoveries" +:+ String "010"
                (String 0xA0%N
                   ("- after a no-break space" +:+ String "010"
                    ("- before an em space"
                     +:+ String 0x2003%N (String "010" "- plain")))))))))
     = ["after a no-break space"; "before an em space"; "plain"].
Proof.
  split.
  - cbn [map].
    rewrite !(proj2 (proj2 (proj2 (proj2 (proj2
                  (classified_items_bounded (mkPath "notes.md" "notes")
                     ("## Random Notes" +:+ String "010" "- alpha"
                      +:+ String "010" "- beta"))))))); [reflexivity|..];
      repeat constructor; vm_compute; congruence.
  - rewrite (proj1 (proj2 (classified_items_bounded (mkPath "notes.md" "notes") _))).
    reflexivity.
Defined.

End ItemCountExamples.

Section Batch.

Context {unicode : UnicodeData}.

Lemma parse_all_from (read_text : path -> option str) (files : list path)
  (acc : list reflection) :
  fold_left
    (fun reflections filepath =>
       match parse_reflection_file read_text filepath with
       | Some parsed => reflections ++ [parsed]
       | None => reflections
       end)
    files acc
  = acc ++ omap (parse_reflection_file read_text) files.
Proof.
  revert acc. induction files as [|f files IH]; intros acc; simpl.
  - now rewrite app_nil_r.
  - rewrite IH. destruct (parse_reflection_file read_text f); simpl;
      [now rewrite <- app_assoc|reflexivity].
Qed.

(** The batch is the readable files' records, each parsed on its own. *)
Lemma parse_all_omap (read_text : path -> option str) (files : list path) :
  parse_all read_text files = omap (parse_reflection_file read_text) files.
Proof. unfold parse_all. now rewrite parse_all_from. Qed.

(** Each line takes exactly one of the loop's branches. *)
Lemma parse_line_branches (st : parse_state) (raw : str) :
  parse_line st raw
    = mkState (flush st) (Some (PyStr.lower (heading_text raw))) []
  \/ parse_line st raw = with_item st (item_text (PyStr.strip raw))
  \/ parse_line st raw
     = mkState (set_summary (PyStr.strip raw) (refl st))
         (current_section st) (current_items st)
  \/ parse_line st raw = st.
Proof.
  unfold parse_line, heading_text, with_item.
  case_ifs; auto.
Qed.

(** C7. A file that cannot be read makes [parse_reflection_file] return
    [None], and the batch leaves it out: the records are those of the other
    files, each computed from its own file alone.  A file that can be read
    always yields a record: every line takes the heading branch, the
    list-item branch or the summary branch, or leaves the state as it is. *)
Theorem unreadable_documents_are_skipped (read_text : path -> option str) :
  (forall filepath, read_text filepath = None ->
     parse_reflection_file read_text filepath = None)
  /\ (forall before filepath after, read_text filepath = None ->
       parse_all read_text (before ++ filepath :: after)
       = parse_all read_text (before ++ after))
  /\ (forall files,
       parse_all read_text files
       = omap (fun filepath => parse_content filepath <$> read_text filepath) files)
  /\ (forall filepath content, read_text filepath = Some content ->
       parse_reflection_file read_text filepath
       = Some (parse_content filepath content))
  /\ (forall st raw,
       parse_line st raw
         = mkState (flush st) (Some (PyStr.lower (heading_text raw))) []
       \/ parse_line st raw = with_item st (item_text (PyStr.strip raw))
       \/ parse_line st raw
          = mkState (set_summary (PyStr.strip raw) (refl st))
              (current_section st) (current_items st)
       \/ parse_line st raw = st).
Proof.
  split; [|split; [|split; [|split]]].
  - intros filepath H. unfold parse_reflection_file. now rewrite H.
  - intros before filepath after H. rewrite !parse_all_omap, !omap_app. simpl.
    unfold parse_reflection_file at 2. now rewrite H.
  - intros files. rewrite parse_all_omap.
    induction files as [|f files IH]; [reflexivity|].
    unfold omap in *. simpl. rewrite IH.
    unfold parse_reflection_file. now destruct (read_text f).
  - intros filepath content H. unfold parse_reflection_file. now rewrite H.
  - exact parse_line_branches.
Qed.

End Batch.

Section BatchExamples.

#[local] Existing Instance unicode_fragment.

Lemma unreadable_documents_are_skipped_witness :
  parse_all
    (fun filepath =>
       if Str.eqb (path_str filepath) "locked.md" then None
       else Some ("## Discoveries" +:+ String "010" "- Caching helps"))
    ([mkPath "2025-01-02-a.md" "2025-01-02-a"]
       ++ mkPath "locked.md" "locked" :: [mkPath "2025-01-01-b.md" "2025-01-01-b"])
  = parse_all
      (fun filepath =>
         if Str.eqb (path_str filepath) "locked.md" then None
         else Some ("## Discoveries" +:+ String "010" "- Caching helps"))
      ([mkPath "2025-01-02-a.md" "2025-01-02-a"]
         ++ [mkPath "2025-01-01-b.md" "2025-01-01-b"]).
Proof.
  apply (proj1 (proj2 (unreadable_documents_are_skipped
                         (fun filepath =>
                            if Str.eqb (path_str filepath) "locked.md" then None
                            else Some ("## Discoveries" +:+ String "010" "- Caching helps"))))).
  reflexivity.
Defined.

End BatchExamples.

(* ===================================================================== *)
(** ** Counters and their tables *)
(* ===================================================================== *)

Section Counters.

Lemma counter_incr_keys_known (kw : str) (c : counter) :
  kw ∈ map fst c -> map fst (counter_incr kw c) = map fst c.
Proof.
  induction c as [|[k n] c IH]; simpl; intros H.
  - now apply elem_of_nil in H.
  - destruct (str_eqb_spec k kw) as [->|Hne]; [reflexivity|].
    simpl. f_equal. apply IH.
    apply elem_of_cons in H as [H|H]; [congruence|exact H].
Qed.

Lemma counter_incr_keys_new (kw : str) (c : counter) :
  kw ∉ map fst c -> map fst (counter_incr kw c) = map fst c ++ [kw].
Proof.
  induction c as [|[k n] c IH]; simpl; intros H; [reflexivity|].
  apply not_elem_of_cons in H as [Hne H].
  destruct (str_eqb_spec k kw) as [->|_]; [congruence|].
  simpl. f_equal. now apply IH.
Qed.

Lemma counter_get_incr (k kw : str) (c : counter) :
  counter_get k (counter_incr kw c)
  = counter_get k c + (if Str.eqb k kw then 1 else 0).
Proof.
  induction c as [|[k' n] c IH]; simpl.
  - rewrite (str_eqb_sym kw k). now destruct (Str.eqb k kw).
  - destruct (str_eqb_spec k' kw) as [->|Hne]; simpl.
    + rewrite (str_eqb_sym kw k). destruct (Str.eqb k kw); lia.
    + destruct (str_eqb_spec k' k) as [->|_]; [|exact IH].
      destruct (str_eqb_spec k kw); [congruence|lia].
Qed.

Lemma counter_get_elem (k : str) (n : nat) (c : counter) :
  NoDup (map fst c) -> (k, n) ∈ c -> counter_get k c = n.
Proof.
  induction c as [|[k' n'] c IH]; simpl; intros Hnd H.
  - now apply elem_of_nil in H.
  - apply NoDup_cons in Hnd as [Hk' Hnd].
    apply elem_of_cons in H as [[= <- <-]|H].
    + now rewrite str_eqb_refl.
    + destruct (str_eqb_spec k' k) as [->|_]; [|now apply IH].
      exfalso. apply Hk'. change k with (fst (k, n)). now apply list_elem_of_fmap_2.
Qed.

Lemma count_all_snoc (stream : list str) (kw : str) (c : counter) :
  count_all (stream ++ [kw]) c = counter_incr kw (count_all stream c).
Proof. unfold count_all. now rewrite fold_left_app. Qed.

Lemma occurrences_snoc (k kw : str) (stream : list str) :
  occurrences k (stream ++ [kw])
  = occurrences k stream + (if Str.eqb k kw then 1 else 0).
Proof.
  unfold occurrences. rewrite List.filter_app, length_app. simpl.
  now destruct (Str.eqb k kw).
Qed.

Lemma counter_get_count_all (k : str) (stream : list str) :
  counter_get k (count_all stream []) = occurrences k stream.
Proof.
  induction stream as [|kw stream IH] using rev_ind; [reflexivity|].
  now rewrite count_all_snoc, counter_get_incr, occurrences_snoc, IH.
Qed.

Lemma first_index_app (k : str) (stream more : list str) :
  k ∈ stream -> first_index k (stream ++ more) = first_index k stream.
Proof.
  induction stream as [|k' stream IH]; simpl; intros H.
  - now apply elem_of_nil in H.
  - destruct (str_eqb_spec k' k) as [->|Hne]; [reflexivity|].
    f_equal. apply IH. apply elem_of_cons in H as [H|H]; [congruence|exact H].
Qed.

Lemma first_index_lt (k : str) (stream : list str) :
  k ∈ stream -> first_index k stream < length stream.
Proof.
  induction stream as [|k' stream IH]; simpl; intros H.
  - now apply elem_of_nil in H.
  - destruct (str_eqb_spec k' k) as [->|Hne]; [lia|].
    apply elem_of_cons in H as [H|H]; [congruence|]. specialize (IH H). lia.
Qed.

Lemma first_index_new (k : str) (stream : list str) :
  k ∉ stream -> first_index k (stream ++ [k]) = length stream.
Proof.
  induction stream as [|k' stream IH]; simpl; intros H.
  - now rewrite str_eqb_refl.
  - apply not_elem_of_cons in H as [Hne H].
    destruct (str_eqb_spec k' k) as [->|_]; [congruence|].
    f_equal. now apply IH.
Qed.

(** The keys of a counter are the keywords of its stream, each once, in the
    order in which they were first met. *)
Lemma count_all_keys (stream : list str) :
  NoDup (map fst (count_all stream []))
  /\ (forall k, k ∈ map fst (count_all stream []) <-> k ∈ stream)
  /\ StronglySorted lt
       (map (fun k => first_index k stream) (map fst (count_all stream []))).
Proof.
  induction stream as [|kw stream (Hnd & Hin & Hsorted)] using rev_ind.
  { simpl. repeat split; try constructor; intros H; now apply elem_of_nil in H. }
  rewrite count_all_snoc.
  assert (Hsame : map (fun k => first_index k (stream ++ [kw]))
                    (map fst (count_all stream []))
                  = map (fun k => first_index k stream)
                      (map fst (count_all stream []))).
  { apply map_ext_in. intros k Hk. apply first_index_app.
    now apply Hin, list_elem_of_In. }
  destruct (decide (kw ∈ map fst (count_all stream []))) as [Hk|Hk].
  - rewrite (counter_incr_keys_known _ _ Hk). split; [exact Hnd|]. split.
    + intros k. rewrite Hin, elem_of_app, list_elem_of_singleton.
      split; [auto|]. intros [H| ->]; [exact H|now apply Hin].
    + now rewrite Hsame.
  - rewrite (counter_incr_keys_new _ _ Hk). split; [|split].
    + apply NoDup_app. split; [exact Hnd|]. split; [|apply NoDup_singleton].
      intros k Hk' ->%list_elem_of_singleton. contradiction.
    + intros k. rewrite !elem_of_app, Hin. reflexivity.
    + rewrite map_app, Hsame. simpl.
      rewrite first_index_new by (now rewrite <- Hin).
      apply StronglySorted_app_2; [|exact Hsorted|repeat constructor].
      intros x1 x2 Hx1 ->%list_elem_of_singleton.
      apply list_elem_of_fmap in Hx1 as (k & -> & Hk1).
      apply first_index_lt. now apply Hin.
Qed.

End Counters.

Section Tables.

Variable stream : list str.

Lemma insert_by_count_perm (x : str * nat) (l : list (str * nat)) :
  insert_by_count x l ≡ₚ x :: l.
Proof.
  induction l as [|y l IH]; simpl; [reflexivity|].
  destruct (snd x <? snd y); [|reflexivity].
  rewrite IH. apply perm_swap.
Qed.

Lemma sorted_by_count_perm (c : counter) : sorted_by_count c ≡ₚ c.
Proof.
  induction c as [|x c IH]; simpl; [reflexivity|].
  now rewrite insert_by_count_perm, IH.
Qed.

(** Inserting an item met before all the others keeps the table order. *)
Lemma insert_by_count_sorted (x : str * nat) (l : list (str * nat)) :
  Forall (fun y => first_index (fst x) stream < first_index (fst y) stream) l ->
  StronglySorted (table_order stream) l ->
  StronglySorted (table_order stream) (insert_by_count x l).
Proof.
  induction l as [|y l IH]; simpl; intros Hx Hl; [repeat constructor|].
  apply Forall_cons in Hx as [Hxy Hx].
  apply StronglySorted_inv in Hl as [Hl Hy].
  destruct (Nat.ltb_spec (snd x) (snd y)) as [Hlt|Hge].
  - constructor; [now apply IH|].
    rewrite (insert_by_count_perm x l). constructor; [now left|exact Hy].
  - constructor; [now constructor|].
    assert (Hxy' : table_order stream x y).
    { unfold table_order. destruct (decide (snd x = snd y)); [right|left]; [auto|lia]. }
    constructor; [exact Hxy'|].
    rewrite Forall_forall in Hx, Hy. apply Forall_forall. intros z Hz.
    specialize (Hx z Hz). specialize (Hy z Hz). unfold table_order in *.
    destruct Hy as [Hy|[Hy _]]; [left; lia|].
    destruct (decide (snd x = snd z)); [right|left]; [auto|lia].
Qed.

(** The stable sort of items listed in first-met order is in table order. *)
Lemma sorted_by_count_sorted (c : counter) :
  StronglySorted lt (map (fun k => first_index k stream) (map fst c)) ->
  StronglySorted (table_order stream) (sorted_by_count c).
Proof.
  induction c as [|x c IH]; simpl; intros H; [constructor|].
  apply StronglySorted_inv in H as [Hc Hx].
  apply insert_by_count_sorted; [|now apply IH].
  rewrite (sorted_by_count_perm c).
  rewrite !Forall_fmap in Hx. exact Hx.
Qed.

Lemma StronglySorted_take {A} (R : A -> A -> Prop) (n : nat) (l : list A) :
  StronglySorted R l -> StronglySorted R (take n l).
Proof.
  revert n. induction l as [|x l IH]; intros [|n] H; simpl; try constructor.
  - apply IH. now apply StronglySorted_inv in H.
  - apply Forall_take. now apply StronglySorted_inv in H.
Qed.

Lemma most_common_keys_NoDup (n : nat) (c : counter) :
  NoDup (map fst c) -> NoDup (map fst (most_common n c)).
Proof.
  intros H. unfold most_common.
  change (map fst (take n (sorted_by_count c)))
    with (fst <$> take n (sorted_by_count c)).
  rewrite fmap_take. eapply sublist_NoDup; [|apply sublist_take].
  change (NoDup (map fst (sorted_by_count c))).
  now rewrite (sorted_by_count_perm c).
Qed.

Lemma dict_set_new {V} (k : str) (v : V) (d : list (str * V)) :
  k ∉ map fst d -> dict_set k v d = d ++ [(k, v)].
Proof.
  induction d as [|[k' v'] d IH]; simpl; intros H; [reflexivity|].
  apply not_elem_of_cons in H as [Hne H].
  destruct (str_eqb_spec k' k) as [->|_]; [congruence|].
  f_equal. now apply IH.
Qed.

Lemma dict_of_from {V} (pairs d : list (str * V)) :
  NoDup (map fst (d ++ pairs)) ->
  fold_left (fun d kv => dict_set (fst kv) (snd kv) d) pairs d = d ++ pairs.
Proof.
  revert d. induction pairs as [|[k v] pairs IH]; intros d H; simpl.
  - now rewrite app_nil_r.
  - assert (Hk : k ∉ map fst d).
    { rewrite map_app in H. apply NoDup_app in H as (_ & H & _).
      intros Hk. apply (H k Hk). simpl. apply elem_of_cons. now left. }
    rewrite (dict_set_new k v d Hk).
    rewrite IH; rewrite <- app_assoc; [reflexivity|exact H].
Qed.

(** Building a dict from pairs with distinct keys keeps the pairs as they are. *)
Lemma dict_of_distinct {V} (pairs : list (str * V)) :
  NoDup (map fst pairs) -> dict_of pairs = pairs.
Proof. intros H. unfold dict_of. now rewrite dict_of_from. Qed.

(** The table a counter yields for its stream. *)
Lemma most_common_table (n : nat) :
  frequency_table n stream (dict_of (most_common n (count_all stream []))).
Proof.
  destruct (count_all_keys stream) as (Hnd & Hin & Hsorted).
  rewrite dict_of_distinct by now apply most_common_keys_NoDup.
  pose proof (sorted_by_count_sorted _ Hsorted) as Hord.
  unfold frequency_table, most_common. split; [|split; [|split]].
  - rewrite length_take. lia.
  - apply Forall_take. rewrite (sorted_by_count_perm _).
    apply Forall_forall. intros [k m] Hk. simpl.
    rewrite <- counter_get_count_all. symmetry. now apply counter_get_elem.
  - now apply StronglySorted_take.
  - intros k Hk. apply Hin, list_elem_of_fmap in Hk as ([k' m] & -> & Hkm).
    simpl. rewrite <- counter_get_count_all, (counter_get_elem k' m _ Hnd Hkm).
    rewrite <- (sorted_by_count_perm _) in Hkm.
    rewrite <- (take_drop n (sorted_by_count (count_all stream []))) in Hkm, Hord.
    apply elem_of_app in Hkm as [Hkm|Hkm].
    + left. change k' with (fst (k', m)). now apply list_elem_of_fmap_2.
    + right. split.
      * apply length_take_le.
        destruct (Nat.le_gt_cases n (length (sorted_by_count (count_all stream []))))
          as [Hle|Hgt]; [exact Hle|].
        rewrite drop_ge in Hkm by lia. now apply elem_of_nil in Hkm.
      * apply Forall_forall. intros x Hx.
        exact (StronglySorted_app_1_elem_of _ _ _ _ _ Hord Hx Hkm).
Qed.

End Tables.

(* ===================================================================== *)
(** ** The theme aggregator *)
(* ===================================================================== *)

Section Aggregation.

Context {unicode : UnicodeData}.

Lemma fold_left_proj {A} (proj : tally -> A) (f : A -> str -> A)
  (body : tally -> str -> tally) (kws : list str) (t : tally) :
  (forall t kw, proj (body t kw) = f (proj t) kw) ->
  proj (fold_left body kws t) = fold_left f kws (proj t).
Proof.
  intros Hbody. revert t. induction kws as [|kw kws IH]; intros t; simpl; [reflexivity|].
  now rewrite IH, Hbody.
Qed.

(** What one pass over a list of items does to one local of the loop. *)
Lemma for_keywords_proj {A} (proj : tally -> A) (f : A -> str -> A)
  (body : tally -> str -> tally) (items : list str) (t : tally) :
  (forall t kw, proj (body t kw) = f (proj t) kw) ->
  proj (for_keywords body items t)
  = fold_left f (flat_map extract_keywords items) (proj t).
Proof.
  intros Hbody. unfold for_keywords. revert t.
  induction items as [|item items IH]; intros t; simpl; [reflexivity|].
  now rewrite fold_left_app, IH, (fold_left_proj proj f).
Qed.

Lemma fold_left_unchanged {A} (kws : list str) (a : A) :
  fold_left (fun a _ => a) kws a = a.
Proof. induction kws; simpl; auto. Qed.

Lemma tally_reflection_discovery (t : tally) (r : reflection) :
  cnt_discovery (tally_reflection t r)
  = count_all (flat_map extract_keywords (discoveries r)) (cnt_discovery t).
Proof.
  unfold tally_reflection.
  rewrite (for_keywords_proj cnt_discovery (fun c _ => c)) by reflexivity.
  rewrite (for_keywords_proj cnt_discovery (fun c _ => c)) by reflexivity.
  rewrite (for_keywords_proj cnt_discovery (fun c _ => c)) by reflexivity.
  rewrite (for_keywords_proj cnt_discovery (fun c kw => counter_incr kw c))
    by reflexivity.
  now rewrite !fold_left_unchanged.
Qed.

Lemma tally_reflection_improvement (t : tally) (r : reflection) :
  cnt_improvement (tally_reflection t r)
  = count_all (flat_map extract_keywords (improvements_made r)) (cnt_improvement t).
Proof.
  unfold tally_reflection.
  rewrite (for_keywords_proj cnt_improvement (fun c _ => c)) by reflexivity.
  rewrite (for_keywords_proj cnt_improvement (fun c _ => c)) by reflexivity.
  rewrite (for_keywords_proj cnt_improvement (fun c kw => counter_incr kw c))
    by reflexivity.
  rewrite (for_keywords_proj cnt_improvement (fun c _ => c)) by reflexivity.
  now rewrite !fold_left_unchanged.
Qed.

Lemma tally_reflection_question (t : tally) (r : reflection) :
  cnt_question (tally_reflection t r)
  = count_all (flat_map extract_keywords (open_questions r)) (cnt_question t).
Proof.
  unfold tally_reflection.
  rewrite (for_keywords_proj cnt_question (fun c _ => c)) by reflexivity.
  rewrite (for_keywords_proj cnt_question (fun c kw => counter_incr kw c))
    by reflexivity.
  rewrite (for_keywords_proj cnt_question (fun c _ => c)) by reflexivity.
  rewrite (for_keywords_proj cnt_question (fun c _ => c)) by reflexivity.
  now rewrite !fold_left_unchanged.
Qed.

Lemma tally_reflection_pattern (t : tally) (r : reflection) :
  cnt_pattern (tally_reflection t r)
  = count_all (flat_map extract_keywords (patterns_to_watch r)) (cnt_pattern t).
Proof.
  unfold tally_reflection.
  rewrite (for_keywords_proj cnt_pattern (fun c kw => counter_incr kw c))
    by reflexivity.
  rewrite (for_keywords_proj cnt_pattern (fun c _ => c)) by reflexivity.
  rewrite (for_keywords_proj cnt_pattern (fun c _ => c)) by reflexivity.
  rewrite (for_keywords_proj cnt_pattern (fun c _ => c)) by reflexivity.
  now rewrite !fold_left_unchanged.
Qed.

(** A counter of the loop is the counter of its own keyword stream. *)
Lemma tally_all_counter (proj : tally -> counter) (field : reflection -> list str) :
  (forall t r, proj (tally_reflection t r)
               = count_all (flat_map extract_keywords (field r)) (proj t)) ->
  forall reflections t,
    proj (fold_left tally_reflection reflections t)
    = count_all (keywords_of field reflections) (proj t).
Proof.
  intros Hstep reflections.
  induction reflections as [|r reflections IH]; intros t; simpl; [reflexivity|].
  rewrite IH, Hstep. unfold count_all. now rewrite fold_left_app.
Qed.

Lemma filter_keys_sublist (f : str * nat -> bool) (l : list (str * nat)) :
  map fst (List.filter f l) `sublist_of` map fst l.
Proof.
  induction l as [|x l IH]; simpl; [constructor|].
  destruct (f x); simpl; now constructor.
Qed.

(** The comprehension keeps the filtered items, in order. *)
Lemma recurring_items (t : tally) :
  NoDup (map fst (cnt_discovery t)) ->
  recurring t
  = map (fun kc => (fst kc,
                    mkRecurrence (snd kc) (sorted_dates (keyword_dates t) (fst kc))))
      (List.filter (fun kc => 2 <=? snd kc) (most_common 20 (cnt_discovery t))).
Proof.
  intros Hnd. unfold recurring. apply dict_of_distinct.
  rewrite map_map. simpl.
  eapply sublist_NoDup; [|apply filter_keys_sublist].
  now apply most_common_keys_NoDup.
Qed.

Lemma str_lt_of_le (a b : str) : Str.le a b -> a <> b -> str_lt a b.
Proof.
  unfold Str.le, str_lt, Str.leb, Str.ltb. intros Hle Hne.
  destruct (Str.compare a b) eqn:E; [|reflexivity|discriminate].
  now apply str_compare_eq_iff in E.
Qed.

(** The dates of an entry: strictly ascending, so sorted and without
    duplicates. *)
Lemma sorted_dates_strict (kd : gmap str (gset str)) (kw : str) :
  StronglySorted str_lt (sorted_dates kd kw).
Proof.
  unfold sorted_dates. set (X := dates_of kd kw).
  assert (Hnd : NoDup (merge_sort Str.le (elements X))).
  { rewrite merge_sort_Permutation. apply NoDup_elements. }
  pose proof (StronglySorted_merge_sort Str.le (elements X)) as Hs.
  induction Hs as [|a l Hl IH Ha]; [constructor|].
  apply NoDup_cons in Hnd as [Hal Hnd].
  constructor; [now apply IH|].
  rewrite Forall_forall in Ha. apply Forall_forall. intros b Hb.
  apply str_lt_of_le; [now apply Ha|]. intros ->. now apply Hal, list_elem_of_In.
Qed.

End Aggregation.

Section Themes.

Context {unicode : UnicodeData}.

Lemma cnt_discovery_all (reflections : list reflection) :
  cnt_discovery (tally_all reflections)
  = count_all (keywords_of discoveries reflections) [].
Proof. apply (tally_all_counter cnt_discovery discoveries tally_reflection_discovery). Qed.

Lemma cnt_improvement_all (reflections : list reflection) :
  cnt_improvement (tally_all reflections)
  = count_all (keywords_of improvements_made reflections) [].
Proof.
  apply (tally_all_counter cnt_improvement improvements_made tally_reflection_improvement).
Qed.

Lemma cnt_question_all (reflections : list reflection) :
  cnt_question (tally_all reflections)
  = count_all (keywords_of open_questions reflections) [].
Proof. apply (tally_all_counter cnt_question open_questions tally_reflection_question). Qed.

Lemma cnt_pattern_all (reflections : list reflection) :
  cnt_pattern (tally_all reflections)
  = count_all (keywords_of patterns_to_watch reflections) [].
Proof. apply (tally_all_counter cnt_pattern patterns_to_watch tally_reflection_pattern). Qed.

Lemma recurring_all (reflections : list reflection) :
  recurring_across_sessions (analyze_recurring_themes reflections)
  = map (fun kc => (fst kc,
                    mkRecurrence (snd kc)
                      (sorted_dates (keyword_dates (tally_all reflections)) (fst kc))))
      (List.filter (fun kc => 2 <=? snd kc)
         (most_common 20 (count_all (keywords_of discoveries reflections) []))).
Proof.
  unfold analyze_recurring_themes. simpl. rewrite recurring_items.
  - now rewrite cnt_discovery_all.
  - rewrite cnt_discovery_all. apply count_all_keys.
Qed.

(** C4. Every entry of [recurring_across_sessions] carries a count of at
    least 2, which is the number of times its keyword occurs in the
    discovery items, and dates in strictly ascending order (sorted, no date
    twice). *)
Theorem recurrence_entries_recur (reflections : list reflection) :
  Forall
    (fun entry =>
       2 <= count (snd entry)
       /\ count (snd entry)
          = occurrences (fst entry) (keywords_of discoveries reflections)
       /\ StronglySorted str_lt (dates (snd entry)))
    (recurring_across_sessions (analyze_recurring_themes reflections)).
Proof.
  rewrite recurring_all. apply Forall_fmap, Forall_forall.
  intros [k n] Hk. simpl.
  apply list_elem_of_In, List.filter_In in Hk as [Hk Hn]. simpl in Hn.
  split; [now apply Nat.leb_le|]. split; [|apply sorted_dates_strict].
  destruct (most_common_table (keywords_of discoveries reflections) 20)
    as (_ & Hcount & _).
  rewrite dict_of_distinct in Hcount
    by (apply most_common_keys_NoDup, count_all_keys).
  rewrite Forall_forall in Hcount. apply list_elem_of_In in Hk.
  exact (Hcount (k, n) Hk).
Qed.

(** C5. The four frequency tables hold at most 15, 15, 10 and 10 entries,
    each entry with the number of occurrences of its keyword, ordered by
    descending count and, among equal counts, by the order in which the
    keywords were first met; [recurring_across_sessions] holds at most 20
    entries. *)
Theorem frequency_tables_capped_and_ordered (reflections : list reflection) :
  frequency_table 15 (keywords_of discoveries reflections)
    (discovery_keywords (analyze_recurring_themes reflections))
  /\ frequency_table 15 (keywords_of improvements_made reflections)
       (improvement_keywords (analyze_recurring_themes reflections))
  /\ frequency_table 10 (keywords_of open_questions reflections)
       (question_keywords (analyze_recurring_themes reflections))
  /\ frequency_table 10 (keywords_of patterns_to_watch reflections)
       (pattern_keywords (analyze_recurring_themes reflections))
  /\ length (recurring_across_sessions (analyze_recurring_themes reflections)) <= 20.
Proof.
  split; [|split; [|split; [|split]]].
  - unfold analyze_recurring_themes. simpl. rewrite cnt_discovery_all.
    apply most_common_table.
  - unfold analyze_recurring_themes. simpl. rewrite cnt_improvement_all.
    apply most_common_table.
  - unfold analyze_recurring_themes. simpl. rewrite cnt_question_all.
    apply most_common_table.
  - unfold analyze_recurring_themes. simpl. rewrite cnt_pattern_all.
    apply most_common_table.
  - rewrite recurring_all, length_map.
    etransitivity; [apply List.filter_length_le|].
    unfold most_common. rewrite length_take. lia.
Qed.

End Themes.

Section DateIndex.

Context {unicode : UnicodeData}.

Lemma dates_of_add_date (kw d : str) (kd : gmap str (gset str))
  (k x : str) :
  x ∈ dates_of (add_date kw d kd) k <-> x ∈ dates_of kd k \/ (k = kw /\ x = d).
Proof.
  unfold dates_of, add_date. destruct (decide (kw = k)) as [->|Hne].
  - rewrite lookup_insert_eq. simpl. rewrite elem_of_union, elem_of_singleton. tauto.
  - rewrite lookup_insert_ne by exact Hne.
    split; [auto|]. intros [H|[-> _]]; [exact H|congruence].
Qed.

Lemma dates_of_fold (kws : list str) (d : str)
  (kd : gmap str (gset str)) (k x : str) :
  x ∈ dates_of (fold_left (fun kd kw => add_date kw d kd) kws kd) k
  <-> x ∈ dates_of kd k \/ (k ∈ kws /\ x = d).
Proof.
  revert kd. induction kws as [|kw kws IH]; intros kd; simpl.
  - split; [auto|]. intros [H|[H _]]; [exact H|now apply elem_of_nil in H].
  - rewrite IH, dates_of_add_date, elem_of_cons. tauto.
Qed.

Lemma keyword_dates_reflection (t : tally) (r : reflection) :
  keyword_dates (tally_reflection t r)
  = fold_left (fun kd kw => add_date kw (date r) kd)
      (flat_map extract_keywords (open_questions r))
      (fold_left (fun kd kw => add_date kw (date r) kd)
         (flat_map extract_keywords (discoveries r)) (keyword_dates t)).
Proof.
  unfold tally_reflection.
  rewrite (for_keywords_proj keyword_dates (fun kd _ => kd)) by reflexivity.
  rewrite (for_keywords_proj keyword_dates
             (fun kd kw => add_date kw (date r) kd)) by reflexivity.
  rewrite (for_keywords_proj keyword_dates (fun kd _ => kd)) by reflexivity.
  rewrite (for_keywords_proj keyword_dates
             (fun kd kw => add_date kw (date r) kd)) by reflexivity.
  now rewrite !fold_left_unchanged.
Qed.

Lemma dates_of_tally (reflections : list reflection) (t : tally) (k x : str) :
  x ∈ dates_of (keyword_dates (fold_left tally_reflection reflections t)) k
  <-> x ∈ dates_of (keyword_dates t) k
      \/ exists r, r ∈ reflections /\ k ∈ dated_keywords r /\ x = date r.
Proof.
  revert t. induction reflections as [|r reflections IH]; intros t; simpl.
  - split; [auto|]. intros [H|(r & H & _)]; [exact H|now apply elem_of_nil in H].
  - rewrite IH, keyword_dates_reflection, !dates_of_fold.
    unfold dated_keywords. split.
    + intros [[[H|[H ->]]|[H ->]]|(r' & Hr' & H & ->)]; [now left|right..].
      * exists r. rewrite elem_of_cons, elem_of_app. auto.
      * exists r. rewrite elem_of_cons, elem_of_app. auto.
      * exists r'. rewrite elem_of_cons. auto.
    + intros [H|(r' & Hr' & H & ->)]; [now do 3 left|].
      apply elem_of_cons in Hr' as [->|Hr'].
      * apply elem_of_app in H as [H|H]; left; [left; right|right]; auto.
      * right. exists r'. auto.
Qed.

(** The date index: a date is recorded for a keyword exactly when it is the
    date of a record with that keyword among its discoveries or its open
    questions, whatever the date is. *)
Lemma dates_of_tally_all (reflections : list reflection) (k x : str) :
  x ∈ dates_of (keyword_dates (tally_all reflections)) k
  <-> exists r, r ∈ reflections /\ k ∈ dated_keywords r /\ x = date r.
Proof.
  unfold tally_all. rewrite dates_of_tally. simpl.
  unfold dates_of at 1. rewrite lookup_empty. simpl.
  split; [|auto]. intros [H|H]; [now apply elem_of_empty in H|exact H].
Qed.

End DateIndex.

Section EndToEnd.

Context {unicode : UnicodeData}.

Lemma dates_of_two (kd : gmap str (gset str)) (kw d1 d2 : str) :
  (forall x, x ∈ dates_of kd kw <-> x = d1 \/ x = d2) ->
  dates_of kd kw = {[d1; d2]}.
Proof.
  intros H. apply set_eq. intros x.
  now rewrite H, elem_of_union, !elem_of_singleton.
Qed.

(** Two records with the same single discovery: each keyword of the item
    holds the two dates, whatever else the records carry. *)
Lemma two_sessions_dates (r1 r2 : reflection) (item kw : str) :
  discoveries r1 = [item] -> discoveries r2 = [item] ->
  kw ∈ extract_keywords item ->
  dates_of (keyword_dates (tally_all [r1; r2])) kw = {[date r1; date r2]}.
Proof.
  intros H1 H2 Hkw. apply dates_of_two. intros x.
  rewrite dates_of_tally_all. split.
  - intros (r & Hr & _ & ->).
    apply elem_of_cons in Hr as [->|Hr]; [now left|].
    apply list_elem_of_singleton in Hr as ->. now right.
  - assert (Hdated : forall r, discoveries r = [item] -> kw ∈ dated_keywords r).
    { intros r Hr. unfold dated_keywords. rewrite Hr. simpl.
      rewrite app_nil_r. apply elem_of_app. now left. }
    intros [->| ->]; [exists r1|exists r2]; (split; [|split; auto]).
    + apply elem_of_cons. now left.
    + apply elem_of_cons. right. apply elem_of_cons. now left.
Qed.

(** C6. Two documents dated 2025-01-01 and 2025-01-02, each with the single
    discovery "Caching layer causes stale reads" (and anything in their other
    fields): [discovery_keywords] maps "caching", "stale" and the other three
    keywords of the item to 2, and [recurring_across_sessions] holds each of
    them with count 2 and dates 2025-01-01, 2025-01-02. *)
Theorem caching_recurs_across_two_sessions (r1 r2 : reflection) :
  date r1 = "2025-01-01" ->
  discoveries r1 = ["Caching layer causes stale reads"] ->
  date r2 = "2025-01-02" ->
  discoveries r2 = ["Caching layer causes stale reads"] ->
  discovery_keywords (analyze_recurring_themes [r1; r2])
    = [("caching", 2); ("layer", 2); ("causes", 2); ("stale", 2); ("reads", 2)]
  /\ recurring_across_sessions (analyze_recurring_themes [r1; r2])
     = [("caching", mkRecurrence 2 ["2025-01-01"; "2025-01-02"]);
        ("layer", mkRecurrence 2 ["2025-01-01"; "2025-01-02"]);
        ("causes", mkRecurrence 2 ["2025-01-01"; "2025-01-02"]);
        ("stale", mkRecurrence 2 ["2025-01-01"; "2025-01-02"]);
        ("reads", mkRecurrence 2 ["2025-01-01"; "2025-01-02"])].
Proof.
  intros Hd1 Hi1 Hd2 Hi2.
  assert (Hkws : keywords_of discoveries [r1; r2]
                 = extract_keywords "Caching layer causes stale reads"
                   ++ extract_keywords "Caching layer causes stale reads").
  { unfold keywords_of. simpl. now rewrite Hi1, Hi2, !app_nil_r. }
  split.
  - unfold analyze_recurring_themes. cbn [discovery_keywords].
    rewrite cnt_discovery_all, Hkws. now vm_compute.
  - rewrite recurring_all, Hkws.
    assert (Hdates : forall kw,
               In kw (extract_keywords "Caching layer causes stale reads") ->
               sorted_dates (keyword_dates (tally_all [r1; r2])) kw
               = ["2025-01-01"; "2025-01-02"]).
    { intros kw Hkw. unfold sorted_dates.
      rewrite (two_sessions_dates r1 r2 _ kw Hi1 Hi2) by now apply list_elem_of_In.
      rewrite Hd1, Hd2. now vm_compute. }
    set (l := List.filter _ _). vm_compute in l. subst l. cbn [map fst snd].
    rewrite !Hdates by (vm_compute; tauto). reflexivity.
Qed.

End EndToEnd.

Section EndToEndExamples.

#[local] Existing Instance unicode_fragment.

Lemma caching_recurs_across_two_sessions_witness :
  discovery_keywords
    (analyze_recurring_themes
       [mkReflection "2025-01-01-cache.md" "2025-01-01" "cache" "Looked at the cache"
          ["Caching layer causes stale reads"] ["Added cache invalidation"] []
          ["Why is caching stale?"] [] [];
        mkReflection "2025-01-02-reads.md" "2025-01-02" "reads" ""
          ["Caching layer causes stale reads"] [] [] [] ["Stale reads"] []])
    = [("caching", 2); ("layer", 2); ("causes", 2); ("stale", 2); ("reads", 2)]
  /\ recurring_across_sessions
       (analyze_recurring_themes
          [mkReflection "2025-01-01-cache.md" "2025-01-01" "cache" "Looked at the cache"
             ["Caching layer causes stale reads"] ["Added cache invalidation"] []
             ["Why is caching stale?"] [] [];
           mkReflection "2025-01-02-reads.md" "2025-01-02" "reads" ""
             ["Caching layer causes stale reads"] [] [] [] ["Stale reads"] []])
     = [("caching", mkRecurrence 2 ["2025-01-01"; "2025-01-02"]);
        ("layer", mkRecurrence 2 ["2025-01-01"; "2025-01-02"]);
        ("causes", mkRecurrence 2 ["2025-01-01"; "2025-01-02"]);
        ("stale", mkRecurrence 2 ["2025-01-01"; "2025-01-02"]);
        ("reads", mkRecurrence 2 ["2025-01-01"; "2025-01-02"])].
Proof.
  apply caching_recurs_across_two_sessions; reflexivity.
Defined.

End EndToEndExamples.

Section UndatedDocuments.

Context {unicode : UnicodeData}.

(** A discovery keyword records the date of its document, whatever it is. *)
Lemma discovery_date_recorded (reflections : list reflection) (r : reflection)
  (kw : str) :
  r ∈ reflections ->
  kw ∈ flat_map extract_keywords (discoveries r) ->
  date r ∈ dates_of (keyword_dates (tally_all reflections)) kw.
Proof.
  intros Hr Hkw. apply dates_of_tally_all. exists r.
  split; [exact Hr|]. split; [|reflexivity].
  unfold dated_keywords. apply elem_of_app. now left.
Qed.

(** C10. A document whose file name carries no date has the empty string
    as its [date], and that string goes into the date index like any date:
    the date of a record is held for each keyword of its discoveries.  With
    one dated and one undated document sharing a discovery, the entries of
    [recurring_across_sessions] list the empty string, and list it first:
    it is below every other string. *)
Theorem undated_document_in_recurrence_dates :
  (forall reflections r kw,
      r ∈ reflections ->
      kw ∈ flat_map extract_keywords (discoveries r) ->
      date r ∈ dates_of (keyword_dates (tally_all reflections)) kw)
  /\ date (parse_content (mkPath "history/reflections/notes.md" "notes")
            ("## Discoveries" +:+ String "010" "- Caching layer causes stale reads"))
     = EmptyString
  /\ recurring_across_sessions
       (analyze_recurring_themes
          [parse_content
             (mkPath "history/reflections/notes.md" "notes")
             ("## Discoveries" +:+ String "010" "- Caching layer causes stale reads");
           parse_content
             (mkPath "history/reflections/2025-01-01-cache.md" "2025-01-01-cache")
             ("## Discoveries" +:+ String "010" "- Caching layer causes stale reads")])
     = [("caching", mkRecurrence 2 [EmptyString; "2025-01-01"]);
        ("layer", mkRecurrence 2 [EmptyString; "2025-01-01"]);
        ("causes", mkRecurrence 2 [EmptyString; "2025-01-01"]);
        ("stale", mkRecurrence 2 [EmptyString; "2025-01-01"]);
        ("reads", mkRecurrence 2 [EmptyString; "2025-01-01"])]
  /\ (forall (c : char) (s : str), str_lt EmptyString (String c s)).
Proof.
  split; [exact discovery_date_recorded|].
  split; [reflexivity|]. split; [now vm_compute|].
  intros c s. reflexivity.
Qed.

End UndatedDocuments.

Section UndatedDocumentsExamples.

#[local] Existing Instance unicode_fragment.

Lemma undated_document_in_recurrence_dates_witness :
  EmptyString
  ∈ dates_of
      (keyword_dates
         (tally_all
            [mkReflection "notes.md" "" "notes" "" ["Caching layer causes stale reads"]
               [] [] [] [] []]))
      "caching".
Proof.
  apply (proj1 undated_document_in_recurrence_dates
           [mkReflection "notes.md" "" "notes" "" ["Caching layer causes stale reads"]
              [] [] [] [] []]
           (mkReflection "notes.md" "" "notes" "" ["Caching layer causes stale reads"]
              [] [] [] [] [])
           "caching").
  - apply elem_of_cons. now left.
  - apply list_elem_of_In. vm_compute. tauto.
Defined.

End UndatedDocumentsExamples.

(* ===================================================================== *)
(** ** More on the reflection-history analyzer *)
(* ===================================================================== *)

Section Keywords.

Context {unicode : UnicodeData}.

Lemma all_chars_impl (P Q : char -> bool) (s : str) :
  (forall c, P c = true -> Q c = true) ->
  PyStr.all_chars P s = true -> PyStr.all_chars Q s = true.
Proof.
  intros HPQ. induction s as [|c s IH]; simpl; [reflexivity|].
  intros [Hc Hs]%andb_true_iff. now rewrite (HPQ c Hc), IH.
Qed.

Lemma contains_cons (w : str) (c : char) (s : str) :
  PyStr.contains w s = true -> PyStr.contains w (String c s) = true.
Proof. intros H. cbn [PyStr.contains]. rewrite H. apply orb_true_r. Qed.

Lemma contains_startswith (w s : str) :
  PyStr.startswith w s = true -> PyStr.contains w s = true.
Proof. intros H. destruct s; cbn [PyStr.contains]; now rewrite H. Qed.

Lemma body_match_prefix (s p : str) :
  Regex.body_match s = Some p ->
  PyStr.startswith p s = true /\ p <> EmptyString
  /\ PyStr.all_chars Regex.in_class p = true.
Proof.
  revert p. induction s as [|c s IH]; intros p; simpl; [discriminate|].
  destruct (Regex.in_class c) eqn:Ec; [|discriminate].
  destruct (Regex.body_match s) as [q|].
  - intros [= <-]. destruct (IH q eq_refl) as (Hp & _ & Hq).
    rewrite startswith_cons, char_eqb_refl, Hp. simpl. now rewrite Ec, Hq.
  - destruct (Regex.boundary (PyStr.is_word c) s); [|discriminate].
    intros [= <-]. rewrite startswith_cons, char_eqb_refl. simpl.
    now rewrite Ec.
Qed.

(** What [re.findall] returns: pieces of the text, each a letter followed by
    class characters. *)
Lemma findall_words_shape (s : str) (skip : nat) (prev_word : bool) :
  Forall
    (fun w => PyStr.contains w s = true
              /\ PyStr.all_chars Regex.in_class w = true
              /\ match w with
                 | String c _ => PyStr.is_letter c = true
                 | EmptyString => False
                 end)
    (Regex.findall_words skip prev_word s).
Proof.
  revert skip prev_word. induction s as [|c s IH]; intros skip prev_word; simpl;
    [constructor|].
  assert (Hrec : forall k b,
             Forall
               (fun w => PyStr.contains w (String c s) = true
                         /\ PyStr.all_chars Regex.in_class w = true
                         /\ match w with
                            | String c _ => PyStr.is_letter c = true
                            | EmptyString => False
                            end)
               (Regex.findall_words k b s)).
  { intros k b. eapply Forall_impl; [apply IH|].
    intros w (H1 & H2). split; [now apply contains_cons|exact H2]. }
  destruct skip as [|k]; [|apply Hrec].
  destruct (xorb prev_word (PyStr.is_word c) && PyStr.is_letter c) eqn:E;
    [|apply Hrec].
  apply andb_true_iff in E as [_ Hc].
  destruct (Regex.body_match s) as [p|] eqn:Ep; [|apply Hrec].
  constructor; [|apply Hrec].
  destruct (body_match_prefix s p Ep) as (Hp & Hne & Hcl).
  split; [|split].
  - now rewrite startswith_cons, char_eqb_refl, Hp.
  - simpl. rewrite Hcl, andb_true_r. unfold Regex.in_class. now rewrite Hc.
  - exact Hc.
Qed.

Lemma keyword_char_of_class (c : char) :
  Regex.in_class c = true -> keyword_char c = true.
Proof.
  unfold Regex.in_class, PyStr.is_letter, keyword_char.
  destruct (PyStr.is_upper c), (PyStr.is_lower c), (PyStr.is_digit c),
    (Char.eqb c "_"), (Char.eqb c "-"); simpl; congruence.
Qed.

(** X1. Every keyword [extract_keywords] returns has at least three
    characters, is no stop word, starts with one of the letters a to z (in
    either case), is made of those letters, the digits 0 to 9, underscores
    and hyphens only, and occurs in the lowercased text. *)
Theorem keywords_are_well_formed (text : str) :
  Forall
    (fun kw => 3 <= Str.length kw
               /\ existsb (Str.eqb kw) stop_words = false
               /\ starts_with_letter kw = true
               /\ PyStr.all_chars keyword_char kw = true
               /\ PyStr.contains kw (PyStr.lower text) = true)
    (extract_keywords text).
Proof.
  unfold extract_keywords. apply Forall_forall. intros kw Hkw.
  apply list_elem_of_In, List.filter_In in Hkw as [Hkw Hf].
  apply andb_true_iff in Hf as [Hstop Hlen].
  pose proof (findall_words_shape (PyStr.lower text) 0 false) as Hall.
  rewrite Forall_forall in Hall.
  destruct (Hall kw (proj2 (list_elem_of_In _ _) Hkw)) as (Hin & Hcl & Hfirst).
  split; [apply Nat.ltb_lt in Hlen; lia|].
  split; [now apply negb_true_iff|].
  split; [|split; [|exact Hin]].
  - destruct kw as [|c kw]; [contradiction|]. simpl in *.
    unfold PyStr.is_letter in Hfirst. now rewrite orb_comm.
  - eapply all_chars_impl; [apply keyword_char_of_class|exact Hcl].
Qed.

End Keywords.

Section Provenance.

Context {unicode : UnicodeData}.

Lemma category_items_save_section
  (c : category) (r : reflection) (section : str) (items : list str) :
  category_items c (_save_section r section items) = category_items c r
  \/ category_items c (_save_section r section items) = category_items c r ++ items.
Proof.
  unfold _save_section. destruct (section_category section) as [c'|]; [|now left].
  destruct c, c'; simpl; auto.
Qed.

Lemma category_items_flush (c : category) (st : parse_state) :
  category_items c (flush st) = category_items c (refl st)
  \/ category_items c (flush st) = category_items c (refl st) ++ current_items st.
Proof.
  unfold flush. destruct (current_section st); [|now left].
  destruct (pending st); [apply category_items_save_section|now left].
Qed.

Lemma flush_sublist (c : category) (st : parse_state) (seen : list str) :
  category_items c (refl st) ++ current_items st `sublist_of` seen ->
  category_items c (flush st) `sublist_of` seen.
Proof.
  intros H. destruct (category_items_flush c st) as [-> | ->]; [|exact H].
  etransitivity; [|exact H]. now apply sublist_inserts_r.
Qed.

(** What is stored and buffered is a selection, in order, of the items met
    so far. *)
Lemma parse_line_sublist (c : category) (st : parse_state) (raw : str)
  (seen : list str) :
  category_items c (refl st) ++ current_items st `sublist_of` seen ->
  category_items c (refl (parse_line st raw)) ++ current_items (parse_line st raw)
  `sublist_of`
  seen ++ (if is_list_item_line raw then [item_text (PyStr.strip raw)] else []).
Proof.
  intros H. destruct (is_list_item_line raw) eqn:E.
  - rewrite (list_item_line_appends st raw E). simpl.
    rewrite app_assoc. now apply sublist_app.
  - rewrite app_nil_r. unfold is_list_item_line in E. unfold parse_line.
    rewrite E.
    destruct (PyStr.startswith "## " (PyStr.strip raw)).
    { simpl. rewrite app_nil_r. now apply flush_sublist. }
    case_ifs; try exact H.
Qed.

Lemma parse_lines_sublist (c : category) (lines : list str) (st : parse_state)
  (seen : list str) :
  category_items c (refl st) ++ current_items st `sublist_of` seen ->
  category_items c (refl (fold_left parse_line lines st))
    ++ current_items (fold_left parse_line lines st)
  `sublist_of`
  seen ++ map (fun raw => item_text (PyStr.strip raw))
            (List.filter is_list_item_line lines).
Proof.
  revert st seen. induction lines as [|l lines IH]; intros st seen H; simpl.
  - now rewrite app_nil_r.
  - specialize (IH _ _ (parse_line_sublist c st l seen H)).
    destruct (is_list_item_line l); simpl in *.
    + now rewrite <- app_assoc in IH.
    + now rewrite app_nil_r in IH.
Qed.

(** X2. Every category list of a parsed record is a selection of the item
    texts of the document's list-item lines, in document order: no item is
    made up, stored twice in one list or moved before an earlier one. *)
Theorem stored_items_come_from_the_text
  (filepath : path) (content : str) (c : category) :
  category_items c (parse_content filepath content) `sublist_of` item_texts content.
Proof.
  unfold parse_content, item_texts.
  apply flush_sublist.
  apply (parse_lines_sublist c _ _ []).
  unfold initial_reflection.
  destruct (match_date_topic (stem filepath)) as [[? ?]|]; destruct c; constructor.
Qed.

Lemma summary_save_section (r : reflection) (section : str) (items : list str) :
  summary (_save_section r section items) = summary r.
Proof.
  unfold _save_section. destruct (section_category section) as [c|]; [|reflexivity].
  now destruct c.
Qed.

Lemma summary_flush (st : parse_state) : summary (flush st) = summary (refl st).
Proof.
  unfold flush. destruct (current_section st); [|reflexivity].
  destruct (pending st); [apply summary_save_section|reflexivity].
Qed.

Lemma summary_from_more (lines more : list str) (s : str) :
  summary_from lines s -> summary_from (lines ++ more) s.
Proof.
  intros [H|((h & Hh & H1) & (raw & Hraw & H2))]; [now left|right]. split.
  - exists h. split; [apply in_or_app; now left|exact H1].
  - exists raw. split; [apply in_or_app; now left|exact H2].
Qed.

Lemma section_from_more (lines more : list str) (section : option str) :
  section_from lines section -> section_from (lines ++ more) section.
Proof.
  intros H s Hs. destruct (H s Hs) as (h & Hh & H1).
  exists h. split; [apply in_or_app; now left|exact H1].
Qed.

Lemma parse_line_summary (st : parse_state) (raw : str) (seen : list str) :
  section_from seen (current_section st) ->
  summary_from seen (summary (refl st)) ->
  section_from (seen ++ [raw]) (current_section (parse_line st raw))
  /\ summary_from (seen ++ [raw]) (summary (refl (parse_line st raw))).
Proof.
  intros Hsec Hsum.
  pose proof (section_from_more seen [raw] _ Hsec) as Hsec'.
  pose proof (summary_from_more seen [raw] _ Hsum) as Hsum'.
  assert (Hraw : In raw (seen ++ [raw])) by (apply in_or_app; right; now left).
  unfold parse_line.
  destruct (PyStr.startswith "## " (PyStr.strip raw)) eqn:Eh.
  { simpl. split; [|now rewrite summary_flush].
    intros s [= <-]. exists raw. now repeat split. }
  destruct (PyStr.startswith "### " (PyStr.strip raw)); [now split|].
  destruct (PyStr.startswith "- " (PyStr.strip raw)) eqn:El.
  { destruct (PyStr.nonempty (item_text (PyStr.strip raw))); now split. }
  destruct (PyStr.nonempty (PyStr.strip raw)) eqn:En; [|now split].
  destruct (bool_decide (current_section st = Some "session summary")) eqn:Es;
    [|now split].
  apply bool_decide_eq_true in Es. simpl. split; [exact Hsec'|].
  right. split.
  - destruct (Hsec' _ Es) as (h & Hh & Hhead & Heq). exists h. now repeat split.
  - exists raw. apply nonempty_true in En. now repeat split.
Qed.

Lemma parse_lines_summary (lines : list str) (st : parse_state) (seen : list str) :
  section_from seen (current_section st) ->
  summary_from seen (summary (refl st)) ->
  summary_from (seen ++ lines) (summary (refl (fold_left parse_line lines st))).
Proof.
  revert st seen. induction lines as [|l lines IH]; intros st seen Hsec Hsum; simpl.
  - now rewrite app_nil_r.
  - destruct (parse_line_summary st l seen Hsec Hsum) as [Hsec' Hsum'].
    specialize (IH _ _ Hsec' Hsum'). now rewrite <- app_assoc in IH.
Qed.

(** X3. The [summary] of a parsed record is empty unless the document has a
    level-2 heading that reads "session summary" (in any case, and nothing
    else); it is then the stripped text of a line of the document that is
    neither a heading nor a list item, and it is not empty. *)
Theorem summary_comes_from_the_summary_section (filepath : path) (content : str) :
  summary_from (PyStr.split_lines content) (summary (parse_content filepath content)).
Proof.
  unfold parse_content. rewrite summary_flush.
  apply (parse_lines_summary _ _ []).
  - intros s. discriminate.
  - left. unfold initial_reflection.
    now destruct (match_date_topic (stem filepath)) as [[? ?]|].
Qed.

End Provenance.

Section FileNameShape.

Context {unicode : UnicodeData}.

Lemma startswith_app_refl (p s : str) : PyStr.startswith p (p +:+ s) = true.
Proof.
  induction p as [|a p IH]; [reflexivity|].
  now rewrite app_cons, startswith_cons, char_eqb_refl, IH.
Qed.

Lemma app_assoc_str (a b c : str) : (a +:+ b) +:+ c = a +:+ b +:+ c.
Proof. induction a as [|x a IH]; [reflexivity|]. now rewrite !app_cons, IH. Qed.

Lemma replace_char_no_hyphen (s : str) :
  PyStr.contains "-" (PyStr.replace_char "-" " " s) = false.
Proof.
  induction s as [|c s IH]; [reflexivity|].
  cbn [PyStr.replace_char PyStr.contains]. rewrite IH, orb_false_r.
  rewrite startswith_cons.
  destruct (Char.eqb c "-") eqn:E; [reflexivity|].
  now rewrite char_eqb_sym, E.
Qed.

Lemma replace_char_line_free (s : str) :
  line_free s = true -> line_free (PyStr.replace_char "-" " " s) = true.
Proof.
  induction s as [|c s IH]; [reflexivity|]. cbn [line_free PyStr.replace_char].
  intros [Hc Hs]%andb_true_iff. rewrite (IH Hs), andb_true_r.
  destruct (Char.eqb c "-"); [reflexivity|exact Hc].
Qed.

Lemma until_newline_is_line_free (s : str) : line_free (until_newline s) = true.
Proof.
  induction s as [|c s IH]; [reflexivity|]. cbn [until_newline].
  destruct (Char.eqb c "010") eqn:E; [reflexivity|].
  cbn [line_free]. now rewrite E, IH.
Qed.

Lemma replace_char_nonempty (a b : char) (s : str) :
  s <> EmptyString -> PyStr.replace_char a b s <> EmptyString.
Proof. destruct s; [congruence|discriminate]. Qed.

(** X4. Whatever the content, [file] is the path as given and [date] and
    [topic] are decided by the file name alone: either the date is empty and
    the topic is the whole name, or the date is a well-formed [YYYY-MM-DD]
    with which (and a hyphen) the name starts, and the topic is a non-empty
    single line without any hyphen. *)
Theorem date_and_topic_are_well_formed (filepath : path) (content : str) :
  file (parse_content filepath content) = path_str filepath
  /\ ((date (parse_content filepath content) = EmptyString
       /\ topic (parse_content filepath content) = stem filepath)
      \/ (is_iso_date (date (parse_content filepath content)) = true
          /\ PyStr.startswith (date (parse_content filepath content) +:+ "-")
               (stem filepath) = true
          /\ topic (parse_content filepath content) <> EmptyString
          /\ PyStr.contains "-" (topic (parse_content filepath content)) = false
          /\ line_free (topic (parse_content filepath content)) = true)).
Proof.
  pose proof (header_parse_content filepath content) as Hh.
  unfold header, initial_reflection in Hh.
  destruct (match_date_topic (stem filepath)) as [[d s]|] eqn:E;
    simpl in Hh; injection Hh as -> -> ->.
  - split; [reflexivity|]. right.
    apply match_date_topic_inv in E as (tail & Hstem & Hd & -> & Hne).
    split; [exact Hd|]. split; [|split; [|split]].
    + rewrite Hstem, <- app_assoc_str. apply startswith_app_refl.
    + now apply replace_char_nonempty.
    + apply replace_char_no_hyphen.
    + apply replace_char_line_free, until_newline_is_line_free.
  - split; [reflexivity|]. now left.
Qed.

End FileNameShape.

Section RecurrenceCounts.

Context {unicode : UnicodeData}.

(** The count of an entry, from the table the entries are drawn from. *)
Lemma recurrence_entries_recur_aux (reflections : list reflection) :
  Forall
    (fun kc => 2 <= snd kc
               /\ snd kc = occurrences (fst kc) (keywords_of discoveries reflections))
    (List.filter (fun kc => 2 <=? snd kc)
       (most_common 20 (count_all (keywords_of discoveries reflections) []))).
Proof.
  apply Forall_forall. intros [k n] Hk.
  apply list_elem_of_In, List.filter_In in Hk as [Hk Hn]. simpl in *.
  split; [now apply Nat.leb_le|].
  destruct (most_common_table (keywords_of discoveries reflections) 20)
    as (_ & Hcount & _).
  rewrite dict_of_distinct in Hcount
    by (apply most_common_keys_NoDup, count_all_keys).
  rewrite Forall_forall in Hcount. apply list_elem_of_In in Hk.
  exact (Hcount (k, n) Hk).
Qed.

End RecurrenceCounts.

Section RecurrenceDates.

Context {unicode : UnicodeData}.

Lemma sorted_dates_elem (kd : gmap str (gset str)) (kw d : str) :
  d ∈ sorted_dates kd kw <-> d ∈ dates_of kd kw.
Proof.
  unfold sorted_dates. now rewrite merge_sort_Permutation, elem_of_elements.
Qed.

Lemma occurrences_elem (k : str) (stream : list str) :
  0 < occurrences k stream -> k ∈ stream.
Proof.
  unfold occurrences. induction stream as [|k' stream IH]; simpl; [lia|].
  destruct (str_eqb_spec k k') as [->|_]; intros H.
  - apply elem_of_cons. now left.
  - apply elem_of_cons. right. now apply IH.
Qed.

(** X5. The dates of an entry of [recurring_across_sessions] are exactly the
    dates of the records that have the keyword among the keywords of their
    discoveries or of their open questions; improvements and patterns to
    watch never add a date. *)
Theorem recurrence_dates_are_the_sessions (reflections : list reflection) :
  Forall
    (fun entry =>
       forall d, d ∈ dates (snd entry)
                 <-> exists r, r ∈ reflections
                               /\ fst entry ∈ dated_keywords r /\ d = date r)
    (recurring_across_sessions (analyze_recurring_themes reflections)).
Proof.
  rewrite recurring_all. apply Forall_fmap, Forall_forall.
  intros [k n] _ d. simpl. now rewrite sorted_dates_elem, dates_of_tally_all.
Qed.

(** A counter holds one entry for each distinct keyword of its stream. *)
Lemma length_count_all (stream : list str) :
  length (count_all stream []) = length (remove_dups stream).
Proof.
  destruct (count_all_keys stream) as (Hnd & Hin & _).
  rewrite <- (length_map fst). apply Permutation_length.
  apply NoDup_Permutation; [exact Hnd|apply NoDup_remove_dups|].
  intros k. now rewrite Hin, elem_of_remove_dups.
Qed.

(** With at most 20 distinct keywords, a keyword met at least twice is among
    the pairs the entries are drawn from. *)
Lemma recurring_pair_present (stream : list str) (kw : str) :
  2 <= occurrences kw stream -> length (remove_dups stream) <= 20 ->
  (kw, occurrences kw stream)
  ∈ List.filter (fun kc => 2 <=? snd kc) (most_common 20 (count_all stream [])).
Proof.
  intros Hocc Hlen. destruct (count_all_keys stream) as (Hnd & Hin & _).
  assert (Hkw : kw ∈ map fst (count_all stream [])).
  { apply Hin, occurrences_elem. lia. }
  apply list_elem_of_fmap in Hkw as ([k n] & -> & Hkn). cbn [fst] in *.
  assert (Hn : n = occurrences k stream).
  { rewrite <- counter_get_count_all. symmetry. now apply counter_get_elem. }
  subst n. apply list_elem_of_In, List.filter_In. split.
  - apply list_elem_of_In. unfold most_common.
    rewrite take_ge.
    + now rewrite (sorted_by_count_perm _).
    + rewrite (sorted_by_count_perm _), length_count_all. exact Hlen.
  - cbn [snd]. now apply Nat.leb_le.
Qed.

(** X6. With a single record, every entry of [recurring_across_sessions]
    lists one date, that of the record; and when the discoveries of the
    record hold at most 20 distinct keywords, each keyword met at least
    twice in them is an entry: a keyword that comes back within one session
    is reported as recurring across sessions. *)
Theorem one_session_recurs_on_its_own (r : reflection) :
  Forall (fun entry => dates (snd entry) = [date r])
    (recurring_across_sessions (analyze_recurring_themes [r]))
  /\ (length (remove_dups (flat_map extract_keywords (discoveries r))) <= 20 ->
      forall kw,
        2 <= occurrences kw (flat_map extract_keywords (discoveries r)) ->
        (kw, mkRecurrence
               (occurrences kw (flat_map extract_keywords (discoveries r)))
               [date r])
        ∈ recurring_across_sessions (analyze_recurring_themes [r])).
Proof.
  assert (Hdates : forall k,
             k ∈ flat_map extract_keywords (discoveries r) ->
             sorted_dates (keyword_dates (tally_all [r])) k = [date r]).
  { intros k Hk. unfold sorted_dates.
    assert (Hset : dates_of (keyword_dates (tally_all [r])) k = {[date r]}).
    { apply set_eq. intros x. rewrite dates_of_tally_all, elem_of_singleton. split.
      - intros (r' & Hr' & _ & ->). now apply list_elem_of_singleton in Hr' as ->.
      - intros ->. exists r. split; [apply elem_of_cons; now left|].
        split; [|reflexivity]. unfold dated_keywords. apply elem_of_app. now left. }
    rewrite Hset, elements_singleton. reflexivity. }
  assert (Hstream : keywords_of discoveries [r]
                    = flat_map extract_keywords (discoveries r)).
  { unfold keywords_of. cbn [flat_map]. apply app_nil_r. }
  split.
  - pose proof (recurrence_entries_recur_aux [r]) as Hc.
    rewrite recurring_all in *. rewrite Forall_fmap in *.
    rewrite Forall_forall in *. intros [k n] Hk. specialize (Hc _ Hk).
    cbn [fst snd dates] in *. destruct Hc as (Hn & Hocc).
    apply Hdates. rewrite Hstream in Hocc. apply occurrences_elem.
    cbn [fst]. lia.
  - intros Hlen kw Hocc. rewrite recurring_all, Hstream.
    apply list_elem_of_fmap.
    exists (kw, occurrences kw (flat_map extract_keywords (discoveries r))).
    split; [|now apply recurring_pair_present].
    cbn [fst snd]. rewrite Hdates; [reflexivity|]. apply occurrences_elem. lia.
Qed.

End RecurrenceDates.

Section RecurrenceDatesExamples.

#[local] Existing Instance unicode_fragment.

Lemma one_session_recurs_on_its_own_witness :
  ("cache", mkRecurrence 2 ["2025-01-01"])
  ∈ recurring_across_sessions
      (analyze_recurring_themes
         [mkReflection "2025-01-01-a.md" "2025-01-01" "a" ""
            ["The cache hides a stale cache entry"] [] [] [] [] []]).
Proof.
  apply (proj2 (one_session_recurs_on_its_own
                  (mkReflection "2025-01-01-a.md" "2025-01-01" "a" ""
                     ["The cache hides a stale cache entry"] [] [] [] [] []))
           ltac:(vm_compute; lia) "cache").
  vm_compute. lia.
Defined.

End RecurrenceDatesExamples.

Section NoDiscoveries.

Context {unicode : UnicodeData}.

Lemma keywords_of_nothing (field : reflection -> list str)
  (reflections : list reflection) :
  Forall (fun r => field r = []) reflections -> keywords_of field reflections = [].
Proof.
  unfold keywords_of. induction 1 as [|r rs Hr _ IH]; simpl; [reflexivity|].
  now rewrite Hr, IH.
Qed.

(** X7. Recurrence is drawn from the discoveries alone: when no record has
    a discovery, [discovery_keywords] and [recurring_across_sessions] are
    empty, however often a keyword comes back in the open questions. *)
Theorem no_discoveries_no_recurrence (reflections : list reflection) :
  Forall (fun r => discoveries r = []) reflections ->
  discovery_keywords (analyze_recurring_themes reflections) = []
  /\ recurring_across_sessions (analyze_recurring_themes reflections) = [].
Proof.
  intros H. apply keywords_of_nothing in H. split.
  - unfold analyze_recurring_themes. cbn [discovery_keywords].
    now rewrite cnt_discovery_all, H.
  - now rewrite recurring_all, H.
Qed.

End NoDiscoveries.

Section NoDiscoveriesExamples.

#[local] Existing Instance unicode_fragment.

Lemma no_discoveries_no_recurrence_witness :
  discovery_keywords
    (analyze_recurring_themes
       [mkReflection "a.md" "2025-01-01" "a" "" [] [] [] ["Why is caching stale?"] [] [];
        mkReflection "b.md" "2025-01-02" "b" "" [] [] [] ["Why is caching stale?"] [] []])
  = []
  /\ recurring_across_sessions
       (analyze_recurring_themes
          [mkReflection "a.md" "2025-01-01" "a" "" [] [] [] ["Why is caching stale?"] [] [];
           mkReflection "b.md" "2025-01-02" "b" "" [] [] [] ["Why is caching stale?"] [] []])
     = [].
Proof.
  apply no_discoveries_no_recurrence. repeat constructor.
Defined.

End NoDiscoveriesExamples.

Section Report.

Lemma length_report_reflections (reflections : list reflection) :
  length reflections
  <= length (flat_map report_reflection reflections)
  <= 2 * length reflections.
Proof.
  induction reflections as [|r rs IH]; [simpl; lia|].
  cbn [flat_map]. rewrite length_app. cbn [length].
  assert (1 <= length (report_reflection r) <= 2)
    by (unfold report_reflection; destruct (PyStr.nonempty (summary r)); simpl; lia).
  lia.
Qed.

(** X8. The plain-text report is bounded whatever the input: between 15 and
    48 printed strings, of which at most 10 for the recent reflections (the
    first five, one or two strings each), 10 for the recurring themes, 8 for
    the discovery keywords and 5 for the question keywords. *)
Theorem report_is_bounded (reflections_dir : str)
  (reflections : list reflection) (t : themes) :
  15 <= length (report reflections_dir reflections t) <= 48
  /\ length (report reflections_dir reflections t)
     = 15 + length (flat_map report_reflection (take 5 reflections))
       + Nat.min 10 (length (recurring_across_sessions t))
       + Nat.min 8 (length (discovery_keywords t))
       + Nat.min 5 (length (question_keywords t))
  /\ Nat.min 5 (length reflections)
     <= length (flat_map report_reflection (take 5 reflections))
     <= 2 * Nat.min 5 (length reflections).
Proof.
  pose proof (length_report_reflections (take 5 reflections)) as Hr.
  rewrite length_take in Hr.
  assert (Hlen : length (report reflections_dir reflections t)
                 = 15 + length (flat_map report_reflection (take 5 reflections))
                   + Nat.min 10 (length (recurring_across_sessions t))
                   + Nat.min 8 (length (discovery_keywords t))
                   + Nat.min 5 (length (question_keywords t))).
  { unfold report. rewrite !length_app, !length_map, !length_take. simpl. lia. }
  split; [|split; [exact Hlen|exact Hr]]. lia.
Qed.

End Report.

(* ===================================================================== *)
(** ** Splitting and joining *)
(* ===================================================================== *)

Section Splitting.

Lemma slice_from_app (a b : str) : PyStr.slice_from (Str.length a) (a +:+ b) = b.
Proof. induction a as [|c a IH]; [now destruct b|]. now rewrite app_cons. Qed.

Lemma slice_to_app (n : nat) (a b : str) :
  n <= Str.length a -> PyStr.slice_to n (a +:+ b) = PyStr.slice_to n a.
Proof.
  revert a. induction n as [|n IH]; intros a H; [reflexivity|].
  destruct a as [|c a]; simpl in H; [lia|].
  rewrite app_cons. simpl. rewrite IH by lia. reflexivity.
Qed.

Lemma slice_to_idem (n : nat) (a : str) :
  PyStr.slice_to n (PyStr.slice_to n a) = PyStr.slice_to n a.
Proof.
  revert a. induction n as [|n IH]; intros a; [reflexivity|].
  destruct a as [|c a]; [reflexivity|]. simpl. now rewrite IH.
Qed.

(** Whether a text starts with [p] is decided by its first characters. *)
Lemma startswith_window (p y z : str) (n : nat) :
  Str.length p <= n -> PyStr.slice_to n y = PyStr.slice_to n z ->
  PyStr.startswith p y = PyStr.startswith p z.
Proof.
  revert y z n. induction p as [|a p IH]; intros y z n Hn H; [reflexivity|].
  destruct n as [|n]; simpl in Hn; [lia|].
  destruct y as [|b y], z as [|c z]; simpl in H; try discriminate; [reflexivity|].
  injection H as -> H. rewrite !startswith_cons.
  now rewrite (IH y z n) by (lia || exact H).
Qed.

Lemma startswith_window_app (p x y z : str) (n : nat) :
  Str.length p <= Str.length x + n ->
  PyStr.slice_to n y = PyStr.slice_to n z ->
  PyStr.startswith p (x +:+ y) = PyStr.startswith p (x +:+ z).
Proof.
  revert p. induction x as [|c x IH]; intros p Hn H.
  - rewrite !app_empty. now apply (startswith_window p y z n).
  - rewrite !app_cons. destruct p as [|a p]; [reflexivity|].
    rewrite !startswith_cons. simpl in Hn. now rewrite (IH p) by (lia || exact H).
Qed.

(** A text without the separator is one piece. *)
Lemma split_one (sep s : str) :
  PyStr.contains sep s = false -> PyStr.split sep s = [s].
Proof.
  unfold PyStr.split. induction s as [|c s IH]; [reflexivity|].
  cbn [PyStr.contains PyStr.split_from].
  intros [H1 H2]%orb_false_iff. now rewrite H1, (IH H2).
Qed.

Lemma split_from_skip (sep : str) (k : nat) (a b : str) :
  Str.length a = k ->
  PyStr.split_from sep k (a +:+ b) = PyStr.split_from sep 0 b.
Proof.
  revert k. induction a as [|c a IH]; intros k H; simpl in H; subst k.
  - now rewrite app_empty.
  - rewrite app_cons. cbn [PyStr.split_from]. now apply IH.
Qed.

(** A piece that the separator follows, and in which it does not start
    earlier, is split off. *)
Lemma split_app (sep s t : str) :
  sep <> EmptyString -> free_of sep s ->
  PyStr.split sep (s +:+ sep +:+ t) = s :: PyStr.split sep t.
Proof.
  intros Hsep. unfold PyStr.split, free_of. induction s as [|c s IH]; intros Hfree.
  - rewrite app_empty. destruct sep as [|a sep]; [congruence|].
    rewrite app_cons. cbn [PyStr.split_from].
    rewrite <- app_cons, startswith_app_refl.
    simpl. rewrite Nat.sub_0_r. now rewrite split_from_skip.
  - rewrite app_cons in *. cbn [PyStr.contains] in Hfree.
    apply orb_false_iff in Hfree as [H1 H2].
    cbn [PyStr.split_from].
    assert (Hstart : PyStr.startswith sep (String c (s +:+ sep +:+ t)) = false).
    { rewrite <- H1. rewrite <- !app_cons.
      apply (startswith_window_app sep (String c s) (sep +:+ t) (init sep)
               (Str.length sep - 1)).
      - simpl. lia.
      - unfold init. rewrite slice_to_app by lia. now rewrite slice_to_idem. }
    rewrite Hstart, (IH H2). reflexivity.
Qed.

(** Two pieces around one separator. *)
Lemma split_two (sep s t : str) :
  sep <> EmptyString -> free_of sep s -> PyStr.contains sep t = false ->
  PyStr.split sep (s +:+ sep +:+ t) = [s; t].
Proof. intros Hsep Hs Ht. now rewrite split_app, split_one. Qed.

Lemma free_of_char (a : char) (s : str) :
  free_of (String a EmptyString) s <-> PyStr.contains (String a EmptyString) s = false.
Proof. unfold free_of, init. simpl. now rewrite app_empty_r. Qed.

Lemma split_lines_nonempty (s : str) : PyStr.split_lines s <> [].
Proof.
  induction s as [|c s IH]; [discriminate|]. cbn [PyStr.split_lines].
  destruct (Char.eqb c "010"); [discriminate|].
  destruct (PyStr.split_lines s); discriminate.
Qed.


Lemma split_lines_app (a b : str) :
  line_free a = true ->
  PyStr.split_lines (a +:+ String "010" b) = a :: PyStr.split_lines b.
Proof.
  induction a as [|c a IH]; intros H.
  - now rewrite app_empty.
  - rewrite app_cons. cbn [line_free] in H. apply andb_true_iff in H as [Hc Ha].
    apply negb_true_iff in Hc. cbn [PyStr.split_lines]. now rewrite Hc, (IH Ha).
Qed.

Lemma contains_app_r (w a b : str) :
  PyStr.contains w b = true -> PyStr.contains w (a +:+ b) = true.
Proof.
  intros H. induction a as [|c a IH]; [now rewrite app_empty|].
  rewrite app_cons. now apply contains_cons.
Qed.

End Splitting.

(* ===================================================================== *)
(** ** Permission patterns *)
(* ===================================================================== *)

Section PermissionPatterns.

Context {unicode : UnicodeData}.

Import Permissions.

Lemma word_run_app (name rest : str) :
  PyStr.all_chars PyStr.is_word name = true ->
  word_run (name +:+ String "(" rest) = name.
Proof.
  induction name as [|c name IH]; intros H; [reflexivity|].
  rewrite app_cons. simpl in *. apply andb_true_iff in H as [Hc H].
  now rewrite Hc, (IH H).
Qed.

Lemma upto_last_paren_app (pat : str) :
  line_free pat = true -> upto_last_paren (pat +:+ ")") = Some pat.
Proof.
  induction pat as [|c pat IH]; intros H; [reflexivity|].
  rewrite app_cons. cbn [line_free] in H. apply andb_true_iff in H as [Hc H].
  apply negb_true_iff in Hc. cbn [upto_last_paren]. now rewrite Hc, (IH H).
Qed.

(** A prefix test with no parenthesis in it does not see past the name. *)
Lemma startswith_before_paren (p name rest : str) :
  PyStr.all_chars PyStr.is_word p = true ->
  PyStr.startswith p (name +:+ String "(" rest) = PyStr.startswith p name.
Proof.
  revert name. induction p as [|a p IH]; intros name H; [reflexivity|].
  simpl in H. apply andb_true_iff in H as [Ha H].
  destruct name as [|b name].
  - rewrite app_empty, startswith_cons.
    destruct (char_eqb_spec a "(") as [->|_]; [discriminate|reflexivity].
  - rewrite app_cons, !startswith_cons. now rewrite (IH name H).
Qed.

(** X9. A permission written [Tool(pattern)] gives back its two parts: for a
    tool name made of word characters (and not starting with "mcp__") and a
    pattern that is not empty and has no line feed, the parsed type is
    "tool", the tool is the name and the pattern is the pattern, parentheses
    inside the pattern included. *)
Theorem tool_pattern_round_trip (name pat : str) :
  name <> EmptyString ->
  PyStr.all_chars PyStr.is_word name = true ->
  PyStr.startswith "mcp__" name = false ->
  pat <> EmptyString -> line_free pat = true ->
  parse_permission_pattern (name +:+ "(" +:+ pat +:+ ")")
  = mkParsed (name +:+ "(" +:+ pat +:+ ")") "tool" name pat
      (PyStr.contains "*" (name +:+ "(" +:+ pat +:+ ")")).
Proof.
  intros Hname Hword Hmcp Hpat Hfree. unfold parse_permission_pattern.
  change (name +:+ "(" +:+ pat +:+ ")") with (name +:+ String "(" (pat +:+ ")")).
  rewrite (startswith_before_paren "mcp__" name _ eq_refl), Hmcp.
  unfold match_tool_pattern. rewrite (word_run_app name _ Hword).
  apply nonempty_true in Hname. rewrite Hname, slice_from_app.
  rewrite char_eqb_refl, (upto_last_paren_app pat Hfree).
  apply nonempty_true in Hpat. now rewrite Hpat.
Qed.

(** X10. An MCP permission [mcp__server__tool] names its tool as
    [server/tool]: for a server in which no double underscore starts (not
    even with the separator that follows) and a tool name without a double
    underscore. *)
Theorem mcp_permission_names_server_and_tool (server name : str) :
  free_of "__" server -> PyStr.contains "__" name = false ->
  parse_permission_pattern ("mcp__" +:+ server +:+ "__" +:+ name)
  = mkParsed ("mcp__" +:+ server +:+ "__" +:+ name) "mcp"
      (server +:+ "/" +:+ name) ""
      (PyStr.contains "*" ("mcp__" +:+ server +:+ "__" +:+ name)).
Proof.
  intros Hserver Hname. unfold parse_permission_pattern.
  change (PyStr.startswith "mcp__" ("mcp__" +:+ server +:+ "__" +:+ name)) with true.
  cbv iota.
  change ("mcp__" +:+ server +:+ "__" +:+ name)
    with ("mcp" +:+ "__" +:+ server +:+ "__" +:+ name) at 1.
  rewrite (split_app "__" "mcp") by (discriminate || reflexivity).
  now rewrite (split_two "__" server name) by (discriminate || assumption).
Qed.

Lemma word_run_prefix (s : str) :
  PyStr.startswith (word_run s) s = true
  /\ PyStr.all_chars PyStr.is_word (word_run s) = true.
Proof.
  induction s as [|c s [IH1 IH2]]; [now split|]. simpl.
  destruct (PyStr.is_word c) eqn:E; [|now split].
  rewrite startswith_cons, char_eqb_refl, IH1. simpl. now rewrite E, IH2.
Qed.

Lemma startswith_refl (s : str) : PyStr.startswith s s = true.
Proof. induction s as [|c s IH]; [reflexivity|]. now rewrite startswith_cons, char_eqb_refl. Qed.

Lemma isalnum_word (s : str) :
  PyStr.isalnum s = true -> s <> EmptyString /\ PyStr.all_chars PyStr.is_word s = true.
Proof.
  unfold PyStr.isalnum. intros [Hne H]%andb_true_iff. split; [now apply nonempty_true|].
  eapply all_chars_impl; [|exact H].
  intros c Hc. unfold PyStr.is_word. now rewrite Hc.
Qed.

Lemma remove_underscore_word (s : str) :
  PyStr.isalnum (PyStr.remove_char "_" s) = true ->
  s <> EmptyString /\ PyStr.all_chars PyStr.is_word s = true.
Proof.
  unfold PyStr.isalnum. intros [Hne H]%andb_true_iff. split.
  - intros ->. discriminate.
  - clear Hne. induction s as [|c s IH]; [reflexivity|]. simpl in *.
    destruct (Char.eqb c "_") eqn:E.
    + rewrite (IH H), andb_true_r. unfold PyStr.is_word. rewrite E. apply orb_true_r.
    + simpl in H. apply andb_true_iff in H as [Hc H].
      rewrite (IH H), andb_true_r. unfold PyStr.is_word. now rewrite Hc.
Qed.

(** The type is "mcp" exactly for the inputs that start with "mcp__". *)
Lemma parsed_permission_is_consistent_aux (permission : str) :
  (PyStr.startswith "mcp__" permission = true ->
   type (parse_permission_pattern permission) = "mcp")
  /\ (type (parse_permission_pattern permission) = "mcp" ->
      PyStr.startswith "mcp__" permission = true).
Proof.
  unfold parse_permission_pattern.
  destruct (PyStr.startswith "mcp__" permission).
  - destruct (PyStr.split "__" permission) as [|? [|? [|? ?]]]; now split.
  - destruct (match_tool_pattern permission) as [[? ?]|];
      [|destruct (PyStr.isalnum permission
                  || PyStr.isalnum (PyStr.remove_char "_" permission))];
      split; simpl; discriminate.
Qed.

(** X11. What [parse_permission_pattern] guarantees for every input: [raw]
    is the input and [has_wildcard] tells whether it holds a star; the type
    is "mcp" exactly when the input starts with "mcp__", and otherwise
    "tool" or "unknown"; an unknown permission has neither tool nor pattern;
    a tool permission has a non-empty tool name made of word characters
    with which the input starts; only a tool permission has a pattern. *)
Theorem parsed_permission_is_consistent (permission : str) :
  raw (parse_permission_pattern permission) = permission
  /\ has_wildcard (parse_permission_pattern permission)
     = PyStr.contains "*" permission
  /\ (type (parse_permission_pattern permission) = "mcp"
      <-> PyStr.startswith "mcp__" permission = true)
  /\ (type (parse_permission_pattern permission) = "mcp"
      \/ type (parse_permission_pattern permission) = "tool"
      \/ type (parse_permission_pattern permission) = "unknown")
  /\ (type (parse_permission_pattern permission) = "unknown" ->
      tool (parse_permission_pattern permission) = EmptyString)
  /\ (type (parse_permission_pattern permission) = "tool" ->
      tool (parse_permission_pattern permission) <> EmptyString
      /\ PyStr.all_chars PyStr.is_word (tool (parse_permission_pattern permission))
         = true
      /\ PyStr.startswith (tool (parse_permission_pattern permission)) permission
         = true)
  /\ (pattern (parse_permission_pattern permission) <> EmptyString ->
      type (parse_permission_pattern permission) = "tool").
Proof.
  unfold parse_permission_pattern.
  destruct (PyStr.startswith "mcp__" permission) eqn:Emcp.
  { destruct (PyStr.split "__" permission) as [|? [|? [|? ?]]]; simpl;
      repeat split; auto; try discriminate; congruence. }
  destruct (match_tool_pattern permission) as [[name pat]|] eqn:Em.
  { simpl. repeat split; auto; try discriminate.
    - unfold match_tool_pattern in Em.
      destruct (PyStr.nonempty (word_run permission)) eqn:En; [|discriminate].
      apply nonempty_true in En.
      destruct (PyStr.slice_from _ permission) as [|c rest]; [discriminate|].
      destruct (Char.eqb c "("); [|discriminate].
      destruct (upto_last_paren rest) as [q|]; [|discriminate].
      destruct (PyStr.nonempty q); [|discriminate]. now injection Em as <- _.
    - unfold match_tool_pattern in Em.
      destruct (PyStr.nonempty (word_run permission)); [|discriminate].
      destruct (PyStr.slice_from _ permission) as [|c rest]; [discriminate|].
      destruct (Char.eqb c "("); [|discriminate].
      destruct (upto_last_paren rest) as [q|]; [|discriminate].
      destruct (PyStr.nonempty q); [|discriminate]. injection Em as <- _.
      apply word_run_prefix.
    - unfold match_tool_pattern in Em.
      destruct (PyStr.nonempty (word_run permission)); [|discriminate].
      destruct (PyStr.slice_from _ permission) as [|c rest]; [discriminate|].
      destruct (Char.eqb c "("); [|discriminate].
      destruct (upto_last_paren rest) as [q|]; [|discriminate].
      destruct (PyStr.nonempty q); [|discriminate]. injection Em as <- _.
      apply word_run_prefix. }
  destruct (PyStr.isalnum permission || PyStr.isalnum (PyStr.remove_char "_" permission))
    eqn:Ea; simpl.
  - assert (Hw : permission <> EmptyString
                 /\ PyStr.all_chars PyStr.is_word permission = true).
    { apply orb_true_iff in Ea as [Ea|Ea];
        [now apply isalnum_word|now apply remove_underscore_word]. }
    repeat split; auto; try discriminate; try tauto. apply startswith_refl.
  - repeat split; auto; try discriminate; congruence.
Qed.

End PermissionPatterns.

Section PermissionPatternsExamples.

#[local] Existing Instance unicode_fragment.

Import Permissions.

Lemma tool_pattern_round_trip_witness :
  parse_permission_pattern ("Bash" +:+ "(" +:+ "git log (oneline):*" +:+ ")")
  = mkParsed "Bash(git log (oneline):*)" "tool" "Bash" "git log (oneline):*" true.
Proof.
  apply (tool_pattern_round_trip "Bash" "git log (oneline):*");
    [discriminate|reflexivity|reflexivity|discriminate|reflexivity].
Defined.

Lemma mcp_permission_names_server_and_tool_witness :
  parse_permission_pattern ("mcp__" +:+ "my_server" +:+ "__" +:+ "create_issue")
  = mkParsed "mcp__my_server__create_issue" "mcp" "my_server/create_issue" "" false.
Proof.
  apply (mcp_permission_names_server_and_tool "my_server" "create_issue");
    reflexivity.
Defined.

Lemma parsed_permission_is_consistent_witness :
  tool (parse_permission_pattern ("Caf" +:+ String 0xE9%N "(x)"))
  = "Caf" +:+ String 0xE9%N ""
  /\ PyStr.all_chars PyStr.is_word
       (tool (parse_permission_pattern ("Caf" +:+ String 0xE9%N "(x)"))) = true.
Proof.
  split; [reflexivity|].
  apply (proj1 (proj2 (proj2 (proj2 (proj2 (proj2
           (parsed_permission_is_consistent ("Caf" +:+ String 0xE9%N "(x)")))))))).
  reflexivity.
Defined.

End PermissionPatternsExamples.

Section GatherPermissions.

Context {unicode : UnicodeData}.

Import Permissions.

(** The loop gets through a list exactly when all its elements are strings. *)
Lemma add_permissions_raises (perms : list json) (output : gathered) :
  raises (add_permissions perms output) = negb (forallb is_jstring perms).
Proof.
  revert output. induction perms as [|j perms IH]; intros output; [reflexivity|].
  destruct j; simpl; auto.
Qed.

Lemma add_permissions_strings (perms : list str) (output : gathered) :
  add_permissions (map JString perms) output
  = Returns (fold_left (fun o perm => add_permission perm o) perms output).
Proof.
  revert output. induction perms as [|perm perms IH]; intros output; simpl; auto.
Qed.

Lemma iterate_strings (j : json) (items : list json) :
  iterate j = Returns items ->
  match j with JArray _ => True | _ => forallb is_jstring items = true end.
Proof.
  destruct j; simpl; try discriminate; auto; intros [= <-].
  - induction (Str.to_list s); simpl; auto.
  - induction members; simpl; auto.
Qed.

(** X12. [gather_permissions] raises exactly when a settings file was
    decoded to a value that is truthy and not of the expected shape (a dict
    whose "permissions", if present, is a dict whose "allow", if present, is
    a list of strings, a string or a dict).  A missing or unusable file, an
    empty or falsy value and every well-shaped value give a result; what
    "deny" holds never matters. *)
Theorem gather_permissions_raises_on_misshapen_settings
  (path : str) (f : settings_file) :
  raises (gather_permissions path f)
  = match f with
    | Decoded settings => truthy settings && negb (well_shaped settings)
    | _ => false
    end.
Proof.
  destruct f as [| |settings]; [reflexivity..|].
  unfold gather_permissions. simpl.
  destruct (truthy settings) eqn:Et; [|reflexivity]. simpl.
  destruct settings as [| | | |items|members]; try reflexivity. simpl.
  destruct (dict_get "permissions" members) as [perms|]; [|reflexivity]. simpl.
  destruct perms as [| | | |items|perms]; try reflexivity. simpl.
  destruct (dict_get "allow" perms) as [allow|]; [|reflexivity]. simpl.
  destruct allow as [| | |s|items|ms]; try reflexivity; simpl.
  - rewrite add_permissions_raises.
    pose proof (iterate_strings (JString s) _ eq_refl) as H. simpl in H.
    now rewrite H.
  - apply add_permissions_raises.
  - rewrite add_permissions_raises.
    pose proof (iterate_strings (JObject ms) _ eq_refl) as H. simpl in H.
    now rewrite H.
Qed.

Lemma fold_add_permission_snoc (perms : list str) (perm : str) (o : gathered) :
  fold_left (fun o perm => add_permission perm o) (perms ++ [perm]) o
  = add_permission perm (fold_left (fun o perm => add_permission perm o) perms o).
Proof. now rewrite fold_left_app. Qed.

(** The lists the loop builds from an output that starts empty. *)
Lemma fold_add_permission_lists (perms : list str) (o : gathered) :
  permission_patterns o = [] -> mcp_permissions o = [] -> bash_patterns o = [] ->
  permission_patterns (fold_left (fun o perm => add_permission perm o) perms o)
    = map parse_permission_pattern perms
  /\ mcp_permissions (fold_left (fun o perm => add_permission perm o) perms o)
     = List.filter (PyStr.startswith "mcp__") perms
  /\ bash_patterns (fold_left (fun o perm => add_permission perm o) perms o)
     = map pattern
         (List.filter (fun q => negb (Str.eqb (type q) "mcp")
                                && Str.eqb (tool q) "Bash")
            (map parse_permission_pattern perms))
  /\ current_permissions (fold_left (fun o perm => add_permission perm o) perms o)
     = current_permissions o
  /\ denied_patterns (fold_left (fun o perm => add_permission perm o) perms o)
     = denied_patterns o
  /\ settings_path (fold_left (fun o perm => add_permission perm o) perms o)
     = settings_path o
  /\ exists_ (fold_left (fun o perm => add_permission perm o) perms o) = exists_ o.
Proof.
  intros Hp Hm Hb.
  induction perms as [|perm perms (IH1 & IH2 & IH3 & IH4 & IH5 & IH6 & IH7)]
    using rev_ind; [now repeat split|].
  rewrite fold_add_permission_snoc.
  set (o' := fold_left _ perms o) in *. unfold add_permission.
  cbn [permission_patterns mcp_permissions bash_patterns current_permissions
       denied_patterns settings_path exists_].
  rewrite IH1, IH2, IH3, !map_app, !List.filter_app, !map_app.
  cbn [map List.filter].
  assert (Hmcp : Str.eqb (type (parse_permission_pattern perm)) "mcp"
                 = PyStr.startswith "mcp__" perm).
  { destruct (parsed_permission_is_consistent_aux perm) as [H1 H2].
    destruct (PyStr.startswith "mcp__" perm).
    - apply str_eqb_eq. now apply H1.
    - apply str_eqb_neq. intros H. apply H2 in H. discriminate. }
  rewrite Hmcp. repeat split; auto.
  - destruct (PyStr.startswith "mcp__" perm); [reflexivity|now rewrite app_nil_r].
  - destruct (PyStr.startswith "mcp__" perm); cbn [negb andb map];
      [now rewrite app_nil_r|].
    destruct (Str.eqb (tool (parse_permission_pattern perm)) "Bash");
      cbn [map]; rewrite ?app_nil_r; reflexivity.
Qed.

(** X13. For settings of the usual shape (a dict whose "permissions" is a
    dict whose "allow" is a list of strings), [gather_permissions] returns:
    [current_permissions] is the allow list as it is, [denied_patterns] is
    the deny list (empty when absent), [permission_patterns] holds the parse
    of each permission in order, [mcp_permissions] the permissions that start
    with "mcp__", and [bash_patterns] the patterns of the other permissions
    whose tool is "Bash" (the empty pattern for a bare "Bash"). *)
Theorem gather_permissions_of_allow_list
  (path : str) (members perms : list (str * json)) (allow : list str) :
  dict_get "permissions" members = Some (JObject perms) ->
  dict_get "allow" perms = Some (JArray (map JString allow)) ->
  exists output,
    gather_permissions path (Decoded (JObject members)) = Returns output
    /\ settings_path output = path
    /\ exists_ output = true
    /\ current_permissions output = JArray (map JString allow)
    /\ denied_patterns output
       = from_option id (JArray []) (dict_get "deny" perms)
    /\ permission_patterns output = map parse_permission_pattern allow
    /\ mcp_permissions output = List.filter (PyStr.startswith "mcp__") allow
    /\ bash_patterns output
       = map pattern
           (List.filter (fun q => negb (Str.eqb (type q) "mcp")
                                  && Str.eqb (tool q) "Bash")
              (map parse_permission_pattern allow)).
Proof.
  intros Hperms Hallow. unfold gather_permissions. simpl.
  destruct members as [|m members]; [discriminate|]. cbn [truthy negb].
  cbv iota. unfold get at 1. rewrite Hperms. simpl. rewrite Hallow. simpl.
  rewrite add_permissions_strings. eexists. split; [reflexivity|].
  match goal with
  | |- context [fold_left _ allow ?o] =>
      destruct (fold_add_permission_lists allow o eq_refl eq_refl eq_refl)
        as (H1 & H2 & H3 & H4 & H5 & H6 & H7)
  end.
  now rewrite H1, H2, H3, H4, H5, H6, H7.
Qed.

End GatherPermissions.

Section GatherPermissionsExamples.

#[local] Existing Instance unicode_fragment.

Import Permissions.

Lemma gather_permissions_of_allow_list_witness :
  exists output,
    gather_permissions ".claude/settings.json"
      (Decoded
         (JObject
            [("permissions",
              JObject [("allow", JArray (map JString ["Bash(ls:*)"; "Bash"; "mcp__a__b"]))])]))
    = Returns output
    /\ settings_path output = ".claude/settings.json"
    /\ exists_ output = true
    /\ current_permissions output
       = JArray (map JString ["Bash(ls:*)"; "Bash"; "mcp__a__b"])
    /\ denied_patterns output
       = from_option id (JArray [])
           (dict_get "deny"
              [("allow", JArray (map JString ["Bash(ls:*)"; "Bash"; "mcp__a__b"]))])
    /\ permission_patterns output
       = map parse_permission_pattern ["Bash(ls:*)"; "Bash"; "mcp__a__b"]
    /\ mcp_permissions output
       = List.filter (PyStr.startswith "mcp__") ["Bash(ls:*)"; "Bash"; "mcp__a__b"]
    /\ bash_patterns output
       = map pattern
           (List.filter (fun q => negb (Str.eqb (type q) "mcp")
                                  && Str.eqb (tool q) "Bash")
              (map parse_permission_pattern ["Bash(ls:*)"; "Bash"; "mcp__a__b"])).
Proof.
  apply (gather_permissions_of_allow_list ".claude/settings.json"
           [("permissions",
             JObject [("allow", JArray (map JString ["Bash(ls:*)"; "Bash"; "mcp__a__b"]))])]
           [("allow", JArray (map JString ["Bash(ls:*)"; "Bash"; "mcp__a__b"]))]
           ["Bash(ls:*)"; "Bash"; "mcp__a__b"]); reflexivity.
Defined.

End GatherPermissionsExamples.

Section PermissionGroups.

Context {unicode : UnicodeData}.

Import Permissions.

Lemma group_add_keys (name perm : str) (groups : list (str * list str)) :
  map fst (group_add name perm groups)
  = if bool_decide (name ∈ map fst groups) then map fst groups
    else map fst groups ++ [name].
Proof.
  induction groups as [|[k perms] groups IH]; simpl; [reflexivity|].
  destruct (str_eqb_spec k name) as [->|Hne]; simpl.
  - rewrite bool_decide_eq_true_2; [reflexivity|]. apply elem_of_cons. now left.
  - rewrite IH. destruct (decide (name ∈ map fst groups)) as [Hin|Hin].
    + rewrite !bool_decide_eq_true_2; [reflexivity| |exact Hin].
      apply elem_of_cons. now right.
    + rewrite !bool_decide_eq_false_2; [reflexivity| |exact Hin].
      intros [H|H]%elem_of_cons; [congruence|contradiction].
Qed.

Lemma group_add_NoDup (name perm : str) (groups : list (str * list str)) :
  NoDup (map fst groups) -> NoDup (map fst (group_add name perm groups)).
Proof.
  intros H. rewrite group_add_keys. case_bool_decide; [exact H|].
  apply NoDup_app. split; [exact H|]. split; [|apply NoDup_singleton].
  intros x Hx ->%list_elem_of_singleton. contradiction.
Qed.

Lemma group_add_get (name perm t : str) (groups : list (str * list str)) :
  from_option id [] (dict_get t (group_add name perm groups))
  = from_option id [] (dict_get t groups) ++ (if Str.eqb name t then [perm] else []).
Proof.
  induction groups as [|[k perms] groups IH]; simpl.
  - destruct (Str.eqb name t); reflexivity.
  - destruct (str_eqb_spec k name) as [->|Hne]; simpl.
    + destruct (Str.eqb name t); simpl; [reflexivity|now rewrite app_nil_r].
    + destruct (str_eqb_spec k t) as [->|_]; simpl; [|exact IH].
      destruct (str_eqb_spec name t); [congruence|now rewrite app_nil_r].
Qed.

Lemma group_add_nonempty (name perm : str) (groups : list (str * list str)) :
  Forall (fun g => snd g <> []) groups ->
  Forall (fun g => snd g <> []) (group_add name perm groups).
Proof.
  induction 1 as [|[k perms] groups Hk Hgroups IH]; simpl.
  - repeat constructor. discriminate.
  - destruct (Str.eqb k name); constructor; auto.
    simpl. intros H. apply app_eq_nil in H as [_ H]. discriminate.
Qed.

Lemma fold_add_permission_groups (perms : list str) (o : gathered) :
  by_tool o = [] ->
  NoDup (map fst (by_tool (fold_left (fun o perm => add_permission perm o) perms o)))
  /\ Forall (fun g => snd g <> [])
       (by_tool (fold_left (fun o perm => add_permission perm o) perms o))
  /\ forall t,
       from_option id []
         (dict_get t (by_tool (fold_left (fun o perm => add_permission perm o) perms o)))
       = List.filter (fun perm => Str.eqb (tool (parse_permission_pattern perm)) t)
           perms.
Proof.
  intros Ho.
  induction perms as [|perm perms (IH1 & IH2 & IH3)] using rev_ind.
  { simpl. rewrite Ho. repeat split; constructor. }
  rewrite fold_add_permission_snoc.
  set (o' := fold_left _ perms o) in *. unfold add_permission. cbn [by_tool].
  split; [now apply group_add_NoDup|]. split; [now apply group_add_nonempty|].
  intros t. rewrite group_add_get, IH3, List.filter_app. reflexivity.
Qed.

(** X14. [by_tool] groups the allowed permissions by their parsed tool: for
    settings of the usual shape, its keys are distinct, no group is empty,
    and the group of a tool holds, in order, exactly the permissions whose
    parsed tool it is (no group for a tool that no permission names), so
    every permission is in one group and one only. *)
Theorem by_tool_groups_the_allow_list
  (path : str) (members perms : list (str * json)) (allow : list str) :
  dict_get "permissions" members = Some (JObject perms) ->
  dict_get "allow" perms = Some (JArray (map JString allow)) ->
  exists output,
    gather_permissions path (Decoded (JObject members)) = Returns output
    /\ NoDup (map fst (by_tool output))
    /\ Forall (fun g => snd g <> []) (by_tool output)
    /\ forall t,
         from_option id [] (dict_get t (by_tool output))
         = List.filter
             (fun perm => Str.eqb (tool (parse_permission_pattern perm)) t) allow.
Proof.
  intros Hperms Hallow. unfold gather_permissions. simpl.
  destruct members as [|m members]; [discriminate|]. cbn [truthy negb].
  cbv iota. unfold get at 1. rewrite Hperms. simpl. rewrite Hallow. simpl.
  rewrite add_permissions_strings. eexists. split; [reflexivity|].
  now apply fold_add_permission_groups.
Qed.

End PermissionGroups.

Section PermissionGroupsExamples.

#[local] Existing Instance unicode_fragment.

Import Permissions.

Lemma by_tool_groups_the_allow_list_witness :
  exists output,
    gather_permissions ".claude/settings.json"
      (Decoded
         (JObject
            [("permissions",
              JObject [("allow", JArray (map JString ["Bash(ls:*)"; "Read"; "Bash"]))])]))
    = Returns output
    /\ NoDup (map fst (by_tool output))
    /\ Forall (fun g => snd g <> []) (by_tool output)
    /\ forall t,
         from_option id [] (dict_get t (by_tool output))
         = List.filter
             (fun perm => Str.eqb (tool (parse_permission_pattern perm)) t)
             ["Bash(ls:*)"; "Read"; "Bash"].
Proof.
  apply (by_tool_groups_the_allow_list ".claude/settings.json"
           [("permissions",
             JObject [("allow", JArray (map JString ["Bash(ls:*)"; "Read"; "Bash"]))])]
           [("allow", JArray (map JString ["Bash(ls:*)"; "Read"; "Bash"]))]
           ["Bash(ls:*)"; "Read"; "Bash"]); reflexivity.
Defined.

End PermissionGroupsExamples.

(* ===================================================================== *)
(** ** Session data *)
(* ===================================================================== *)

Section FilesEdited.

Import Session.


Lemma not_space_not_newline (c : char) :
  PyStr.is_space c = false -> Char.eqb c "010" = false.
Proof.
  intros H. destruct (char_eqb_spec c "010") as [->|_]; [discriminate|reflexivity].
Qed.

(** A text is blank when [rstrip], [lstrip] or [strip] empties it: when
    all its characters are white space. *)
Lemma rstrip_blank (s : str) :
  PyStr.nonempty (PyStr.rstrip s) = negb (PyStr.all_chars PyStr.is_space s).
Proof.
  induction s as [|c s IH]; [reflexivity|]. cbn [PyStr.rstrip PyStr.all_chars].
  rewrite IH. destruct (PyStr.is_space c), (PyStr.all_chars PyStr.is_space s);
    reflexivity.
Qed.

Lemma lstrip_blank (s : str) :
  PyStr.all_chars PyStr.is_space (PyStr.lstrip s) = PyStr.all_chars PyStr.is_space s.
Proof.
  induction s as [|c s IH]; [reflexivity|]. cbn [PyStr.lstrip PyStr.all_chars].
  destruct (PyStr.is_space c) eqn:E; [exact IH|].
  cbn [PyStr.all_chars]. now rewrite E.
Qed.

Lemma nonblank_spec (s : str) :
  nonblank s = negb (PyStr.all_chars PyStr.is_space s).
Proof. unfold nonblank, PyStr.strip. now rewrite rstrip_blank, lstrip_blank. Qed.

Lemma nonblank_cons (c : char) (s : str) :
  nonblank (String c s) = negb (PyStr.is_space c) || nonblank s.
Proof.
  rewrite !nonblank_spec. cbn [PyStr.all_chars]. now rewrite negb_andb.
Qed.

Lemma lstrip_rstrip (s : str) :
  PyStr.lstrip (PyStr.rstrip s) = PyStr.rstrip (PyStr.lstrip s).
Proof.
  induction s as [|c s IH]; [reflexivity|]. cbn [PyStr.rstrip PyStr.lstrip].
  destruct (PyStr.is_space c) eqn:Ec; cbn [andb].
  - destruct (PyStr.rstrip s) as [|d r] eqn:Er; cbn [PyStr.nonempty negb].
    + now rewrite <- IH.
    + cbn [PyStr.lstrip]. now rewrite Ec.
  - cbn [PyStr.lstrip PyStr.rstrip]. now rewrite Ec.
Qed.

Lemma strip_rstrip (s : str) : PyStr.strip (PyStr.rstrip s) = PyStr.strip s.
Proof. unfold PyStr.strip. now rewrite lstrip_rstrip, rstrip_idem. Qed.

Lemma slice_from_empty (n : nat) : PyStr.slice_from n EmptyString = EmptyString.
Proof. now destruct n. Qed.

Lemma slice_from_rstrip (n : nat) (s : str) :
  PyStr.slice_from n (PyStr.rstrip s) = PyStr.rstrip (PyStr.slice_from n s).
Proof.
  revert s. induction n as [|n IH]; intros s; [reflexivity|].
  destruct s as [|c s]; [reflexivity|]. cbn [PyStr.rstrip PyStr.slice_from].
  destruct (PyStr.is_space c && negb (PyStr.nonempty (PyStr.rstrip s))) eqn:E.
  - apply andb_true_iff in E as [_ E]. apply negb_true_iff in E.
    rewrite <- IH. destruct (PyStr.rstrip s); [|discriminate].
    now rewrite slice_from_empty.
  - cbn [PyStr.slice_from]. apply IH.
Qed.

(** The name read from a line does not depend on the white space at its
    end. *)
Lemma edited_file_rstrip (line : str) :
  edited_file (PyStr.rstrip line) = edited_file line.
Proof. unfold edited_file. now rewrite slice_from_rstrip, strip_rstrip. Qed.

Lemma nonblank_rstrip (line : str) : nonblank (PyStr.rstrip line) = nonblank line.
Proof. unfold nonblank. now rewrite strip_rstrip. Qed.

Lemma split_lines_cons (c : char) (s : str) :
  Char.eqb c "010" = false ->
  PyStr.split_lines (String c s)
  = String c (hd EmptyString (PyStr.split_lines s)) :: tl (PyStr.split_lines s).
Proof.
  intros H. cbn [PyStr.split_lines]. rewrite H.
  pose proof (split_lines_nonempty s) as Hne.
  destruct (PyStr.split_lines s); [congruence|reflexivity].
Qed.

(** Stripping the front of a text drops its leading blank lines and the
    leading white space of its first line that is not blank. *)
Lemma nonblank_lines_lstrip (s : str) :
  List.filter nonblank (PyStr.split_lines (PyStr.lstrip s))
  = match List.filter nonblank (PyStr.split_lines s) with
    | [] => []
    | first :: others => PyStr.lstrip first :: others
    end.
Proof.
  induction s as [|c s IH]; [reflexivity|]. cbn [PyStr.lstrip].
  destruct (PyStr.is_space c) eqn:Ec.
  - rewrite IH. destruct (char_eqb_spec c "010") as [->|Hc].
    + reflexivity.
    + rewrite (split_lines_cons c s) by (now apply char_eqb_neq).
      pose proof (split_lines_nonempty s) as Hne.
      destruct (PyStr.split_lines s) as [|l ls]; [congruence|].
      cbn [hd tl List.filter]. rewrite nonblank_cons, Ec. cbn [negb orb].
      destruct (nonblank l); [|reflexivity].
      cbn [PyStr.lstrip]. now rewrite Ec.
  - rewrite (split_lines_cons c s) by (now apply not_space_not_newline).
    cbn [List.filter]. rewrite nonblank_cons, Ec. cbn [negb orb PyStr.lstrip].
    now rewrite Ec.
Qed.

Lemma split_lines_one_empty (s : str) :
  PyStr.split_lines s = [EmptyString] -> s = EmptyString.
Proof.
  destruct s as [|c s]; [reflexivity|]. cbn [PyStr.split_lines].
  pose proof (split_lines_nonempty s) as Hne.
  destruct (Char.eqb c "010"), (PyStr.split_lines s); congruence.
Qed.

Lemma rstrip_lines_not_blank (lines : list str) :
  rstrip_lines lines <> [EmptyString].
Proof.
  induction lines as [|l lines IH]; [discriminate|]. cbn [rstrip_lines].
  destruct (rstrip_lines lines) as [|k kept] eqn:E.
  - destruct (PyStr.rstrip l); simpl; discriminate.
  - discriminate.
Qed.

Lemma split_lines_rstrip (s : str) :
  PyStr.split_lines (PyStr.rstrip s)
  = match rstrip_lines (PyStr.split_lines s) with
    | [] => [EmptyString]
    | kept => kept
    end.
Proof.
  induction s as [|c s IH]; [reflexivity|].
  cbn [PyStr.rstrip].
  destruct (char_eqb_spec c "010") as [->|Hc].
  - change (PyStr.split_lines (String "010" s))
      with (EmptyString :: PyStr.split_lines s).
    change (PyStr.is_space "010") with true. cbn [andb rstrip_lines].
    destruct (rstrip_lines (PyStr.split_lines s)) as [|k kept] eqn:E.
    + apply split_lines_one_empty in IH. now rewrite IH.
    + destruct (PyStr.rstrip s) as [|d r] eqn:Er.
      * exfalso. apply (rstrip_lines_not_blank (PyStr.split_lines s)).
        now rewrite E, <- IH.
      * cbn [PyStr.nonempty negb].
        change (PyStr.split_lines (String "010" (String d r)))
          with (EmptyString :: PyStr.split_lines (String d r)).
        now rewrite IH.
  - apply char_eqb_neq in Hc. rewrite (split_lines_cons c s Hc).
    pose proof (split_lines_nonempty s) as Hne.
    destruct (PyStr.split_lines s) as [|l ls] eqn:El; [congruence|].
    cbn [hd tl rstrip_lines] in *.
    destruct (rstrip_lines ls) as [|k kept] eqn:E.
    + cbn [PyStr.rstrip].
      destruct (PyStr.rstrip l) as [|d r] eqn:Erl; cbn [PyStr.nonempty negb] in *.
      * apply split_lines_one_empty in IH. rewrite IH. cbn [PyStr.nonempty negb].
        rewrite andb_true_r. destruct (PyStr.is_space c); [reflexivity|].
        cbn [PyStr.split_lines]. now rewrite Hc.
      * destruct (PyStr.rstrip s) as [|e r'] eqn:Er; [discriminate|].
        cbn [PyStr.nonempty negb]. rewrite !andb_false_r.
        rewrite (split_lines_cons c _ Hc), IH. reflexivity.
    + destruct (PyStr.rstrip s) as [|e r'] eqn:Er; [discriminate|].
      cbn [PyStr.nonempty negb]. rewrite andb_false_r.
      rewrite (split_lines_cons c _ Hc), IH. reflexivity.
Qed.

Lemma rstrip_lines_blank (lines : list str) :
  rstrip_lines lines = [] -> List.filter nonblank lines = [].
Proof.
  induction lines as [|l lines IH]; [reflexivity|]. cbn [rstrip_lines List.filter].
  destruct (rstrip_lines lines) as [|k kept]; [|discriminate].
  rewrite nonblank_spec, <- rstrip_blank.
  destruct (PyStr.nonempty (PyStr.rstrip l)); [discriminate|]. intros _. now apply IH.
Qed.

(** The names read from the lines do not depend on what [rstrip] removes. *)
Lemma edited_files_rstrip (s : str) :
  map edited_file (List.filter nonblank (PyStr.split_lines (PyStr.rstrip s)))
  = map edited_file (List.filter nonblank (PyStr.split_lines s)).
Proof.
  rewrite split_lines_rstrip.
  induction (PyStr.split_lines s) as [|l lines IH]; [reflexivity|].
  cbn [rstrip_lines].
  destruct (rstrip_lines lines) as [|k kept] eqn:E.
  - cbn [List.filter]. rewrite (rstrip_lines_blank lines E).
    rewrite (nonblank_spec l), <- rstrip_blank.
    destruct (PyStr.nonempty (PyStr.rstrip l)) eqn:En; [|reflexivity].
    cbn [List.filter]. rewrite nonblank_rstrip, nonblank_spec, <- rstrip_blank, En.
    cbn [map]. now rewrite edited_file_rstrip.
  - cbn [List.filter] in *. destruct (nonblank l); cbn [map]; now rewrite IH.
Qed.

(** What [get_files_edited] makes of the output of the command: each line
    that is not blank gives a name, read from the line as it is, except the
    first of them, which is read without its leading white space. *)
Lemma files_edited_of_output (output : str) :
  map edited_file (List.filter nonblank (PyStr.split_lines (PyStr.strip output)))
  = match List.filter nonblank (PyStr.split_lines output) with
    | [] => []
    | first :: others => edited_file (PyStr.lstrip first) :: map edited_file others
    end.
Proof.
  unfold PyStr.strip. rewrite edited_files_rstrip, nonblank_lines_lstrip.
  now destruct (List.filter nonblank (PyStr.split_lines output)).
Qed.

(** The name read from a rename entry. *)
Lemma edited_file_rename (x y : char) (old new : str) :
  free_of " -> " old -> PyStr.contains " -> " new = false ->
  PyStr.strip (old +:+ " -> " +:+ new) = old +:+ " -> " +:+ new ->
  edited_file (String x (String y (String " " (old +:+ " -> " +:+ new)))) = new.
Proof.
  intros Hfree Hnone Hstrip. unfold edited_file. cbn [PyStr.slice_from].
  rewrite Hstrip.
  rewrite (split_two " -> " old new) by (discriminate || assumption).
  assert (Hc : PyStr.contains " -> " (old +:+ " -> " +:+ new) = true).
  { apply contains_app_r, contains_startswith, startswith_app_refl. }
  now rewrite Hc.
Qed.

(** X15. [run_command] strips the output of [git status --porcelain], so
    when the first entry has a blank first status column (as in " M path")
    the first line loses its leading blank and [get_files_edited] reports
    the path without its first character; the lines after it are read as
    they are, whatever they are. *)
Theorem first_edited_file_loses_a_character
  (run : list str -> process) (y c : char) (p rest : str) :
  PyStr.is_space y = false ->
  line_free (String c p) = true ->
  PyStr.contains " -> " (PyStr.strip p) = false ->
  run ["git"; "status"; "--porcelain"]
  = Exited 0 (String " " (String y (String " " (String c p))) +:+ String "010" rest) ->
  get_files_edited run
  = Some (PyStr.strip p
          :: map edited_file (List.filter nonblank (PyStr.split_lines rest))).
Proof.
  intros Hy Hp Harrow Hrun.
  unfold get_files_edited, run_command. rewrite Hrun. cbn [fst snd Z.eqb negb].
  f_equal. fold nonblank. rewrite files_edited_of_output.
  rewrite split_lines_app
    by (cbn [line_free]; rewrite (not_space_not_newline y Hy); exact Hp).
  assert (Hnb : nonblank (String " " (String y (String " " (String c p)))) = true).
  { rewrite !nonblank_cons, Hy. cbn [negb]. now rewrite orb_true_r. }
  cbn [List.filter]. rewrite Hnb. cbn [PyStr.lstrip].
  change (PyStr.is_space " ") with true. cbv iota. rewrite Hy.
  f_equal. unfold edited_file. cbn [PyStr.slice_from]. now rewrite Harrow.
Qed.

(** X16. For a renamed file, [get_files_edited] reports the new name: an
    entry [XY old -> new] on any line of the output, with a first status
    column that is not blank, gives [new], for names in which the arrow
    does not occur and that have no white space around them. *)
Theorem renamed_file_is_reported_by_its_new_name
  (run : list str -> process) (stdout : str) (x y : char) (old new : str) :
  run ["git"; "status"; "--porcelain"] = Exited 0 stdout ->
  In (String x (String y (String " " (old +:+ " -> " +:+ new))))
    (PyStr.split_lines stdout) ->
  PyStr.is_space x = false ->
  free_of " -> " old -> PyStr.contains " -> " new = false ->
  PyStr.strip (old +:+ " -> " +:+ new) = old +:+ " -> " +:+ new ->
  edited_file (String x (String y (String " " (old +:+ " -> " +:+ new)))) = new
  /\ exists files, get_files_edited run = Some files /\ In new files.
Proof.
  intros Hrun Hin Hx Hfree Hnone Hstrip.
  pose proof (edited_file_rename x y old new Hfree Hnone Hstrip) as Hnew.
  split; [exact Hnew|].
  unfold get_files_edited, run_command. rewrite Hrun. cbn [fst snd Z.eqb negb].
  eexists. split; [reflexivity|]. fold nonblank. rewrite files_edited_of_output.
  set (entry := String x (String y (String " " (old +:+ " -> " +:+ new)))) in *.
  assert (Hentry : In entry (List.filter nonblank (PyStr.split_lines stdout))).
  { apply List.filter_In. split; [exact Hin|].
    unfold entry. rewrite nonblank_cons, Hx. reflexivity. }
  destruct (List.filter nonblank (PyStr.split_lines stdout)) as [|first others];
    [contradiction|].
  destruct Hentry as [->|Hentry].
  - left. unfold entry at 1. cbn [PyStr.lstrip]. rewrite Hx. exact Hnew.
  - right. rewrite <- Hnew. now apply in_map.
Qed.

End FilesEdited.

Section FilesEditedExamples.

Import Session.

Lemma first_edited_file_loses_a_character_witness :
  get_files_edited
    (fun _ => Exited 0 (" M src/app.py" +:+ String "010"
                        (" M README.md" +:+ String "010" EmptyString)))
  = Some ["rc/app.py"; "README.md"].
Proof.
  apply (first_edited_file_loses_a_character
           (fun _ => Exited 0 (" M src/app.py" +:+ String "010"
                               (" M README.md" +:+ String "010" EmptyString)))
           "M" "s" "rc/app.py" (" M README.md" +:+ String "010" EmptyString));
    reflexivity.
Defined.

Lemma renamed_file_is_reported_by_its_new_name_witness :
  edited_file "R  old name.py -> new name.py" = "new name.py"
  /\ exists files,
       get_files_edited
         (fun _ => Exited 0 ("M  src/app.py" +:+ String "010"
                             ("R  old name.py -> new name.py" +:+ String "010"
                              EmptyString)))
       = Some files
       /\ In "new name.py" files.
Proof.
  apply (renamed_file_is_reported_by_its_new_name
           (fun _ => Exited 0 ("M  src/app.py" +:+ String "010"
                               ("R  old name.py -> new name.py" +:+ String "010"
                                EmptyString)))
           ("M  src/app.py" +:+ String "010"
            ("R  old name.py -> new name.py" +:+ String "010" EmptyString))
           "R" " " "old name.py" "new name.py");
    [reflexivity|vm_compute; tauto|reflexivity..].
Defined.

End FilesEditedExamples.

Section GitLog.

Import Session.

Lemma plain_spec (s : str) :
  plain s = true -> PyStr.contains "|" s = false /\ line_free s = true.
Proof.
  unfold plain. intros [H1 H2]%andb_true_iff. now apply negb_true_iff in H1.
Qed.

Lemma plain_free (s : str) : plain s = true -> free_of "|" s.
Proof. intros H. apply free_of_char. now apply plain_spec. Qed.


Lemma contains_pipe_app (a b : str) : PyStr.contains "|" (a +:+ "|" +:+ b) = true.
Proof. apply contains_app_r, contains_startswith. reflexivity. Qed.

Lemma add_file_last (f : str) (commits : list commit) (c : commit) :
  add_file f (commits ++ [c])
  = commits ++ [mkCommit (hash c) (message c) (author c) (when c) (files c ++ [f])].
Proof.
  induction commits as [|c' commits IH]; [reflexivity|].
  simpl. rewrite IH. now destruct commits.
Qed.








(** X18. A pipe in the subject of a commit shifts the fields: of a header
    with five pipe-free fields [hash|s1|s2|author|when] the message is [s1]
    alone, the author is [s2], the rest of the subject, and [when] is the
    author's name; the date is dropped. *)
Theorem pipe_in_subject_shifts_the_fields
  (commits : list commit) (h s1 s2 a w : str) :
  plain h = true -> plain s1 = true -> plain s2 = true ->
  plain a = true -> plain w = true ->
  log_line commits (h +:+ "|" +:+ s1 +:+ "|" +:+ s2 +:+ "|" +:+ a +:+ "|" +:+ w)
  = commits ++ [mkCommit (PyStr.slice_to 8 h) s1 s2 a []].
Proof.
  intros Hh H1 H2 Ha Hw. unfold log_line. rewrite contains_pipe_app.
  rewrite (split_app "|" h) by (discriminate || now apply plain_free).
  rewrite (split_app "|" s1) by (discriminate || now apply plain_free).
  rewrite (split_app "|" s2) by (discriminate || now apply plain_free).
  rewrite (split_two "|" a w)
    by (discriminate || (now apply plain_free) || now apply plain_spec).
  reflexivity.
Qed.

End GitLog.

Section GitLogExamples.

Import Session.


Lemma pipe_in_subject_shifts_the_fields_witness :
  log_line [] ("0123456789abcdef" +:+ "|" +:+ "Use a " +:+ "|" +:+ " b pipe"
               +:+ "|" +:+ "Ann" +:+ "|" +:+ "2 days ago")
  = [] ++ [mkCommit "01234567" "Use a " " b pipe" "Ann" []].
Proof.
  apply (pipe_in_subject_shifts_the_fields [] "0123456789abcdef" "Use a " " b pipe"
           "Ann" "2 days ago"); reflexivity.
Defined.

End GitLogExamples.

Section GitData.

Import Session.

Lemma all_chars_lstrip (P : char -> bool) (s : str) :
  PyStr.all_chars P s = true -> PyStr.all_chars P (PyStr.lstrip s) = true.
Proof.
  induction s as [|c s IH]; [reflexivity|]. intros H. cbn [PyStr.lstrip].
  destruct (PyStr.is_space c); [|exact H].
  simpl in H. apply andb_true_iff in H as [_ H]. now apply IH.
Qed.

Lemma all_chars_rstrip (P : char -> bool) (s : str) :
  PyStr.all_chars P s = true -> PyStr.all_chars P (PyStr.rstrip s) = true.
Proof.
  induction s as [|c s IH]; [reflexivity|]. intros H. cbn [PyStr.rstrip].
  simpl in H. apply andb_true_iff in H as [Hc H].
  destruct (PyStr.is_space c && negb (PyStr.nonempty (PyStr.rstrip s)));
    [reflexivity|]. simpl. now rewrite Hc, IH.
Qed.

Lemma all_chars_slice_to (P : char -> bool) (n : nat) (s : str) :
  PyStr.all_chars P s = true -> PyStr.all_chars P (PyStr.slice_to n s) = true.
Proof.
  revert s. induction n as [|n IH]; intros s H; [reflexivity|].
  destruct s as [|c s]; [reflexivity|]. simpl in *.
  apply andb_true_iff in H as [Hc H]. now rewrite Hc, IH.
Qed.

Lemma length_slice_to (n : nat) (s : str) : Str.length (PyStr.slice_to n s) <= n.
Proof.
  revert s. induction n as [|n IH]; intros s; [simpl; lia|].
  destruct s as [|c s]; simpl; [lia|]. specialize (IH s). lia.
Qed.

(** A text has no pipe exactly when none of its characters is one. *)
Lemma no_pipe_chars (s : str) :
  PyStr.contains "|" s = false
  <-> PyStr.all_chars (fun c => negb (Char.eqb "|" c)) s = true.
Proof.
  induction s as [|c s IH]; [now split|].
  cbn [PyStr.contains PyStr.all_chars]. rewrite startswith_cons.
  cbn [PyStr.startswith]. rewrite andb_true_r, orb_false_iff, andb_true_iff, IH.
  now rewrite negb_true_iff.
Qed.

(** The pieces of a split at pipes hold no pipe. *)
Lemma split_pipe_pieces (s : str) :
  Forall (fun piece => PyStr.contains "|" piece = false) (PyStr.split "|" s).
Proof.
  unfold PyStr.split. induction s as [|c s IH]; [repeat constructor|].
  cbn [PyStr.split_from]. rewrite startswith_cons. cbn [PyStr.startswith].
  rewrite andb_true_r. destruct (Char.eqb "|" c) eqn:E.
  - constructor; [reflexivity|exact IH].
  - destruct (PyStr.split_from "|" 0 s) as [|piece pieces]; [repeat constructor|].
    + cbn [PyStr.contains]. rewrite startswith_cons, E. reflexivity.
    + apply Forall_cons in IH as [Hp IH]. constructor; [|exact IH].
      cbn [PyStr.contains]. now rewrite startswith_cons, E, Hp.
Qed.

Lemma lstrip_fixed_rstrip (s : str) :
  PyStr.lstrip s = s -> PyStr.lstrip (PyStr.rstrip s) = PyStr.rstrip s.
Proof.
  destruct s as [|c s]; [reflexivity|]. cbn [PyStr.lstrip PyStr.rstrip].
  destruct (PyStr.is_space c) eqn:E.
  - intros H. exfalso. pose proof (length_lstrip s) as Hl. rewrite H in Hl.
    simpl in Hl. lia.
  - intros _. cbn [andb PyStr.lstrip]. now rewrite E.
Qed.

Lemma lstrip_idem (s : str) : PyStr.lstrip (PyStr.lstrip s) = PyStr.lstrip s.
Proof.
  induction s as [|c s IH]; [reflexivity|]. cbn [PyStr.lstrip].
  destruct (PyStr.is_space c) eqn:E; [exact IH|]. cbn [PyStr.lstrip]. now rewrite E.
Qed.

(** [strip] leaves a stripped text alone. *)
Lemma strip_idem (s : str) : PyStr.strip (PyStr.strip s) = PyStr.strip s.
Proof.
  unfold PyStr.strip.
  rewrite (lstrip_fixed_rstrip (PyStr.lstrip s) (lstrip_idem s)).
  apply rstrip_idem.
Qed.

(** What every commit read from a log satisfies. *)
Lemma parse_log_commits (lines : list str) (acc : list commit) :
  Forall well_formed_commit acc ->
  Forall well_formed_commit (fold_left log_line lines acc).
Proof.
  revert acc. induction lines as [|line lines IH]; intros acc Hacc; [exact Hacc|].
  simpl. apply IH. unfold log_line.
  destruct (PyStr.contains "|" line) eqn:Epipe.
  - pose proof (split_pipe_pieces line) as Hp.
    destruct (PyStr.split "|" line) as [|p0 [|p1 [|p2 [|p3 ps]]]]; try exact Hacc.
    apply Forall_cons in Hp as [H0 Hp]. apply Forall_cons in Hp as [H1 Hp].
    apply Forall_cons in Hp as [H2 Hp]. apply Forall_cons in Hp as [H3 _].
    apply Forall_app. split; [exact Hacc|]. constructor; [|constructor].
    unfold well_formed_commit. cbn [hash message author when files].
    repeat split; auto.
    + apply length_slice_to.
    + apply no_pipe_chars, all_chars_slice_to. now apply no_pipe_chars.
  - destruct (PyStr.nonempty (PyStr.strip line)) eqn:Ene; [|exact Hacc].
    induction acc as [|c front _] using rev_ind; [exact Hacc|].
    replace (match front ++ [c] with [] => false | _ :: _ => true end) with true
      by (now destruct front).
    cbn [andb]. rewrite add_file_last.
    apply Forall_app in Hacc as [Hfront Hc]. apply Forall_app. split; [exact Hfront|].
    apply Forall_cons in Hc as [(Hh & H0 & H1 & H2 & H3 & Hf) _].
    constructor; [|constructor].
    unfold well_formed_commit. cbn [hash message author when files].
    repeat split; auto.
    apply Forall_app. split; [exact Hf|]. constructor; [|constructor].
    split; [now apply nonempty_true|]. split; [apply strip_idem|].
    apply no_pipe_chars. unfold PyStr.strip.
    apply all_chars_rstrip, all_chars_lstrip. now apply no_pipe_chars.
Qed.

(** [run_command] raises only when the call of the command does. *)
Lemma run_command_raises (run : list str -> process) (cmd : list str) :
  run_command run cmd = None -> run cmd = OtherError.
Proof. unfold run_command. now destruct (run cmd). Qed.

(** X19. Whatever the commands print, every commit in the result of
    [get_git_data] has a hash of at most 8 characters, fields without a
    pipe, and file names that are not empty, have no white space at either
    end and hold no pipe; and when the directory is no git repository the
    result is the default one (no branch, no commits, no statistics, no
    status), whatever the other commands would print.  [get_git_data]
    raises only when a command it runs fails with an exception other than
    the two that [run_command] catches. *)
Theorem git_data_is_well_formed
  (suffix : str -> str) (run : list str -> process) (num_commits : Z) :
  match get_git_data suffix run num_commits with
  | Some data =>
      Forall well_formed_commit (commits data)
      /\ (available data = false -> data = mkGitData "" [] None [] false)
      /\ Some (available data)
         = fst <$> run_command run ["git"; "rev-parse"; "--git-dir"]
  | None => exists cmd, run cmd = OtherError
  end.
Proof.
  unfold get_git_data.
  repeat match goal with
         | |- context [match run_command run ?cmd with _ => _ end] =>
             let E := fresh "E" in
             destruct (run_command run cmd) as [[? ?]|] eqn:E;
             [|eexists; apply (run_command_raises run cmd E)];
             cbn [fst snd negb fmap option_fmap option_map];
             try match goal with
                 | |- context [if negb ?b then _ else _] => destruct b; cbn [negb]
                 end
         end.
  - split; [|split; [discriminate|reflexivity]]. cbn [commits].
    match goal with |- context [if ?b then _ else _] => destruct b end;
      [|constructor].
    unfold parse_log. apply parse_log_commits. constructor.
  - split; [constructor|]. now split.
Qed.

End GitData.

Section DiffStats.

Import Session.

Lemma dict_set_incr (k : str) (d : list (str * nat)) :
  dict_set k (from_option id 0 (dict_get k d) + 1) d = counter_incr k d.
Proof.
  induction d as [|[k' n] d IH]; simpl; [reflexivity|].
  destruct (Str.eqb k' k); simpl.
  - now rewrite Nat.add_1_r.
  - now rewrite IH.
Qed.

Lemma sum_counts_incr (k : str) (d : list (str * nat)) :
  sum_counts (counter_incr k d) = S (sum_counts d).
Proof.
  unfold sum_counts. induction d as [|[k' n] d IH]; simpl; [reflexivity|].
  destruct (Str.eqb k' k); simpl; [reflexivity|]. rewrite IH. lia.
Qed.

Lemma counter_incr_NoDup (k : str) (d : list (str * nat)) :
  NoDup (map fst d) -> NoDup (map fst (counter_incr k d)).
Proof.
  intros H. destruct (decide (k ∈ map fst d)) as [Hk|Hk].
  - now rewrite counter_incr_keys_known.
  - rewrite counter_incr_keys_new by exact Hk.
    apply NoDup_app. split; [exact H|]. split; [|apply NoDup_singleton].
    intros x Hx ->%list_elem_of_singleton. contradiction.
Qed.

Lemma counter_incr_positive (k : str) (d : list (str * nat)) :
  k <> EmptyString ->
  Forall (fun kv => fst kv <> EmptyString /\ 1 <= snd kv) d ->
  Forall (fun kv => fst kv <> EmptyString /\ 1 <= snd kv) (counter_incr k d).
Proof.
  intros Hk. induction 1 as [|[k' n] d [Hk' Hn] Hd IH]; simpl.
  - repeat constructor. exact Hk.
  - destruct (Str.eqb k' k); constructor; auto. simpl in *. split; [exact Hk'|lia].
Qed.

Lemma diff_line_stats (suffix : str -> str) (st : stats) (line : str) :
  stats_add_up st ->
  stats_add_up (diff_line suffix st line)
  /\ total_files (diff_line suffix st line)
     = total_files st + (if PyStr.contains "|" line then 1 else 0).
Proof.
  intros (H1 & H2 & H3). unfold diff_line.
  destruct (PyStr.contains "|" line); [|split; [now repeat split|lia]].
  split; [|reflexivity]. unfold stats_add_up. cbn [total_files by_extension].
  rewrite dict_set_incr. fold (sum_counts (counter_incr
    (if PyStr.nonempty (suffix (PyStr.strip (hd EmptyString (PyStr.split "|" line))))
     then suffix (PyStr.strip (hd EmptyString (PyStr.split "|" line)))
     else "(no ext)") (by_extension st))).
  rewrite sum_counts_incr. unfold sum_counts. split; [lia|].
  split; [now apply counter_incr_NoDup|].
  apply counter_incr_positive; [|exact H3].
  destruct (PyStr.nonempty (suffix _)) eqn:En; [now apply nonempty_true|discriminate].
Qed.

(** What the statistics satisfy after any number of lines. *)
Lemma parse_diff_stats (suffix : str -> str) (lines : list str) (st : stats) :
  stats_add_up st ->
  stats_add_up (fold_left (diff_line suffix) lines st)
  /\ total_files (fold_left (diff_line suffix) lines st)
     = total_files st + length (List.filter (PyStr.contains "|") lines).
Proof.
  revert st. induction lines as [|line lines IH]; intros st H; simpl.
  - split; [exact H|lia].
  - destruct (diff_line_stats suffix st line H) as [H' Ht].
    destruct (IH _ H') as [I1 I2]. split; [exact I1|]. rewrite I2, Ht.
    destruct (PyStr.contains "|" line); simpl; lia.
Qed.

(** X20. The statistics that [get_git_data] draws from [git diff --stat]
    add up: [total_files] is the sum of the counts in [by_extension], whose
    keys are distinct and never empty (a file without suffix counts under
    "(no ext)") and whose counts are at least 1; and [total_files] is the
    number of lines of the output that hold a pipe. *)
Theorem diff_stats_add_up
  (suffix : str -> str) (run : list str -> process) (num_commits : Z) :
  match diff_stats <$> get_git_data suffix run num_commits with
  | Some (Some st) => stats_add_up st
  | _ => True
  end
  /\ forall diff_output,
       total_files (parse_diff suffix diff_output)
       = length (List.filter (PyStr.contains "|") (PyStr.split_lines diff_output)).
Proof.
  assert (Hall : forall diff_output,
             stats_add_up (parse_diff suffix diff_output)
             /\ total_files (parse_diff suffix diff_output)
                = 0 + length (List.filter (PyStr.contains "|")
                                (PyStr.split_lines diff_output))).
  { intros diff_output. unfold parse_diff. apply parse_diff_stats.
    repeat split; constructor. }
  split.
  - unfold get_git_data.
    repeat match goal with
           | |- context [match run_command run ?cmd with _ => _ end] =>
               destruct (run_command run cmd) as [[? ?]|]; [|exact I];
               cbn [fst snd negb];
               try match goal with
                   | |- context [if negb ?b then _ else _] =>
                       destruct b; cbn [negb]; [|exact I]
                   end
           end.
    cbn [fmap option_fmap option_map diff_stats].
    match goal with
    | |- context [if ?b then Some (parse_diff suffix ?out) else None] =>
        destruct b; [apply (Hall out)|exact I]
    end.
  - intros diff_output. now destruct (Hall diff_output) as [_ ->].
Qed.

End DiffStats.

(* ===================================================================== *)
(** ** More on the parser and on the tables *)
(* ===================================================================== *)

Section Preamble.

Context {unicode : UnicodeData}.

Lemma split_lines_app_any (a b : str) :
  PyStr.split_lines (a +:+ String "010" b)
  = PyStr.split_lines a ++ PyStr.split_lines b.
Proof.
  induction a as [|c a IH]; [now rewrite app_empty|].
  rewrite app_cons. cbn [PyStr.split_lines]. rewrite IH.
  destruct (Char.eqb c "010"); [reflexivity|].
  pose proof (split_lines_nonempty a) as Hne.
  destruct (PyStr.split_lines a); [congruence|reflexivity].
Qed.

Lemma flush_same (st1 st2 : parse_state) :
  same_but_preamble st1 st2 -> flush st1 = flush st2.
Proof.
  intros (Hr & Hs & Hi). unfold flush, pending. rewrite <- Hs, Hr.
  destruct (current_section st1) as [s|]; [|reflexivity].
  destruct Hi as [Hi|Hi]; [discriminate|]. now rewrite Hi.
Qed.

Lemma parse_line_same (st1 st2 : parse_state) (raw : str) :
  same_but_preamble st1 st2 ->
  same_but_preamble (parse_line st1 raw) (parse_line st2 raw).
Proof.
  intros H. pose proof (flush_same _ _ H) as Hf. destruct H as (Hr & Hs & Hi).
  unfold parse_line. rewrite <- Hs, Hr.
  case_ifs; unfold same_but_preamble; simpl; rewrite ?Hf, ?Hr;
    repeat split; auto.
  destruct Hi as [Hi|Hi]; [now left|right; now rewrite Hi].
Qed.

Lemma parse_lines_same (lines : list str) (st1 st2 : parse_state) :
  same_but_preamble st1 st2 ->
  same_but_preamble (fold_left parse_line lines st1) (fold_left parse_line lines st2).
Proof.
  revert st1 st2. induction lines as [|l lines IH]; intros st1 st2 H; [exact H|].
  simpl. now apply IH, parse_line_same.
Qed.

(** Without a heading, nothing is stored and no section opens. *)
Lemma parse_lines_preamble (lines : list str) (st : parse_state) :
  current_section st = None ->
  Forall (fun raw => is_heading_line raw = false) lines ->
  refl (fold_left parse_line lines st) = refl st
  /\ current_section (fold_left parse_line lines st) = None.
Proof.
  revert st. induction lines as [|l lines IH]; intros st Hs Hall; [now split|].
  apply Forall_cons in Hall as [Hl Hall]. simpl.
  assert (Hstep : refl (parse_line st l) = refl st
                  /\ current_section (parse_line st l) = None).
  { unfold parse_line. unfold is_heading_line in Hl. rewrite Hl, Hs.
    rewrite andb_false_r. case_ifs; now split. }
  destruct Hstep as [Hr Hs']. destruct (IH _ Hs' Hall) as [IH1 IH2].
  now rewrite IH1, Hr.
Qed.

(** X21. What stands before the first heading never counts: for a text
    [pre] without a level-2 heading line, the document made of [pre], a line
    feed and [rest] parses to the same record as [rest] alone. *)
Theorem text_before_the_first_heading_is_ignored
  (filepath : path) (pre rest : str) :
  Forall (fun raw => is_heading_line raw = false) (PyStr.split_lines pre) ->
  parse_content filepath (pre +:+ String "010" rest) = parse_content filepath rest.
Proof.
  intros Hpre. unfold parse_content.
  rewrite split_lines_app_any, fold_left_app.
  apply flush_same, parse_lines_same.
  destruct (parse_lines_preamble (PyStr.split_lines pre)
              (mkState (initial_reflection filepath) None []) eq_refl Hpre)
    as [Hr Hs].
  unfold same_but_preamble. rewrite Hr, Hs. simpl. auto.
Qed.

End Preamble.

Section PreambleExamples.

#[local] Existing Instance unicode_fragment.

Lemma text_before_the_first_heading_is_ignored_witness :
  parse_content (mkPath "notes.md" "notes")
    (("# Title" +:+ String "010" "- stray item")
     +:+ String "010" ("## Discoveries" +:+ String "010" "- Caching helps"))
  = parse_content (mkPath "notes.md" "notes")
      ("## Discoveries" +:+ String "010" "- Caching helps").
Proof.
  apply text_before_the_first_heading_is_ignored.
  repeat constructor.
Defined.

End PreambleExamples.

Section TablesAgree.

Context {unicode : UnicodeData}.

Lemma elem_of_take_more {A} (n m : nat) (l : list A) (x : A) :
  n <= m -> x ∈ take n l -> x ∈ take m l.
Proof.
  intros Hnm. rewrite !elem_of_take. intros (i & Hi & Hlt). exists i. split; [exact Hi|lia].
Qed.

(** X22. The two tables agree: every entry of [discovery_keywords] with a
    count of 2 or more is an entry of [recurring_across_sessions] too, with
    the same count. *)
Theorem frequent_discoveries_are_recurring (reflections : list reflection) :
  Forall
    (fun kc =>
       2 <= snd kc ->
       exists ds, (fst kc, mkRecurrence (snd kc) ds)
                  ∈ recurring_across_sessions (analyze_recurring_themes reflections))
    (discovery_keywords (analyze_recurring_themes reflections)).
Proof.
  rewrite recurring_all. unfold analyze_recurring_themes. cbn [discovery_keywords].
  rewrite cnt_discovery_all.
  rewrite dict_of_distinct by (apply most_common_keys_NoDup, count_all_keys).
  apply Forall_forall. intros [k n] Hk Hn. simpl in *.
  eexists. apply list_elem_of_fmap.
  exists (k, n). split; [reflexivity|].
  apply list_elem_of_In, List.filter_In. split.
  - apply list_elem_of_In. unfold most_common in *.
    now apply (elem_of_take_more 15 20); [lia|].
  - simpl. destruct n as [|[|n]]; [lia|lia|reflexivity].
Qed.

End TablesAgree.
